(** * The drmprime-wayland hardware-decode overlay driver

    A shallow embedding of [video/out/opengl/hwdec_drmprime_wayland.c]:
    the three driver entry points [init], [overlay_frame] and [uninit], and
    the Wayland listeners they install ([registry_handle_add],
    [param_create_succeeded], [param_create_failed], [buffer_release]).

    The driver is glue around libwayland-client, so the embedding is a state
    and error monad over an explicit store of client-side protocol objects:
    every request the driver marshals is appended to a log, every proxy it
    creates or destroys lives in a finite map, and the events a blocking
    round-trip dispatches are an input of the call.  Undefined behaviour of
    the C program (a null or dangling pointer handed to libwayland, an index
    outside an array, a read of indeterminate memory) is a [Fault].

    Left out: the messages written to the host's log ([MP_ERR],
    [MP_VERBOSE], [p->log]), which no other part of the driver reads. *)

From stdpp Require Import gmap strings list fin_maps.
From Stdlib Require Import ZArith.

Local Open Scope Z_scope.

(** ** Machine integers *)

(** Conversion to [uint32_t], as at the call of a protocol request whose
    argument is unsigned. *)
Definition uint32 (z : Z) : Z := z mod 2 ^ 32.

(** Conversion to [int] / [int32_t]; [int] arithmetic wraps around (the
    two's-complement reading of signed overflow). *)
Definition int32 (z : Z) : Z := (z + 2 ^ 31) mod 2 ^ 32 - 2 ^ 31.

Definition int_sub (a b : Z) : Z := int32 (a - b).

(** ** libavutil's DRM frame descriptor (hwcontext_drm.h) *)

(** [enum { AV_DRM_MAX_PLANES = 4 }] in libavutil/hwcontext_drm.h. *)
Definition AV_DRM_MAX_PLANES : Z := 4.

Record AVDRMObjectDescriptor := {
  fd : Z;
  size : Z;
  format_modifier : Z
}.

Record AVDRMPlaneDescriptor := {
  object_index : Z;
  offset : Z;
  pitch : Z
}.

Record AVDRMLayerDescriptor := {
  format : Z;
  nb_planes : Z;
  planes : list AVDRMPlaneDescriptor  (* planes[AV_DRM_MAX_PLANES] *)
}.

Record AVDRMFrameDescriptor := {
  nb_objects : Z;
  objects : list AVDRMObjectDescriptor;  (* objects[AV_DRM_MAX_PLANES] *)
  nb_layers : Z;
  layers : list AVDRMLayerDescriptor     (* layers[AV_DRM_MAX_PLANES] *)
}.

(** ** Host types *)

(** [struct mp_image]: the driver only reads [planes[0]], which for
    IMGFMT_DRMPRIME holds the pointer to the frame descriptor (or NULL). *)
Record mp_image := {
  planes_0 : option AVDRMFrameDescriptor
}.

Record mp_rect := { x0 : Z; y0 : Z; x1 : Z; y1 : Z }.

(** Client-side objects (proxies, malloc'ed cells) are named by handles;
    a C pointer is an [option handle], NULL being [None]. *)
Abbreviation handle := nat.

(** [struct mpv_opengl_cb_wayland_params]: the embedder's display
    connection, compositor and main surface. *)
Record mpv_opengl_cb_wayland_params := {
  display : handle;
  compositor : handle;
  surface : handle
}.

(** The [GL] context, as far as [mpgl_get_native_display] reads it. *)
Record GL := {
  native_display : string → option mpv_opengl_cb_wayland_params
}.

Definition mpgl_get_native_display (gl : GL) (name : string)
  : option mpv_opengl_cb_wayland_params := native_display gl name.

(** [struct ra_hwdec], as far as [init] reads it: [ra_gl_get(hw->ra)].
    [hw->priv] is the mutable part and lives in the state below. *)
Record ra_hwdec := {
  ra_gl_get : option GL
}.

(** ** Driver data *)

(** A memory cell obtained from [malloc] is indeterminate until written. *)
Inductive cell (A : Type) := Uninit | Val (a : A).
Arguments Uninit {A}.
Arguments Val {A} a.

(** [struct dmabuf_frame]. *)
Record dmabuf_frame := {
  buffer : cell (option handle);
  image : cell (option mp_image)
}.

(** [struct priv]; [priv_size] makes the host allocate it zeroed. *)
Record priv := {
  wayland_params : option mpv_opengl_cb_wayland_params;
  registry : option handle;
  dmabuf : option handle;
  subcompositor : option handle;
  video_surface : option handle;
  video_subsurface : option handle
}.

Definition priv_zero : priv :=
  {| wayland_params := None; registry := None; dmabuf := None;
     subcompositor := None; video_surface := None; video_subsurface := None |}.

(** ** The Wayland connection *)

(** Requests marshalled on the connection. *)
Inductive wl_request :=
| Rq_display_sync (dpy : handle)
| Rq_display_get_registry (dpy new_id : handle)
| Rq_registry_bind (reg : handle) (name : Z) (interface : string) (ver : Z)
                   (new_id : handle)
| Rq_compositor_create_surface (comp new_id : handle)
| Rq_subcompositor_get_subsurface (subcomp new_id surf parent : handle)
| Rq_subsurface_place_below (subsurf sibling : handle)
| Rq_subsurface_destroy (subsurf : handle)
| Rq_surface_destroy (surf : handle)
| Rq_surface_attach (surf : handle) (buf : option handle) (x y : Z)
| Rq_surface_commit (surf : handle)
| Rq_dmabuf_create_params (dmabuf new_id : handle)
| Rq_params_add (params : handle)
                (fd plane_idx offset stride modifier_hi modifier_lo : Z)
| Rq_params_create (params : handle) (width height format flags : Z)
| Rq_params_destroy (params : handle)
| Rq_buffer_destroy (buf : handle).

(** Events a round-trip may dispatch.  The hand-off is synchronous, so at
    most one buffer-parameters object awaits its reply: [Ev_params_created]
    and [Ev_params_failed] are addressed to it. *)
Inductive wl_event :=
| Ev_registry_global (name : Z) (interface : string) (ver : Z)
| Ev_registry_global_remove (name : Z)
| Ev_dmabuf_format (format : Z)
| Ev_params_created
| Ev_params_failed
| Ev_buffer_release (buf : handle).

(** One plane entry of a buffer request ([zwp_linux_buffer_params_v1.add]). *)
Record plane_entry := {
  pe_fd : Z;
  pe_plane_idx : Z;
  pe_offset : Z;
  pe_stride : Z;
  pe_modifier_hi : Z;
  pe_modifier_lo : Z
}.

(** Arguments of [zwp_linux_buffer_params_v1.create]. *)
Record create_args := {
  ca_width : Z;
  ca_height : Z;
  ca_format : Z;
  ca_flags : Z
}.

(** A buffer request: the state of one [zwp_linux_buffer_params_v1]
    object.  The record outlives the proxy ([br_alive] turns false when the
    proxy is destroyed). *)
Record buffer_request := {
  br_planes : list plane_entry;
  br_created : option create_args;
  br_alive : bool
}.

(** A [wl_surface]: the buffer attached since the last commit (pending) and
    the buffer made current by the last commit. *)
Record surface_state := {
  ss_pending : option (option handle);
  ss_current : option handle
}.

(** A [wl_buffer] proxy: the request it was created from and the data of its
    listener. *)
Record buffer_state := {
  bs_origin : handle;
  bs_listener : option handle
}.

Record state := {
  st_priv : priv;                            (* hw->priv *)
  st_log : list wl_request;                  (* requests sent, oldest first *)
  st_surfaces : gmap handle surface_state;   (* live wl_surface proxies *)
  st_subsurfaces : gset handle;              (* live wl_subsurface proxies *)
  st_requests : gmap handle buffer_request;  (* buffer-parameters objects *)
  st_pending : option (handle * handle);     (* params listener and data *)
  st_buffers : gmap handle buffer_state;     (* live wl_buffer proxies *)
  st_frames : gmap handle dmabuf_frame;      (* malloc'ed dmabuf_frame cells *)
  st_next : handle                           (* next unused handle *)
}.

Definition set_priv (p : priv) (st : state) : state :=
  {| st_priv := p; st_log := st_log st; st_surfaces := st_surfaces st;
     st_subsurfaces := st_subsurfaces st; st_requests := st_requests st;
     st_pending := st_pending st; st_buffers := st_buffers st;
     st_frames := st_frames st; st_next := st_next st |}.

Definition set_log (l : list wl_request) (st : state) : state :=
  {| st_priv := st_priv st; st_log := l; st_surfaces := st_surfaces st;
     st_subsurfaces := st_subsurfaces st; st_requests := st_requests st;
     st_pending := st_pending st; st_buffers := st_buffers st;
     st_frames := st_frames st; st_next := st_next st |}.

Definition set_surfaces (m : gmap handle surface_state) (st : state) : state :=
  {| st_priv := st_priv st; st_log := st_log st; st_surfaces := m;
     st_subsurfaces := st_subsurfaces st; st_requests := st_requests st;
     st_pending := st_pending st; st_buffers := st_buffers st;
     st_frames := st_frames st; st_next := st_next st |}.

Definition set_subsurfaces (s : gset handle) (st : state) : state :=
  {| st_priv := st_priv st; st_log := st_log st; st_surfaces := st_surfaces st;
     st_subsurfaces := s; st_requests := st_requests st;
     st_pending := st_pending st; st_buffers := st_buffers st;
     st_frames := st_frames st; st_next := st_next st |}.

Definition set_requests (m : gmap handle buffer_request) (st : state) : state :=
  {| st_priv := st_priv st; st_log := st_log st; st_surfaces := st_surfaces st;
     st_subsurfaces := st_subsurfaces st; st_requests := m;
     st_pending := st_pending st; st_buffers := st_buffers st;
     st_frames := st_frames st; st_next := st_next st |}.

Definition set_pending (o : option (handle * handle)) (st : state) : state :=
  {| st_priv := st_priv st; st_log := st_log st; st_surfaces := st_surfaces st;
     st_subsurfaces := st_subsurfaces st; st_requests := st_requests st;
     st_pending := o; st_buffers := st_buffers st;
     st_frames := st_frames st; st_next := st_next st |}.

Definition set_buffers (m : gmap handle buffer_state) (st : state) : state :=
  {| st_priv := st_priv st; st_log := st_log st; st_surfaces := st_surfaces st;
     st_subsurfaces := st_subsurfaces st; st_requests := st_requests st;
     st_pending := st_pending st; st_buffers := m;
     st_frames := st_frames st; st_next := st_next st |}.

Definition set_frames (m : gmap handle dmabuf_frame) (st : state) : state :=
  {| st_priv := st_priv st; st_log := st_log st; st_surfaces := st_surfaces st;
     st_subsurfaces := st_subsurfaces st; st_requests := st_requests st;
     st_pending := st_pending st; st_buffers := st_buffers st;
     st_frames := m; st_next := st_next st |}.

Definition set_next (n : handle) (st : state) : state :=
  {| st_priv := st_priv st; st_log := st_log st; st_surfaces := st_surfaces st;
     st_subsurfaces := st_subsurfaces st; st_requests := st_requests st;
     st_pending := st_pending st; st_buffers := st_buffers st;
     st_frames := st_frames st; st_next := n |}.

(** ** The monad *)

Inductive fault :=
| NullPointer      (* NULL dereferenced or handed to libwayland *)
| DeadProxy        (* a destroyed proxy used or destroyed again *)
| OutOfBounds      (* array index outside [0, AV_DRM_MAX_PLANES) *)
| Uninitialised    (* indeterminate memory read *)
| InvalidFree.     (* a cell that is not allocated read, written or freed *)

Inductive result (A : Type) :=
| Ok (a : A) (st : state)
| Fault (f : fault).
Arguments Ok {A} a st.
Arguments Fault {A} f.

Definition M (A : Type) : Type := state → result A.

Definition ret {A} (a : A) : M A := fun st => Ok a st.

Definition bind {A B} (m : M A) (k : A → M B) : M B :=
  fun st => match m st with
            | Ok a st' => k a st'
            | Fault f => Fault f
            end.

Definition crash {A} (f : fault) : M A := fun _ => Fault f.

Notation "'let*' x ':=' m 'in' k" := (bind m (fun x => k))
  (at level 10, x name, m at level 100, k at level 200).
Notation "m ';;;' k" := (bind m (fun _ => k))
  (at level 100, k at level 200, right associativity).

Definition get : M state := fun st => Ok st st.
Definition modify (f : state → state) : M unit := fun st => Ok tt (f st).

(** A C pointer that is dereferenced. *)
Definition deref {A} (p : option A) : M A :=
  match p with
  | Some a => ret a
  | None => crash NullPointer
  end.

(** [a[i]] for an array of AV_DRM_MAX_PLANES elements. *)
Definition array_at {A} (a : list A) (i : Z) : M A :=
  if bool_decide (0 ≤ i < AV_DRM_MAX_PLANES) then
    match a !! Z.to_nat i with
    | Some x => ret x
    | None => crash OutOfBounds
    end
  else crash OutOfBounds.

Definition send (r : wl_request) : M unit :=
  modify (fun st => set_log (st_log st ++ [r]) st).

Definition fresh : M handle :=
  fun st => Ok (st_next st) (set_next (S (st_next st)) st).

(** ** libwayland-client and libc, as the driver uses them *)

(** *** Heap cells for [struct dmabuf_frame] *)

Definition malloc (ok : bool) : M (option handle) :=
  if ok then
    let* a := fresh in
    modify (fun st =>
      set_frames (<[a := {| buffer := Uninit; image := Uninit |}]> (st_frames st)) st) ;;;
    ret (Some a)
  else ret None.

Definition free (a : handle) : M unit :=
  let* st := get in
  match st_frames st !! a with
  | Some _ => modify (fun st => set_frames (delete a (st_frames st)) st)
  | None => crash InvalidFree
  end.

Definition load_frame (a : handle) : M dmabuf_frame :=
  let* st := get in
  match st_frames st !! a with
  | Some fr => ret fr
  | None => crash InvalidFree
  end.

Definition store_frame (a : handle) (fr : dmabuf_frame) : M unit :=
  let* st := get in
  match st_frames st !! a with
  | Some _ => modify (fun st => set_frames (<[a := fr]> (st_frames st)) st)
  | None => crash InvalidFree
  end.

Definition read_cell {A} (c : cell A) : M A :=
  match c with
  | Val a => ret a
  | Uninit => crash Uninitialised
  end.

(** [mp_image_new_ref]: a new reference to the same image. *)
Definition mp_image_new_ref (img : mp_image) : option mp_image := Some img.

(** [talloc_free] of an image reference: the reference is dropped. *)
Definition talloc_free (img : option mp_image) : M unit := ret tt.

(** *** zwp_linux_buffer_params_v1 *)

Definition live_request (params : handle) : M buffer_request :=
  let* st := get in
  match st_requests st !! params with
  | Some rq => if br_alive rq then ret rq else crash DeadProxy
  | None => crash DeadProxy
  end.

Definition put_request (params : handle) (rq : buffer_request) : M unit :=
  modify (fun st => set_requests (<[params := rq]> (st_requests st)) st).

Definition zwp_linux_dmabuf_v1_create_params (d : option handle) : M handle :=
  let* d := deref d in
  let* id := fresh in
  put_request id {| br_planes := []; br_created := None; br_alive := true |} ;;;
  send (Rq_dmabuf_create_params d id) ;;;
  ret id.

Definition zwp_linux_buffer_params_v1_add (params : handle)
    (fd plane_idx offset stride modifier_hi modifier_lo : Z) : M unit :=
  let* rq := live_request params in
  let e := {| pe_fd := fd; pe_plane_idx := plane_idx;
              pe_offset := offset; pe_stride := stride;
              pe_modifier_hi := modifier_hi;
              pe_modifier_lo := modifier_lo |} in
  put_request params {| br_planes := br_planes rq ++ [e];
                        br_created := br_created rq;
                        br_alive := br_alive rq |} ;;;
  send (Rq_params_add params fd plane_idx offset stride modifier_hi modifier_lo).

Definition zwp_linux_buffer_params_v1_add_listener (params data : handle) : M unit :=
  let* _ := live_request params in
  modify (set_pending (Some (params, data))).

Definition zwp_linux_buffer_params_v1_create (params : handle)
    (width height format flags : Z) : M unit :=
  let* rq := live_request params in
  let a := {| ca_width := width; ca_height := height;
              ca_format := format; ca_flags := flags |} in
  put_request params {| br_planes := br_planes rq;
                        br_created := Some a;
                        br_alive := br_alive rq |} ;;;
  send (Rq_params_create params width height format flags).

Definition zwp_linux_buffer_params_v1_destroy (params : handle) : M unit :=
  let* rq := live_request params in
  put_request params {| br_planes := br_planes rq;
                        br_created := br_created rq;
                        br_alive := false |} ;;;
  send (Rq_params_destroy params).

(** *** wl_buffer *)

Definition wl_buffer_add_listener (buf data : handle) : M unit :=
  let* st := get in
  match st_buffers st !! buf with
  | Some bs =>
      modify (fun st => set_buffers
        (<[buf := {| bs_origin := bs_origin bs; bs_listener := Some data |}]>
           (st_buffers st)) st)
  | None => crash DeadProxy
  end.

Definition wl_buffer_destroy (buf : handle) : M unit :=
  let* st := get in
  match st_buffers st !! buf with
  | Some _ =>
      modify (fun st => set_buffers (delete buf (st_buffers st)) st) ;;;
      send (Rq_buffer_destroy buf)
  | None => crash DeadProxy
  end.

(** *** wl_surface and wl_subsurface *)

(** A buffer argument is NULL or a live proxy. *)
Definition buffer_arg_ok (st : state) (buf : option handle) : bool :=
  match buf with
  | Some b => bool_decide (is_Some (st_buffers st !! b))
  | None => true
  end.

Definition wl_surface_attach (surf : option handle) (buf : option handle)
    (x y : Z) : M unit :=
  let* s := deref surf in
  let* st := get in
  match st_surfaces st !! s with
  | Some ss =>
      if buffer_arg_ok st buf then
        modify (fun st => set_surfaces
          (<[s := {| ss_pending := Some buf; ss_current := ss_current ss |}]>
             (st_surfaces st)) st) ;;;
        send (Rq_surface_attach s buf x y)
      else crash DeadProxy
  | None => crash DeadProxy
  end.

Definition wl_surface_commit (surf : option handle) : M unit :=
  let* s := deref surf in
  let* st := get in
  match st_surfaces st !! s with
  | Some ss =>
      modify (fun st => set_surfaces
        (<[s := {| ss_pending := None;
                   ss_current := match ss_pending ss with
                                 | Some b => b
                                 | None => ss_current ss
                                 end |}]>
           (st_surfaces st)) st) ;;;
      send (Rq_surface_commit s)
  | None => crash DeadProxy
  end.

Definition wl_surface_destroy (s : handle) : M unit :=
  let* st := get in
  match st_surfaces st !! s with
  | Some _ =>
      modify (fun st => set_surfaces (delete s (st_surfaces st)) st) ;;;
      send (Rq_surface_destroy s)
  | None => crash DeadProxy
  end.

Definition wl_subsurface_destroy (s : handle) : M unit :=
  let* st := get in
  if bool_decide (s ∈ st_subsurfaces st) then
    modify (fun st => set_subsurfaces (st_subsurfaces st ∖ {[s]}) st) ;;;
    send (Rq_subsurface_destroy s)
  else crash DeadProxy.

(** [ok] tells whether the proxy could be allocated; the call returns NULL
    otherwise. *)
Definition wl_compositor_create_surface (comp : handle) (ok : bool)
  : M (option handle) :=
  if ok then
    let* id := fresh in
    modify (fun st => set_surfaces
      (<[id := {| ss_pending := None; ss_current := None |}]> (st_surfaces st)) st) ;;;
    send (Rq_compositor_create_surface comp id) ;;;
    ret (Some id)
  else ret None.

Definition wl_subcompositor_get_subsurface (subcomp : option handle)
    (surf parent : handle) (ok : bool) : M (option handle) :=
  let* sc := deref subcomp in
  let* st := get in
  match st_surfaces st !! surf with
  | Some _ =>
      if ok then
        let* id := fresh in
        modify (fun st => set_subsurfaces ({[id]} ∪ st_subsurfaces st) st) ;;;
        send (Rq_subcompositor_get_subsurface sc id surf parent) ;;;
        ret (Some id)
      else ret None
  | None => crash DeadProxy
  end.

Definition wl_subsurface_place_below (subsurf sibling : handle) : M unit :=
  let* st := get in
  if bool_decide (subsurf ∈ st_subsurfaces st) then
    send (Rq_subsurface_place_below subsurf sibling)
  else crash DeadProxy.

(** *** wl_display and wl_registry *)

Definition wl_display_get_registry (dpy : handle) : M (option handle) :=
  let* id := fresh in
  send (Rq_display_get_registry dpy id) ;;;
  ret (Some id).

Definition wl_registry_bind (reg : handle) (name : Z) (interface : string)
    (ver : Z) : M (option handle) :=
  let* id := fresh in
  send (Rq_registry_bind reg name interface ver id) ;;;
  ret (Some id).

(** The registry listener is [registry_listener] with data [p], the dmabuf
    listener is [dmabuf_listener]: both are fixed, so adding them records
    nothing beyond the proxy being set. *)
Definition wl_registry_add_listener (reg : option handle) : M unit :=
  let* _ := deref reg in ret tt.

Definition zwp_linux_dmabuf_v1_add_listener (d : option handle) : M unit :=
  let* _ := deref d in ret tt.

(** ** The driver *)

Definition get_priv : M priv := fun st => Ok (st_priv st) st.

Definition set_wayland_params (v : option mpv_opengl_cb_wayland_params) : M unit :=
  modify (fun st => let p := st_priv st in
    set_priv {| wayland_params := v; registry := registry p; dmabuf := dmabuf p;
                subcompositor := subcompositor p;
                video_surface := video_surface p;
                video_subsurface := video_subsurface p |} st).

Definition set_registry (v : option handle) : M unit :=
  modify (fun st => let p := st_priv st in
    set_priv {| wayland_params := wayland_params p; registry := v;
                dmabuf := dmabuf p; subcompositor := subcompositor p;
                video_surface := video_surface p;
                video_subsurface := video_subsurface p |} st).

Definition set_dmabuf (v : option handle) : M unit :=
  modify (fun st => let p := st_priv st in
    set_priv {| wayland_params := wayland_params p; registry := registry p;
                dmabuf := v; subcompositor := subcompositor p;
                video_surface := video_surface p;
                video_subsurface := video_subsurface p |} st).

Definition set_subcompositor (v : option handle) : M unit :=
  modify (fun st => let p := st_priv st in
    set_priv {| wayland_params := wayland_params p; registry := registry p;
                dmabuf := dmabuf p; subcompositor := v;
                video_surface := video_surface p;
                video_subsurface := video_subsurface p |} st).

Definition set_video_surface (v : option handle) : M unit :=
  modify (fun st => let p := st_priv st in
    set_priv {| wayland_params := wayland_params p; registry := registry p;
                dmabuf := dmabuf p; subcompositor := subcompositor p;
                video_surface := v;
                video_subsurface := video_subsurface p |} st).

Definition set_video_subsurface (v : option handle) : M unit :=
  modify (fun st => let p := st_priv st in
    set_priv {| wayland_params := wayland_params p; registry := registry p;
                dmabuf := dmabuf p; subcompositor := subcompositor p;
                video_surface := video_surface p;
                video_subsurface := v |} st).

(** *** Listeners *)

(** [buffer_release(data, buffer)]. *)
Definition buffer_release (data : option handle) (buf : handle) : M unit :=
  match data with
  | Some frame =>
      let* fr := load_frame frame in
      let* img := read_cell (image fr) in
      talloc_free img ;;;
      wl_buffer_destroy buf ;;;
      free frame
  | None => ret tt
  end.

(** [param_create_succeeded(data, params, new_buffer)]. *)
Definition param_create_succeeded (data params new_buffer : handle) : M unit :=
  let* fr := load_frame data in
  store_frame data {| buffer := Val (Some new_buffer); image := image fr |} ;;;
  wl_buffer_add_listener new_buffer data ;;;
  zwp_linux_buffer_params_v1_destroy params.

(** [param_create_failed(data, params)]. *)
Definition param_create_failed (data params : handle) : M unit :=
  let* fr := load_frame data in
  store_frame data {| buffer := Val None; image := image fr |} ;;;
  zwp_linux_buffer_params_v1_destroy params.

(** [dmabuf_format]: empty body. *)
Definition dmabuf_format (format : Z) : M unit := ret tt.

(** [wl_subcompositor_interface.name]. *)
Definition wl_subcompositor_interface_name : string := "wl_subcompositor".

(** [registry_handle_add(data, reg, id, interface, ver)], with [data] the
    driver's [priv].  [found++] is evaluated only when the name matched; its
    value before the increment (1 or 2) is non-zero. *)
Definition registry_handle_add (reg : handle) (id : Z) (interface : string)
    (ver : Z) : M unit :=
  let found := 1 in
  let* found :=
    if bool_decide (interface = wl_subcompositor_interface_name) then
      if bool_decide (found ≠ 0) then
        let* sc := wl_registry_bind reg id wl_subcompositor_interface_name 1 in
        set_subcompositor sc ;;;
        ret (found + 1)
      else ret (found + 1)
    else ret found in
  let* found :=
    if bool_decide (interface = "zwp_linux_dmabuf_v1"%string) then
      if bool_decide (found ≠ 0) then
        let* d := wl_registry_bind reg id "zwp_linux_dmabuf_v1" 1 in
        set_dmabuf d ;;;
        let* p := get_priv in
        zwp_linux_dmabuf_v1_add_listener (dmabuf p) ;;;
        ret (found + 1)
      else ret (found + 1)
    else ret found in
  (* if (found > 1) MP_VERBOSE(...): a line in the host's log *)
  ret tt.

(** [registry_handle_remove]: empty body. *)
Definition registry_handle_remove (id : Z) : M unit := ret tt.

(** *** Event dispatch *)

(** One event, handed to the listener of the proxy it is for; an event for
    a proxy that is gone or has no listener is dropped. *)
Definition dispatch (ev : wl_event) : M unit :=
  let* st := get in
  match ev with
  | Ev_registry_global name interface ver =>
      match registry (st_priv st) with
      | Some reg => registry_handle_add reg name interface ver
      | None => ret tt
      end
  | Ev_registry_global_remove name =>
      match registry (st_priv st) with
      | Some reg => registry_handle_remove name
      | None => ret tt
      end
  | Ev_dmabuf_format format => dmabuf_format format
  | Ev_params_created =>
      match st_pending st with
      | Some (params, data) =>
          match st_requests st !! params with
          | Some rq =>
              if br_alive rq then
                let* new_buffer := fresh in
                modify (fun st => set_buffers
                  (<[new_buffer := {| bs_origin := params; bs_listener := None |}]>
                     (st_buffers st)) st) ;;;
                param_create_succeeded data params new_buffer
              else ret tt
          | None => ret tt
          end
      | None => ret tt
      end
  | Ev_params_failed =>
      match st_pending st with
      | Some (params, data) =>
          match st_requests st !! params with
          | Some rq =>
              if br_alive rq then param_create_failed data params else ret tt
          | None => ret tt
          end
      | None => ret tt
      end
  | Ev_buffer_release buf =>
      match st_buffers st !! buf with
      | Some bs =>
          match bs_listener bs with
          | Some data => buffer_release (Some data) buf
          | None => ret tt
          end
      | None => ret tt
      end
  end.

Fixpoint dispatch_all (evs : list wl_event) : M unit :=
  match evs with
  | [] => ret tt
  | ev :: evs' => dispatch ev ;;; dispatch_all evs'
  end.

(** [wl_display_roundtrip]: a sync request, then every event the server
    sent up to its reply is dispatched. *)
Definition wl_display_roundtrip (dpy : handle) (evs : list wl_event) : M unit :=
  send (Rq_display_sync dpy) ;;;
  dispatch_all evs.

(** *** overlay_frame *)

(** What the environment decides during the iteration for one layer:
    whether [malloc] succeeds and which events the round-trip dispatches. *)
Record layer_env := {
  malloc_ok : bool;
  events : list wl_event
}.

(** The body of [for (plane ...)] for one plane slot.  The request takes
    [uint32_t] arguments after the fd, so the [int] plane index, the
    [ptrdiff_t] offset and pitch and the halves of the [uint64_t] modifier
    are converted at the call. *)
Definition plane_body (desc : AVDRMFrameDescriptor) (layer : AVDRMLayerDescriptor)
    (params : handle) (modifier : Z) (plane : Z) : M unit :=
  let* pl := array_at (planes layer) plane in
  let* obj := array_at (objects desc) (object_index pl) in
  let fd := fd obj in
  if bool_decide (fd ≠ 0) && bool_decide (pitch pl ≠ 0) then
    zwp_linux_buffer_params_v1_add params
      fd
      (uint32 plane)
      (uint32 (offset pl))
      (uint32 (pitch pl))
      (uint32 (Z.shiftr modifier 32))
      (uint32 (Z.land modifier 0xffffffff))
  else ret tt.

(** [for (int plane = 0; plane < AV_DRM_MAX_PLANES; plane++)]. *)
Fixpoint planes_loop (desc : AVDRMFrameDescriptor) (layer : AVDRMLayerDescriptor)
    (params : handle) (modifier : Z) (slots : list Z) : M unit :=
  match slots with
  | [] => ret tt
  | plane :: slots' =>
      plane_body desc layer params modifier plane ;;;
      planes_loop desc layer params modifier slots'
  end.

(** The label [fail:]. *)
Definition overlay_fail (frame : option handle) (r : Z) : M Z :=
  match frame with
  | Some fr => free fr ;;; ret r
  | None => ret r
  end.

(** [for (int l = 0; l < desc->nb_layers; l++)], over the indices still to
    visit; leaving the loop normally falls through to [return 0]. *)
Fixpoint layers_loop (hw_image : mp_image) (desc : AVDRMFrameDescriptor)
    (src : option mp_rect) (modifier flags : Z) (env : Z → layer_env)
    (ls : list Z) : M Z :=
  match ls with
  | [] => ret 0
  | l :: ls' =>
      let* layer := array_at (layers desc) l in
      let* p := get_priv in
      let* params := zwp_linux_dmabuf_v1_create_params (dmabuf p) in
      planes_loop desc layer params modifier (seqZ 0 AV_DRM_MAX_PLANES) ;;;
      let* frame := malloc (malloc_ok (env l)) in
      match frame with
      | None =>
          (* MP_ERR "Out of memory"; ret = -1; goto fail *)
          overlay_fail frame (-1)
      | Some fr =>
          zwp_linux_buffer_params_v1_add_listener params fr ;;;
          let* r := deref src in
          zwp_linux_buffer_params_v1_create params
            (int_sub (x1 r) (x0 r))
            (int_sub (y1 r) (y0 r))
            (format layer)
            flags ;;;
          let* p := get_priv in
          let* wp := deref (wayland_params p) in
          wl_display_roundtrip (display wp) (events (env l)) ;;;
          let* f := load_frame fr in
          let* b := read_cell (buffer f) in
          match b with
          | Some _ =>
              let* f := load_frame fr in
              store_frame fr {| buffer := buffer f;
                                image := Val (mp_image_new_ref hw_image) |} ;;;
              let* p := get_priv in
              wl_surface_attach (video_surface p) b 0 0 ;;;
              wl_surface_commit (video_surface p) ;;;
              layers_loop hw_image desc src modifier flags env ls'
          | None =>
              (* MP_ERR "Failed to create dmabuffer parameters"; ret = -1;
                 goto fail *)
              overlay_fail frame (-1)
          end
      end
  end.

(** [overlay_frame(hw, hw_image, src, dst, newframe)].  [env l] is what the
    environment does during the iteration for layer [l]. *)
Definition overlay_frame (hw_image : option mp_image)
    (src dst : option mp_rect) (newframe : bool) (env : Z → layer_env) : M Z :=
  match hw_image with
  | Some img =>
      match planes_0 img with
      | Some desc =>
          let modifier := 0 in
          let flags := 0 in
          layers_loop img desc src modifier flags env
            (seqZ 0 (nb_layers desc))
      | None => ret 0
      end
  | None =>
      (* release the current attached buffer *)
      let* p := get_priv in
      wl_surface_attach (video_surface p) None 0 0 ;;;
      wl_surface_commit (video_surface p) ;;;
      ret 0
  end.

(** *** uninit *)

(** [uninit(hw)]; [evs] are the events its round-trip dispatches. *)
Definition uninit (evs : list wl_event) : M unit :=
  let* p := get_priv in
  match video_surface p with
  | Some s => wl_surface_destroy s
  | None => ret tt
  end ;;;
  match video_subsurface p with
  | Some s => wl_subsurface_destroy s
  | None => ret tt
  end ;;;
  let* wp := deref (wayland_params p) in
  wl_display_roundtrip (display wp) evs.

(** *** init *)

(** What the environment decides during [init]. *)
Record init_env := {
  registry_events : list wl_event;   (* dispatched by init's round-trip *)
  surface_ok : bool;                 (* wl_compositor_create_surface *)
  subsurface_ok : bool;              (* wl_subcompositor_get_subsurface *)
  uninit_events : list wl_event      (* dispatched by uninit's round-trip *)
}.

(** The label [err:]. *)
Definition init_err (e : init_env) : M Z :=
  uninit (uninit_events e) ;;; ret (-1).

(** [init(hw)].  [p->wayland_params] is read once: no listener writes it. *)
Definition init (hw : ra_hwdec) (e : init_env) : M Z :=
  let gl := ra_gl_get hw in
  set_wayland_params
    match gl with
    | Some g => mpgl_get_native_display g "opengl-cb-wayland-params"
    | None => None
    end ;;;
  let* p := get_priv in
  match wayland_params p with
  | None =>
      (* MP_ERR "Unable to get Wayland interop parameters" *)
      init_err e
  | Some wp =>
      let* reg := wl_display_get_registry (display wp) in
      set_registry reg ;;;
      wl_registry_add_listener reg ;;;
      wl_display_roundtrip (display wp) (registry_events e) ;;;
      let* vs := wl_compositor_create_surface (compositor wp) (surface_ok e) in
      set_video_surface vs ;;;
      match vs with
      | None => init_err e
      | Some s =>
          let* p := get_priv in
          let* vss := wl_subcompositor_get_subsurface (subcompositor p) s
                        (surface wp) (subsurface_ok e) in
          set_video_subsurface vss ;;;
          match vss with
          | None => init_err e
          | Some ss =>
              wl_subsurface_place_below ss (surface wp) ;;;
              ret 0
          end
      end
  end.

(** ** Specification vocabulary *)

(** The size of a rectangle, as [overlay_frame] computes it from [src]. *)
Definition rect_size (r : option mp_rect) : option (Z * Z) :=
  match r with
  | Some r => Some (int_sub (x1 r) (x0 r), int_sub (y1 r) (y0 r))
  | None => None
  end.

(** The first reply among the events of a round-trip: [Some true] for
    created, [Some false] for failed, [None] when the server sent neither. *)
Fixpoint first_reply (evs : list wl_event) : option bool :=
  match evs with
  | [] => None
  | Ev_params_created :: _ => Some true
  | Ev_params_failed :: _ => Some false
  | _ :: evs' => first_reply evs'
  end.

(** Every buffer the events release has a handle below [n]: it was
    created before the handle counter reached [n]. *)
Definition releases_below (n : handle) (evs : list wl_event) : bool :=
  forallb (fun ev => match ev with
                     | Ev_buffer_release b => bool_decide (b < n)%nat
                     | _ => true
                     end) evs.

(** How the iteration for one layer ends. *)
Inductive layer_outcome := Attached | CreateFailed | OutOfMemory | NoReply.

Definition outcome (e : layer_env) : layer_outcome :=
  if malloc_ok e then
    match first_reply (events e) with
    | Some true => Attached
    | Some false => CreateFailed
    | None => NoReply
    end
  else OutOfMemory.

(** The plane entry the skip rule selects for slot [plane] of a layer, if
    any: the object's fd and the pitch are both non-zero. *)
Definition selected_plane (desc : AVDRMFrameDescriptor)
    (layer : AVDRMLayerDescriptor) (plane : Z) : option plane_entry :=
  match planes layer !! Z.to_nat plane with
  | Some pl =>
      match objects desc !! Z.to_nat (object_index pl) with
      | Some obj =>
          if bool_decide (fd obj ≠ 0 ∧ pitch pl ≠ 0) then
            Some {| pe_fd := fd obj; pe_plane_idx := plane;
                    pe_offset := uint32 (offset pl);
                    pe_stride := uint32 (pitch pl);
                    pe_modifier_hi := 0; pe_modifier_lo := 0 |}
          else None
      | None => None
      end
  | None => None
  end.

Definition layer_entries (desc : AVDRMFrameDescriptor)
    (layer : AVDRMLayerDescriptor) : list plane_entry :=
  omap (selected_plane desc layer) (seqZ 0 AV_DRM_MAX_PLANES).

(** Slot [plane] of the layer and the object it names are inside their
    arrays. *)
Definition slot_ok (desc : AVDRMFrameDescriptor) (layer : AVDRMLayerDescriptor)
    (plane : Z) : bool :=
  match planes layer !! Z.to_nat plane with
  | Some pl =>
      bool_decide (0 ≤ object_index pl < AV_DRM_MAX_PLANES) &&
      bool_decide (is_Some (objects desc !! Z.to_nat (object_index pl)))
  | None => false
  end.

Definition layer_ok (desc : AVDRMFrameDescriptor) (l : Z) : bool :=
  bool_decide (0 ≤ l < AV_DRM_MAX_PLANES) &&
  match layers desc !! Z.to_nat l with
  | Some layer => forallb (slot_ok desc layer) (seqZ 0 AV_DRM_MAX_PLANES)
  | None => false
  end.

(** Every array access of the hand-off stays inside its array. *)
Definition desc_ok (desc : AVDRMFrameDescriptor) : bool :=
  forallb (layer_ok desc) (seqZ 0 (nb_layers desc)).

(** *** State invariants *)

Definition is_init {A} (c : cell A) : bool :=
  match c with Val _ => true | Uninit => false end.

Definition keys_below {A} (n : handle) (m : gmap handle A) : Prop :=
  map_Forall (fun k _ => (k < n)%nat) m.

Definition frame_ready (st : state) (a : handle) : bool :=
  match st_frames st !! a with
  | Some f => is_init (image f)
  | None => false
  end.

(** The listener data of a buffer is an allocated frame whose image
    reference is set; [ex] is the frame whose hand-off is in progress. *)
Definition listener_ready (ex : option handle) (st : state)
    (bs : buffer_state) : bool :=
  match bs_listener bs with
  | Some a => bool_decide (ex = Some a) || frame_ready st a
  | None => true
  end.

Definition heap_inv (ex : option handle) (st : state) : Prop :=
  keys_below (st_next st) (st_buffers st) ∧
  keys_below (st_next st) (st_frames st) ∧
  keys_below (st_next st) (st_requests st) ∧
  map_Forall (fun _ bs => listener_ready ex st bs = true) (st_buffers st) ∧
  map_Forall (fun b1 bs1 =>
    map_Forall (fun b2 bs2 =>
      is_Some (bs_listener bs1) → bs_listener bs1 = bs_listener bs2 → b1 = b2)
      (st_buffers st)) (st_buffers st).

(** No buffer request awaits a reply: the parameters object that had a
    listener added last, if any, is known and destroyed. *)
Definition quiescent (st : state) : bool :=
  match st_pending st with
  | Some (params, _) =>
      match st_requests st !! params with
      | Some rq => negb (br_alive rq)
      | None => false
      end
  | None => true
  end.

(** The heap between two calls of the driver. *)
Definition heap_ok (st : state) : Prop :=
  heap_inv None st ∧ quiescent st = true.

#[global] Instance heap_inv_dec ex st : Decision (heap_inv ex st).
Proof. unfold heap_inv, keys_below. apply _. Defined.

#[global] Instance heap_ok_dec st : Decision (heap_ok st).
Proof. unfold heap_ok. apply _. Defined.

(** [init] succeeded and [uninit] has not run: the interop parameters and
    the dmabuf global are set and the video surface is live. *)
Definition bridge_ready (st : state) : bool :=
  let p := st_priv st in
  bool_decide (is_Some (wayland_params p)) &&
  bool_decide (is_Some (dmabuf p)) &&
  match video_surface p with
  | Some s => bool_decide (is_Some (st_surfaces st !! s))
  | None => false
  end.

(** Requests that are visible on the video surface or block the caller. *)
Definition visible (r : wl_request) : bool :=
  match r with
  | Rq_display_sync _ | Rq_surface_attach _ _ _ _ | Rq_surface_commit _
  | Rq_surface_destroy _ | Rq_subsurface_destroy _ => true
  | _ => false
  end.

Definition is_sync (r : wl_request) : bool :=
  match r with Rq_display_sync _ => true | _ => false end.

(** *** Events that leave the hand-off in progress alone *)

Definition priv_stable (p p' : priv) : Prop :=
  wayland_params p' = wayland_params p ∧
  registry p' = registry p ∧
  video_surface p' = video_surface p ∧
  video_subsurface p' = video_subsurface p ∧
  (is_Some (dmabuf p) → is_Some (dmabuf p')) ∧
  (is_Some (subcompositor p) → is_Some (subcompositor p')).

(** What a listener may change behind the back of the driver's entry
    points: it may bind globals and send requests that are not [visible]. *)
Definition background (st st' : state) : Prop :=
  priv_stable (st_priv st) (st_priv st') ∧
  st_surfaces st' = st_surfaces st ∧
  st_subsurfaces st' = st_subsurfaces st ∧
  (st_next st ≤ st_next st')%nat ∧
  ∃ d, st_log st' = st_log st ++ d ∧ List.filter visible d = [].

(** The frame [ex] of the hand-off in progress is allocated, and only
    buffers created since handle [n0] was fresh have it as listener data. *)
Definition inflight_ok (ex : option handle) (n0 : handle) (st : state) : Prop :=
  ∀ fr, ex = Some fr →
    is_Some (st_frames st !! fr) ∧
    ∀ b bs, st_buffers st !! b = Some bs → bs_listener bs = Some fr → (n0 ≤ b)%nat.

(** The event does not answer a pending request and releases no buffer of
    the hand-off in progress. *)
Definition event_idle (ex : option handle) (n0 : handle) (st : state)
    (ev : wl_event) : Prop :=
  match ev with
  | Ev_params_created | Ev_params_failed => quiescent st = true
  | Ev_buffer_release b => ex = None ∨ (b < n0)%nat
  | _ => True
  end.

(** *** Buffer requests, as the hand-off leaves them *)

(** A request whose reply has been dispatched: its proxy is destroyed. *)
Definition answered (rq : buffer_request) : buffer_request :=
  {| br_planes := br_planes rq; br_created := br_created rq; br_alive := false |}.

Definition with_planes (rq : buffer_request) (es : list plane_entry) : buffer_request :=
  {| br_planes := br_planes rq ++ es; br_created := br_created rq;
     br_alive := br_alive rq |}.

(** The arguments of the create request for a layer: the size of the source
    rectangle, the layer's format, no flags. *)
Definition create_args_of (r : mp_rect) (layer : AVDRMLayerDescriptor) : create_args :=
  {| ca_width := int_sub (x1 r) (x0 r); ca_height := int_sub (y1 r) (y0 r);
     ca_format := format layer; ca_flags := 0 |}.

(** The buffer request of a layer once its iteration is over: submitted and
    answered, or left without a create request when [malloc] failed. *)
Definition layer_request (desc : AVDRMFrameDescriptor) (r : mp_rect)
    (layer : AVDRMLayerDescriptor) (o : layer_outcome) : buffer_request :=
  {| br_planes := layer_entries desc layer;
     br_created := match o with
                   | OutOfMemory => None
                   | _ => Some (create_args_of r layer)
                   end;
     br_alive := match o with OutOfMemory => true | _ => false end |}.

(** *** The layer loop *)

(** What one successful layer shows on the connection: the round-trip, then
    the attach and the commit of its buffer.  A step is the pair of the
    layer's parameters object and its buffer. *)
Definition layer_trace (dpy s : handle) (step : handle * handle) : list wl_request :=
  [Rq_display_sync dpy; Rq_surface_attach s (Some step.2) 0 0; Rq_surface_commit s].

(** The surface map after the buffers of [steps] were attached and
    committed one after the other. *)
Definition attached_last (s : handle) (steps : list (handle * handle))
    (m : gmap handle surface_state) : gmap handle surface_state :=
  match last steps with
  | Some step => <[s := {| ss_pending := None; ss_current := Some step.2 |}]> m
  | None => m
  end.

(** The state between two iterations of the layer loop. *)
Definition loop_inv (n0 : handle) (wp : mpv_opengl_cb_wayland_params)
    (s : handle) (st : state) : Prop :=
  heap_ok st ∧ (n0 ≤ st_next st)%nat ∧
  wayland_params (st_priv st) = Some wp ∧
  is_Some (dmabuf (st_priv st)) ∧
  video_surface (st_priv st) = Some s ∧
  is_Some (st_surfaces st !! s).

(** Two descriptors that differ at most in the plane counts their layers
    declare (and in [nb_objects]). *)
Definition agree_up_to_nb_planes (desc desc' : AVDRMFrameDescriptor) : Prop :=
  objects desc = objects desc' ∧
  nb_layers desc = nb_layers desc' ∧
  Forall2 (fun a b => format a = format b ∧ planes a = planes b)
          (layers desc) (layers desc').

(** *** The buffer requests of a call *)

(** Layer [l] is visited by the layer loop: it exists and every layer
    before it had its buffer created. *)
Definition visited (desc : AVDRMFrameDescriptor) (env : Z → layer_env) (l : Z) : Prop :=
  0 ≤ l < nb_layers desc ∧ ∀ l', 0 ≤ l' < l → outcome (env l') = Attached.

(** The skip rule for the request [rq] of [layer]: a slot whose fd or pitch
    is 0 has no entry, every other slot has its entry. *)
Definition skip_rule (desc : AVDRMFrameDescriptor) (layer : AVDRMLayerDescriptor)
    (rq : buffer_request) : Prop :=
  ∀ plane pl obj,
    0 ≤ plane < AV_DRM_MAX_PLANES →
    planes layer !! Z.to_nat plane = Some pl →
    objects desc !! Z.to_nat (object_index pl) = Some obj →
    (fd obj = 0 ∨ pitch pl = 0 →
     ∀ e, e ∈ br_planes rq → pe_plane_idx e ≠ plane) ∧
    (fd obj ≠ 0 → pitch pl ≠ 0 →
     {| pe_fd := fd obj; pe_plane_idx := plane;
        pe_offset := uint32 (offset pl); pe_stride := uint32 (pitch pl);
        pe_modifier_hi := 0; pe_modifier_lo := 0 |} ∈ br_planes rq).

(** [rq] was created by the call that led from [st] to [st']. *)
Definition created_by (st st' : state) (params : handle) (rq : buffer_request) : Prop :=
  st_requests st !! params = None ∧ st_requests st' !! params = Some rq.

(** *** The registry, teardown and the frame records *)

(** The event announces a global of the given interface. *)
Definition announces (interface : string) (ev : wl_event) : bool :=
  match ev with
  | Ev_registry_global _ i _ => bool_decide (i = interface)
  | _ => false
  end.

Definition announced (interface : string) (evs : list wl_event) : bool :=
  existsb (announces interface) evs.

(** The events release no buffer. *)
Definition no_release (evs : list wl_event) : bool :=
  forallb (fun ev => match ev with Ev_buffer_release _ => false | _ => true end) evs.

(** Every allocated frame record is the listener data of a live buffer,
    and so will be freed when that buffer is released; [ex] is the frame of
    the hand-off in progress. *)
Definition frames_owned (ex : option handle) (st : state) : Prop :=
  map_Forall (fun a _ =>
    ex = Some a ∨
    map_Exists (fun _ bs => bs_listener bs = Some a) (st_buffers st))
    (st_frames st).

#[global] Instance frames_owned_dec ex st : Decision (frames_owned ex st).
Proof. unfold frames_owned. apply _. Defined.

(** The global a bind request asks for: name, interface and version. *)
Definition request_bind (r : wl_request) : option (Z * string * Z) :=
  match r with
  | Rq_registry_bind _ name interface ver _ => Some (name, interface, ver)
  | _ => None
  end.

(** The bind request an announcement is answered with, if any: the driver
    knows two interfaces and asks for version 1 of them. *)
Definition expected_bind (ev : wl_event) : option (Z * string * Z) :=
  match ev with
  | Ev_registry_global name interface _ =>
      if bool_decide (interface = "wl_subcompositor"%string) ||
         bool_decide (interface = "zwp_linux_dmabuf_v1"%string)
      then Some (name, interface, 1)
      else None
  | _ => None
  end.

(** *** Releases during a hand-off *)

(** The state the layer loop is in after the first [l] layers, when each
    of them had its buffer attached: the state in which the iteration for
    layer [l] starts. *)
Definition after_layers (img : mp_image) (desc : AVDRMFrameDescriptor)
    (src : option mp_rect) (env : Z → layer_env) (st : state) (l : Z)
  : option state :=
  match layers_loop img desc src 0 0 env (seqZ 0 l) st with
  | Ok 0 st' => Some st'
  | _ => None
  end.

(** Every buffer the events of layer [l]'s round-trip release existed when
    the iteration for layer [l] started: a buffer of an earlier hand-off or
    of an earlier layer of this one, not the buffer the round-trip itself
    creates.  ([buffer_release] on that one would read [frame->image], which
    [overlay_frame] writes only after the round-trip.)  A layer the loop
    does not reach has no round-trip. *)
Definition releases_earlier (img : mp_image) (desc : AVDRMFrameDescriptor)
    (src : option mp_rect) (env : Z → layer_env) (st : state) (l : Z) : bool :=
  match after_layers img desc src env st l with
  | Some st_l => releases_below (st_next st_l) (events (env l))
  | None => true
  end.

(** The same along a run of the layer loop over the layers [ls] from [st]:
    whenever the iteration for a layer of [ls] starts, its round-trip
    releases only buffers that exist by then. *)
Definition releases_in_order (img : mp_image) (desc : AVDRMFrameDescriptor)
    (src : option mp_rect) (env : Z → layer_env) (ls : list Z) (st : state)
  : Prop :=
  ∀ pre l post st_l, ls = pre ++ l :: post →
    layers_loop img desc src 0 0 env pre st = Ok 0 st_l →
    releases_below (st_next st_l) (events (env l)) = true.

(** ** Example inputs *)

Definition host_params : mpv_opengl_cb_wayland_params :=
  {| display := 1%nat; compositor := 2%nat; surface := 3%nat |}.

Definition gl_host : GL :=
  {| native_display := fun name =>
       if bool_decide (name = "opengl-cb-wayland-params"%string)
       then Some host_params else None |}.

(** The state the host hands to [init]: zeroed [priv], nothing on the
    connection yet. *)
Definition st_zero : state :=
  {| st_priv := priv_zero; st_log := []; st_surfaces := ∅;
     st_subsurfaces := ∅; st_requests := ∅; st_pending := None;
     st_buffers := ∅; st_frames := ∅; st_next := 10%nat |}.

Definition globals : list wl_event :=
  [Ev_registry_global 1 "wl_compositor" 4;
   Ev_registry_global 2 "wl_subcompositor" 1;
   Ev_registry_global 3 "zwp_linux_dmabuf_v1" 3].

Definition init_env_ok : init_env :=
  {| registry_events := globals; surface_ok := true; subsurface_ok := true;
     uninit_events := [] |}.

(** The state after a successful [init]. *)
Definition st_ready : state :=
  {| st_priv := {| wayland_params := Some host_params;
                   registry := Some 10%nat; dmabuf := Some 12%nat;
                   subcompositor := Some 11%nat;
                   video_surface := Some 13%nat;
                   video_subsurface := Some 14%nat |};
     st_log := [Rq_display_get_registry 1 10; Rq_display_sync 1;
                Rq_registry_bind 10 2 "wl_subcompositor" 1 11;
                Rq_registry_bind 10 3 "zwp_linux_dmabuf_v1" 1 12;
                Rq_compositor_create_surface 2 13;
                Rq_subcompositor_get_subsurface 11 14 13 3;
                Rq_subsurface_place_below 14 3];
     st_surfaces := {[ 13%nat := {| ss_pending := None; ss_current := None |} ]};
     st_subsurfaces := {[ 14%nat ]};
     st_requests := ∅; st_pending := None; st_buffers := ∅; st_frames := ∅;
     st_next := 15%nat |}.

Definition obj_fd5 : AVDRMObjectDescriptor :=
  {| fd := 5; size := 3110400; format_modifier := 0 |}.
Definition obj_none : AVDRMObjectDescriptor :=
  {| fd := 0; size := 0; format_modifier := 0 |}.
Definition plane_none : AVDRMPlaneDescriptor :=
  {| object_index := 0; offset := 0; pitch := 0 |}.

(** An NV12 layer: luma and chroma planes in one object. *)
Definition layer_nv12 : AVDRMLayerDescriptor :=
  {| format := 842094158; nb_planes := 2;
     planes := [ {| object_index := 0; offset := 0; pitch := 1920 |};
                 {| object_index := 0; offset := 3072000; pitch := 960 |};
                 plane_none; plane_none ] |}.

Definition layer_none : AVDRMLayerDescriptor :=
  {| format := 0; nb_planes := 0;
     planes := [plane_none; plane_none; plane_none; plane_none] |}.

Definition desc_1layer : AVDRMFrameDescriptor :=
  {| nb_objects := 1; objects := [obj_fd5; obj_none; obj_none; obj_none];
     nb_layers := 1;
     layers := [layer_nv12; layer_none; layer_none; layer_none] |}.

Definition desc_2layers : AVDRMFrameDescriptor :=
  {| nb_objects := 1; objects := [obj_fd5; obj_none; obj_none; obj_none];
     nb_layers := 2;
     layers := [layer_nv12; layer_nv12; layer_none; layer_none] |}.

(** A layer that declares one plane but has a second slot filled in. *)
Definition layer_short : AVDRMLayerDescriptor :=
  {| format := 842094158; nb_planes := 1; planes := planes layer_nv12 |}.

Definition desc_short : AVDRMFrameDescriptor :=
  {| nb_objects := 1; objects := [obj_fd5; obj_none; obj_none; obj_none];
     nb_layers := 1;
     layers := [layer_short; layer_none; layer_none; layer_none] |}.

Definition crop_1080p : mp_rect := {| x0 := 0; y0 := 0; x1 := 1920; y1 := 1080 |}.
Definition crop_moved : mp_rect := {| x0 := 100; y0 := 50; x1 := 2020; y1 := 1130 |}.
Definition dst_window : mp_rect := {| x0 := 0; y0 := 0; x1 := 1280; y1 := 720 |}.

Definition reply_created : layer_env :=
  {| malloc_ok := true; events := [Ev_params_created] |}.
Definition reply_failed : layer_env :=
  {| malloc_ok := true; events := [Ev_params_failed] |}.

(** The server accepts the first layer and rejects the others. *)
Definition env_second_fails (l : Z) : layer_env :=
  if bool_decide (l = 0) then reply_created else reply_failed.

(** The state while a video plays: one frame has been handed off and its
    buffer 17 is current. *)
Definition st_playing : state :=
  match overlay_frame (Some {| planes_0 := Some desc_1layer |}) (Some crop_1080p)
          (Some dst_window) true (fun _ => reply_created) st_ready with
  | Ok _ st => st
  | Fault _ => st_ready
  end.

(** The compositor releases the previous frame's buffer while it answers
    the first layer. *)
Definition env_release_previous (l : Z) : layer_env :=
  if bool_decide (l = 0)
  then {| malloc_ok := true; events := [Ev_buffer_release 17; Ev_params_created] |}
  else reply_created.

(** [init] has asked for the registry and installed its listener. *)
Definition st_listening : state :=
  {| st_priv := {| wayland_params := Some host_params; registry := Some 10%nat;
                   dmabuf := None; subcompositor := None;
                   video_surface := None; video_subsurface := None |};
     st_log := [Rq_display_get_registry 1 10];
     st_surfaces := ∅; st_subsurfaces := ∅; st_requests := ∅;
     st_pending := None; st_buffers := ∅; st_frames := ∅; st_next := 11%nat |}.

(** A compositor that announces the subcompositor twice. *)
Definition globals_twice : list wl_event :=
  globals ++ [Ev_registry_global_remove 2; Ev_registry_global 7 "wl_subcompositor" 1].

Definition globals_no_subcompositor : list wl_event :=
  [Ev_registry_global 1 "wl_compositor" 4;
   Ev_registry_global 3 "zwp_linux_dmabuf_v1" 3].

Definition globals_no_dmabuf : list wl_event :=
  [Ev_registry_global 1 "wl_compositor" 4;
   Ev_registry_global 2 "wl_subcompositor" 1].

Definition init_env_no_surface : init_env :=
  {| registry_events := globals; surface_ok := false; subsurface_ok := true;
     uninit_events := [] |}.

Definition init_env_no_subsurface : init_env :=
  {| registry_events := globals; surface_ok := true; subsurface_ok := false;
     uninit_events := [] |}.

Definition init_env_no_subcompositor : init_env :=
  {| registry_events := globals_no_subcompositor; surface_ok := true;
     subsurface_ok := true; uninit_events := [] |}.

Definition init_env_no_dmabuf : init_env :=
  {| registry_events := globals_no_dmabuf; surface_ok := true;
     subsurface_ok := true; uninit_events := [] |}.

(** A descriptor that declares no layer, and one that declares more layers
    than the array holds. *)
Definition desc_0layers : AVDRMFrameDescriptor :=
  {| nb_objects := 0; objects := [obj_none; obj_none; obj_none; obj_none];
     nb_layers := 0;
     layers := [layer_none; layer_none; layer_none; layer_none] |}.

Definition desc_5layers : AVDRMFrameDescriptor :=
  {| nb_objects := 1; objects := [obj_fd5; obj_none; obj_none; obj_none];
     nb_layers := 5;
     layers := [layer_nv12; layer_nv12; layer_nv12; layer_nv12] |}.

(** A layer of one plane whose unused second slot holds an object index
    outside the array. *)
Definition layer_stray : AVDRMLayerDescriptor :=
  {| format := 875713112; nb_planes := 1;
     planes := [ {| object_index := 0; offset := 0; pitch := 7680 |};
                 {| object_index := 7; offset := 0; pitch := 0 |};
                 plane_none; plane_none ] |}.

Definition desc_stray : AVDRMFrameDescriptor :=
  {| nb_objects := 1; objects := [obj_fd5; obj_none; obj_none; obj_none];
     nb_layers := 1;
     layers := [layer_stray; layer_none; layer_none; layer_none] |}.

(** [malloc] fails for the second layer; the round-trip of the second
    layer brings no reply. *)
Definition env_second_oom (l : Z) : layer_env :=
  if bool_decide (l = 0) then reply_created
  else {| malloc_ok := false; events := [] |}.

Definition env_second_silent (l : Z) : layer_env :=
  if bool_decide (l = 0) then reply_created
  else {| malloc_ok := true; events := [Ev_dmabuf_format 875713112] |}.

(** A layer with one valid plane, a slot whose object has fd 0 and a slot
    whose pitch is 0. *)
Definition layer_mixed : AVDRMLayerDescriptor :=
  {| format := 842094158; nb_planes := 3;
     planes := [ {| object_index := 0; offset := 0; pitch := 1920 |};
                 {| object_index := 1; offset := 3072000; pitch := 960 |};
                 {| object_index := 0; offset := 4608000; pitch := 0 |};
                 plane_none ] |}.

Definition desc_mixed : AVDRMFrameDescriptor :=
  {| nb_objects := 2; objects := [obj_fd5; obj_none; obj_none; obj_none];
     nb_layers := 1;
     layers := [layer_mixed; layer_none; layer_none; layer_none] |}.

(** Three layers.  The compositor releases the buffer of the first layer,
    which the second replaced, while it answers the third layer; or it
    releases that buffer and refuses the third layer. *)
Definition desc_3layers : AVDRMFrameDescriptor :=
  {| nb_objects := 1; objects := [obj_fd5; obj_none; obj_none; obj_none];
     nb_layers := 3;
     layers := [layer_nv12; layer_nv12; layer_nv12; layer_none] |}.

Definition env_release_first (l : Z) : layer_env :=
  if bool_decide (l = 2)
  then {| malloc_ok := true; events := [Ev_params_created; Ev_buffer_release 17] |}
  else reply_created.

Definition env_third_fails (l : Z) : layer_env :=
  if bool_decide (l = 2)
  then {| malloc_ok := true; events := [Ev_buffer_release 17; Ev_params_failed] |}
  else reply_created.

(** * Properties *)

(** ** The monad *)

Lemma bind_Ok {A B} (m : M A) (k : A → M B) st a st' :
  m st = Ok a st' → bind m k st = k a st'.
Proof. intros H. unfold bind. by rewrite H. Qed.

Lemma bind_Fault {A B} (m : M A) (k : A → M B) st f :
  m st = Fault f → bind m k st = Fault f.
Proof. intros H. unfold bind. by rewrite H. Qed.

Lemma bind_inv {A B} (m : M A) (k : A → M B) st b st' :
  bind m k st = Ok b st' → ∃ a st1, m st = Ok a st1 ∧ k a st1 = Ok b st'.
Proof. unfold bind. destruct (m st) as [a st1|f]; [eauto | done]. Qed.

(** Closes [∃ d, log' = log ++ d ∧ filter visible d = []]. *)
Ltac solve_log :=
  first [ by (exists []; split; [by rewrite app_nil_r | done])
        | by (eexists; split; [rewrite <- ?app_assoc; reflexivity | done]) ].

(** Runs the first computation of a [bind] whose result is known. *)
Ltac step H := rewrite (bind_Ok _ _ _ _ _ H); cbv beta iota.
Ltac step_refl := erewrite bind_Ok by reflexivity; cbv beta iota.

(** ** Machine integers *)

(** Where the mathematical result fits the C type nothing wraps. *)
Lemma int_sub_exact a b : - 2 ^ 31 ≤ a - b < 2 ^ 31 → int_sub a b = a - b.
Proof.
  intros H. unfold int_sub, int32. rewrite Z.mod_small by lia. lia.
Qed.

Lemma uint32_exact z : 0 ≤ z < 2 ^ 32 → uint32 z = z.
Proof. intros H. unfold uint32. by apply Z.mod_small. Qed.

(** ** The initial and the ready state *)

Example init_from_zero :
  init {| ra_gl_get := Some gl_host |} init_env_ok st_zero = Ok 0 st_ready.
Proof. vm_compute. reflexivity. Qed.

(** ** Hand-off without a frame, and with a frame that has no descriptor *)

(** C9: a frame whose [planes[0]] is NULL makes [overlay_frame] return 0
    with the whole state as it was: no request of any kind is sent, nothing
    is attached or committed, there is no round-trip. *)
Theorem overlay_frame_no_descriptor (src dst : option mp_rect) (newframe : bool)
    (env : Z → layer_env) (st : state) :
  overlay_frame (Some {| planes_0 := None |}) src dst newframe env st = Ok 0 st.
Proof. reflexivity. Qed.

(** C6: without a frame, [overlay_frame] attaches NULL to the video surface
    and commits, whatever was attached before: afterwards the surface has no
    current and no pending buffer, the two requests are the only ones sent,
    and the call returns 0. *)
Theorem overlay_frame_null_detaches (src dst : option mp_rect) (newframe : bool)
    (env : Z → layer_env) (st : state) (s : handle) (ss : surface_state) :
  video_surface (st_priv st) = Some s →
  st_surfaces st !! s = Some ss →
  ∃ st',
    overlay_frame None src dst newframe env st = Ok 0 st' ∧
    st_surfaces st' !! s = Some {| ss_pending := None; ss_current := None |} ∧
    st_log st' = st_log st ++ [Rq_surface_attach s None 0 0; Rq_surface_commit s] ∧
    (∀ s', s' ≠ s → st_surfaces st' !! s' = st_surfaces st !! s') ∧
    st_buffers st' = st_buffers st ∧
    st_priv st' = st_priv st.
Proof.
  intros Hs Hss. eexists. split.
  - unfold overlay_frame, bind, get_priv, wl_surface_attach, wl_surface_commit,
      bind, deref, get, modify, send, ret.
    rewrite Hs. cbn. rewrite Hss. cbn. rewrite lookup_insert_eq. cbn.
    reflexivity.
  - cbn. rewrite insert_insert_eq, lookup_insert_eq, <- app_assoc. cbn.
    repeat split; try done.
    intros s' Hne. by rewrite lookup_insert_ne.
Qed.

Lemma overlay_frame_null_detaches_witness :
  ∃ st',
    overlay_frame None None None false (fun _ => reply_created) st_playing = Ok 0 st' ∧
    st_surfaces st' !! 13%nat = Some {| ss_pending := None; ss_current := None |} ∧
    st_log st' = st_log st_playing ++
                 [Rq_surface_attach 13 None 0 0; Rq_surface_commit 13] ∧
    (∀ s', s' ≠ 13%nat → st_surfaces st' !! s' = st_surfaces st_playing !! s') ∧
    st_buffers st' = st_buffers st_playing ∧
    st_priv st' = st_priv st_playing.
Proof.
  apply (overlay_frame_null_detaches None None false (fun _ => reply_created)
           st_playing 13%nat {| ss_pending := None; ss_current := Some 17%nat |});
    reflexivity.
Defined.

(** ** The destination rectangle is not consumed *)

Lemma layers_loop_src_size img desc src src' modifier flags env ls st :
  rect_size src = rect_size src' →
  layers_loop img desc src modifier flags env ls st =
  layers_loop img desc src' modifier flags env ls st.
Proof.
  intros Hsz. revert st. induction ls as [|l ls IH]; intros st; [done|].
  cbn [layers_loop]. unfold bind.
  destruct (array_at (layers desc) l st) as [layer st1|]; [|done].
  destruct (get_priv st1) as [p st2|]; [|done].
  destruct (zwp_linux_dmabuf_v1_create_params (dmabuf p) st2) as [params st3|]; [|done].
  destruct (planes_loop _ _ _ _ _ st3) as [[] st4|]; [|done].
  destruct (malloc _ st4) as [[fr|] st5|]; [|done|done].
  destruct (zwp_linux_buffer_params_v1_add_listener params fr st5) as [[] st6|]; [|done].
  destruct src as [r|], src' as [r'|]; try done. cbn in Hsz.
  injection Hsz as Hw Hh. cbn [deref ret]. rewrite Hw, Hh.
  destruct (zwp_linux_buffer_params_v1_create _ _ _ _ _ st6) as [[] st7|]; [|done].
  destruct (get_priv st7) as [p7 st8|]; [|done].
  destruct (deref (wayland_params p7) st8) as [wp st9|]; [|done].
  destruct (wl_display_roundtrip _ _ st9) as [[] st10|]; [|done].
  destruct (load_frame fr st10) as [f st11|]; [|done].
  destruct (read_cell (buffer f) st11) as [[b|] st12|]; [|done|done].
  destruct (load_frame fr st12) as [f' st13|]; [|done].
  destruct (store_frame fr _ st13) as [[] st14|]; [|done].
  destruct (get_priv st14) as [p14 st15|]; [|done].
  destruct (wl_surface_attach _ _ _ _ st15) as [[] st16|]; [|done].
  destruct (wl_surface_commit _ st16) as [[] st17|]; [|done].
  apply IH.
Qed.

(** C8: two calls that agree on the frame, on the width and height of the
    source rectangle, on the replies of the environment and on the state
    they start from return the same value and leave the same state, log of
    requests included, whatever the two destination rectangles, the
    positions of the source rectangles and the [newframe] flags are. *)
Theorem overlay_frame_dst_unused (hw_image : option mp_image)
    (src src' dst dst' : option mp_rect) (newframe newframe' : bool)
    (env : Z → layer_env) (st : state) :
  rect_size src = rect_size src' →
  overlay_frame hw_image src dst newframe env st =
  overlay_frame hw_image src' dst' newframe' env st.
Proof.
  intros Hsz. unfold overlay_frame.
  destruct hw_image as [img|]; [|done].
  destruct (planes_0 img) as [desc|]; [|done].
  by apply layers_loop_src_size.
Qed.

Lemma overlay_frame_dst_unused_witness :
  rect_size (Some crop_1080p) = rect_size (Some crop_moved) ∧
  overlay_frame (Some {| planes_0 := Some desc_2layers |})
    (Some crop_1080p) (Some dst_window) true env_second_fails st_ready =
  overlay_frame (Some {| planes_0 := Some desc_2layers |})
    (Some crop_moved) None false env_second_fails st_ready.
Proof.
  split; [reflexivity|].
  apply (overlay_frame_dst_unused (Some {| planes_0 := Some desc_2layers |})
           (Some crop_1080p) (Some crop_moved) (Some dst_window) None
           true false env_second_fails st_ready).
  reflexivity.
Defined.

(** ** Initialisation without interop parameters *)

(** X23: without interop parameters (no GL context, or one that does not
    know the key), [init] jumps to [err] and calls [uninit], which
    dereferences [p->wayland_params]: from any state whatever, the call
    faults instead of returning -1. *)
Lemma init_params_unavailable_never_returns (hw : ra_hwdec) (e : init_env)
    (st : state) :
  match ra_gl_get hw with
  | Some g => mpgl_get_native_display g "opengl-cb-wayland-params"
  | None => None
  end = None →
  ∃ f, init hw e st = Fault f.
Proof.
  intros Hnone. unfold init. rewrite Hnone.
  unfold bind at 1. cbn [set_wayland_params modify].
  unfold bind at 1. cbn [get_priv st_priv set_priv wayland_params].
  unfold init_err, uninit.
  unfold bind at 1. unfold bind at 1. cbn [get_priv st_priv set_priv].
  unfold bind at 1. cbn [video_surface].
  destruct (match video_surface (st_priv st) with
            | Some s => wl_surface_destroy s
            | None => ret tt
            end _) as [[] st1|f]; [|by eexists].
  unfold bind at 1. cbn [video_subsurface].
  destruct (match video_subsurface (st_priv st) with
            | Some s => wl_subsurface_destroy s
            | None => ret tt
            end _) as [[] st2|f]; [|by eexists].
  cbn. by eexists.
Qed.

(** C3 (the case of missing interop parameters): called on the zeroed
    [priv] without a GL context, [init] does not return -1 but faults on the
    NULL [p->wayland_params] that [uninit] dereferences. *)
Theorem init_params_unavailable_faults (e : init_env) :
  init {| ra_gl_get := None |} e st_zero = Fault NullPointer.
Proof. reflexivity. Qed.

(** ** Tearing down twice *)

(** C2, refuted at the ready state: the first [uninit] destroys the surface
    and the subsurface but leaves both pointers set, so the second call
    hands the destroyed surface to [wl_surface_destroy] again. *)
Lemma uninit_twice_destroys_again :
  ∃ st1,
    uninit [] st_ready = Ok tt st1 ∧
    video_surface (st_priv st1) = Some 13%nat ∧
    st_surfaces st1 !! 13%nat = None ∧
    uninit [] st1 = Fault DeadProxy.
Proof. eexists. repeat split. Qed.

(** ** Events that do not concern the hand-off in progress *)

Lemma priv_stable_refl p : priv_stable p p.
Proof. by repeat split. Qed.

Lemma priv_stable_trans p1 p2 p3 :
  priv_stable p1 p2 → priv_stable p2 p3 → priv_stable p1 p3.
Proof.
  intros (?&?&?&?&?&?) (?&?&?&?&?&?). repeat split; try congruence; auto.
Qed.

Lemma background_refl st : background st st.
Proof.
  repeat split; try done. exists []. by rewrite app_nil_r.
Qed.

Lemma background_trans st1 st2 st3 :
  background st1 st2 → background st2 st3 → background st1 st3.
Proof.
  intros (Hp&Hs&Hss&Hn&d&Hd&Hv) (Hp'&Hs'&Hss'&Hn'&d'&Hd'&Hv').
  split; [by eapply priv_stable_trans|].
  repeat split; try congruence; try lia.
  exists (d ++ d'). split.
  - rewrite Hd', Hd. by rewrite app_assoc.
  - by rewrite List.filter_app, Hv, Hv'.
Qed.

Lemma keys_below_mono {A} n n' (m : gmap handle A) :
  keys_below n m → (n ≤ n')%nat → keys_below n' m.
Proof. intros H Hle k v Hk. specialize (H k v Hk). cbn in *. lia. Qed.

Lemma keys_below_insert {A} n k v (m : gmap handle A) :
  keys_below n m → (k < n)%nat → keys_below n (<[k:=v]> m).
Proof. intros H Hk. by apply map_Forall_insert_2. Qed.

Lemma keys_below_delete {A} n k (m : gmap handle A) :
  keys_below n m → keys_below n (delete k m).
Proof. intros H. by apply map_Forall_delete. Qed.

Lemma keys_below_fresh {A} n (m : gmap handle A) k :
  keys_below n m → (n ≤ k)%nat → m !! k = None.
Proof.
  intros H Hk. destruct (m !! k) eqn:E; [|done].
  specialize (H k _ E). cbn in H. lia.
Qed.

(** The heap invariant only reads the object stores and the counter. *)
Lemma heap_inv_ext ex st st' :
  st_buffers st' = st_buffers st →
  st_frames st' = st_frames st →
  st_requests st' = st_requests st →
  (st_next st ≤ st_next st')%nat →
  heap_inv ex st → heap_inv ex st'.
Proof.
  intros Hb Hf Hr Hn (H1&H2&H3&H4&H5).
  unfold heap_inv, listener_ready, frame_ready. rewrite Hb, Hf, Hr.
  repeat split; eauto using keys_below_mono.
Qed.

Lemma registry_handle_add_spec reg id interface ver st :
  ∃ st', registry_handle_add reg id interface ver st = Ok tt st' ∧
    background st st' ∧
    st_requests st' = st_requests st ∧ st_pending st' = st_pending st ∧
    st_buffers st' = st_buffers st ∧ st_frames st' = st_frames st.
Proof.
  unfold registry_handle_add.
  destruct (bool_decide (interface = wl_subcompositor_interface_name));
  destruct (bool_decide (interface = "zwp_linux_dmabuf_v1"%string));
  cbn; eexists; (split; [reflexivity|]); cbn;
  (split; [|done]); (split; [by repeat split; cbn; eauto|]); cbn;
  (repeat split; try done; try lia); solve_log.
Qed.

Lemma heap_inv_listener ex st b bs a :
  heap_inv ex st → st_buffers st !! b = Some bs → bs_listener bs = Some a →
  ex = Some a ∨ ∃ f img, st_frames st !! a = Some f ∧ image f = Val img.
Proof.
  intros (_&_&_&H4&_) Hb Ha. specialize (H4 b bs Hb). cbn in H4.
  unfold listener_ready in H4. rewrite Ha in H4.
  apply orb_true_iff in H4 as [H4|H4].
  - left. by apply bool_decide_eq_true in H4.
  - right. unfold frame_ready in H4.
    destruct (st_frames st !! a) as [f|]; [|done].
    destruct (image f) as [|img] eqn:Himg; [done|]. eauto.
Qed.

Lemma heap_inv_inj ex st b1 b2 bs1 bs2 a :
  heap_inv ex st → st_buffers st !! b1 = Some bs1 → st_buffers st !! b2 = Some bs2 →
  bs_listener bs1 = Some a → bs_listener bs2 = Some a → b1 = b2.
Proof.
  intros (_&_&_&_&H5) H1 H2 Ha1 Ha2.
  apply (H5 b1 bs1 H1 b2 bs2 H2); [by rewrite Ha1 | congruence].
Qed.

Lemma dispatch_release_idle ex n0 b st :
  heap_inv ex st → inflight_ok ex n0 st → (ex = None ∨ (b < n0)%nat) →
  ∃ st', dispatch (Ev_buffer_release b) st = Ok tt st' ∧
    heap_inv ex st' ∧ inflight_ok ex n0 st' ∧ background st st' ∧
    st_requests st' = st_requests st ∧ st_pending st' = st_pending st ∧
    (∀ b', b' ≠ b → st_buffers st' !! b' = st_buffers st !! b') ∧
    (∀ b' bs, st_buffers st' !! b' = Some bs → st_buffers st !! b' = Some bs) ∧
    (∀ fr, ex = Some fr → st_frames st' !! fr = st_frames st !! fr).
Proof.
  intros Hinv Hfl Hrel.
  unfold dispatch, bind, get.
  destruct (st_buffers st !! b) as [bs|] eqn:Hb;
    [destruct (bs_listener bs) as [a|] eqn:Ha|];
    try (exists st; split; [reflexivity|]; do 3 (split; [done || apply background_refl|]);
         by repeat split).
  assert (Hne : ex ≠ Some a).
  { intros ->. destruct (Hfl a eq_refl) as [_ Hge].
    specialize (Hge b bs Hb Ha). destruct Hrel; [done | lia]. }
  destruct (heap_inv_listener _ _ _ _ _ Hinv Hb Ha) as [?|(f&img&Hf&Himg)]; [done|].
  unfold buffer_release, bind, load_frame, bind, get, ret. rewrite Hf.
  rewrite Himg. cbn. unfold wl_buffer_destroy, bind, get. rewrite Hb. cbn.
  unfold free, bind, get. cbn. rewrite Hf. cbn.
  eexists. split; [reflexivity|].
  destruct Hinv as (H1&H2&H3&H4&H5).
  split; [|split; [|split]].
  - unfold heap_inv. cbn. repeat split; try by apply keys_below_delete.
    + done.
    + intros b' bs' Hb'. apply lookup_delete_Some in Hb' as [Hbne Hb'].
      specialize (H4 b' bs' Hb'). cbn in *.
      unfold listener_ready in *. destruct (bs_listener bs') as [a'|] eqn:Ha'; [|done].
      apply orb_true_iff in H4 as [H4|H4]; [by rewrite H4|].
      apply orb_true_iff. right. unfold frame_ready in *. cbn.
      rewrite lookup_delete_ne; [done|].
      intros ->. apply Hbne.
      apply (H5 b bs Hb b' bs' Hb'); [by rewrite Ha | congruence].
    + intros b1 bs1 Hb1 b2 bs2 Hb2.
      apply lookup_delete_Some in Hb1 as [_ Hb1].
      apply lookup_delete_Some in Hb2 as [_ Hb2].
      by apply (H5 b1 bs1 Hb1 b2 bs2 Hb2).
  - intros fr Hfr. destruct (Hfl fr Hfr) as [Hsome Hge]. cbn. split.
    + rewrite lookup_delete_ne; [done|]. intros ->. by apply Hne.
    + intros b' bs' Hb' Hl. apply lookup_delete_Some in Hb' as [_ Hb'].
      by eapply Hge.
  - repeat split; cbn; try done. solve_log.
  - cbn. repeat split; try done.
    + intros b' Hb'. by rewrite lookup_delete_ne.
    + intros b' bs' Hb'. by apply lookup_delete_Some in Hb' as [_ Hb'].
    + intros fr Hfr. rewrite lookup_delete_ne; [done|]. intros ->. by apply Hne.
Qed.

Lemma quiescent_drops_reply st (created : bool) :
  quiescent st = true →
  dispatch (if created then Ev_params_created else Ev_params_failed) st = Ok tt st.
Proof.
  intros Hq. unfold quiescent in Hq. unfold dispatch, bind, get.
  destruct created; destruct (st_pending st) as [[P fr]|]; try done;
  destruct (st_requests st !! P) as [rq|]; try done;
  destruct (br_alive rq); done.
Qed.

Lemma dispatch_idle ex n0 ev st :
  heap_inv ex st → inflight_ok ex n0 st → event_idle ex n0 st ev →
  ∃ st', dispatch ev st = Ok tt st' ∧
    heap_inv ex st' ∧ inflight_ok ex n0 st' ∧ background st st' ∧
    st_requests st' = st_requests st ∧ st_pending st' = st_pending st ∧
    (∀ b, ev ≠ Ev_buffer_release b → st_buffers st' !! b = st_buffers st !! b) ∧
    (∀ b bs, st_buffers st' !! b = Some bs → st_buffers st !! b = Some bs) ∧
    (∀ fr, ex = Some fr → st_frames st' !! fr = st_frames st !! fr).
Proof.
  intros Hinv Hfl Hidle.
  assert (unchanged : heap_inv ex st ∧ inflight_ok ex n0 st ∧ background st st ∧
    st_requests st = st_requests st ∧ st_pending st = st_pending st ∧
    (∀ b, ev ≠ Ev_buffer_release b → st_buffers st !! b = st_buffers st !! b) ∧
    (∀ b bs, st_buffers st !! b = Some bs → st_buffers st !! b = Some bs) ∧
    (∀ fr, ex = Some fr → st_frames st !! fr = st_frames st !! fr)).
  { do 2 (split; [done|]). split; [apply background_refl|]. by repeat split. }
  destruct ev as [name interface ver|name|fmt| | |b]; cbn in Hidle.
  - unfold dispatch, bind, get.
    destruct (registry (st_priv st)) as [reg|].
    + destruct (registry_handle_add_spec reg name interface ver st)
        as (st'&Hrun&Hbg&Hr&Hp&Hb&Hf).
      exists st'. split; [done|].
      split; [apply (heap_inv_ext ex st); try done; apply Hbg|].
      split; [|by rewrite Hb, Hf].
      intros fr Hfr. rewrite Hb, Hf. by apply Hfl.
    + exists st. split; [done|]. by apply unchanged.
  - exists st. split.
    + unfold dispatch, bind, get. by destruct (registry (st_priv st)).
    + by apply unchanged.
  - exists st. split; [done|]. by apply unchanged.
  - exists st. split; [by apply (quiescent_drops_reply st true)|].
    by apply unchanged.
  - exists st. split; [by apply (quiescent_drops_reply st false)|].
    by apply unchanged.
  - destruct (dispatch_release_idle ex n0 b st Hinv Hfl Hidle)
      as (st'&?&?&?&?&?&?&Hb&?&?).
    exists st'. do 6 (split; [done|]). split; [|done].
    intros b' Hb'. apply Hb. congruence.
Qed.

Lemma dispatch_all_app evs1 evs2 st :
  dispatch_all (evs1 ++ evs2) st =
  bind (dispatch_all evs1) (fun _ => dispatch_all evs2) st.
Proof.
  revert st. induction evs1 as [|ev evs1 IH]; intros st; [done|].
  cbn [dispatch_all app]. unfold bind.
  destruct (dispatch ev st) as [[] st1|]; [|done]. apply IH.
Qed.

Lemma releases_below_not_elem n evs b :
  releases_below n evs = true → (n ≤ b)%nat → Ev_buffer_release b ∉ evs.
Proof.
  unfold releases_below. rewrite forallb_forall. intros H Hle Hin.
  apply list_elem_of_In in Hin. specialize (H _ Hin). cbn in H.
  apply bool_decide_eq_true in H. lia.
Qed.

Lemma releases_below_app n evs1 evs2 :
  releases_below n (evs1 ++ evs2) = releases_below n evs1 && releases_below n evs2.
Proof. unfold releases_below. apply forallb_app. Qed.

(** Events that are all idle: the round-trip only does background work. *)
Lemma dispatch_all_idle ex n0 evs st :
  heap_inv ex st → inflight_ok ex n0 st →
  quiescent st = true ∨ first_reply evs = None →
  ex = None ∨ releases_below n0 evs = true →
  ∃ st', dispatch_all evs st = Ok tt st' ∧
    heap_inv ex st' ∧ inflight_ok ex n0 st' ∧ background st st' ∧
    st_requests st' = st_requests st ∧ st_pending st' = st_pending st ∧
    (∀ b, Ev_buffer_release b ∉ evs → st_buffers st' !! b = st_buffers st !! b) ∧
    (∀ b bs, st_buffers st' !! b = Some bs → st_buffers st !! b = Some bs) ∧
    (∀ fr, ex = Some fr → st_frames st' !! fr = st_frames st !! fr).
Proof.
  revert st. induction evs as [|ev evs IH]; intros st Hinv Hfl Hq Hrel.
  { exists st. do 3 (split; [done|]). split; [apply background_refl|]. by repeat split. }
  assert (Hidle : event_idle ex n0 st ev).
  { destruct ev; cbn; try done.
    - destruct Hq as [Hq|Hq]; [done | discriminate Hq].
    - destruct Hq as [Hq|Hq]; [done | discriminate Hq].
    - destruct Hrel as [?|Hrel]; [by left | right].
      cbn in Hrel. apply andb_true_iff in Hrel as [Hrel _].
      by apply bool_decide_eq_true in Hrel. }
  destruct (dispatch_idle ex n0 ev st Hinv Hfl Hidle)
    as (st1&Hrun&Hinv1&Hfl1&Hbg1&Hr1&Hp1&Hb1&Hs1&Hf1).
  destruct (IH st1 Hinv1 Hfl1) as (st'&Hrun'&Hinv'&Hfl'&Hbg'&Hr'&Hp'&Hb'&Hs'&Hf').
  { destruct Hq as [Hq|Hq]; [left | right].
    - unfold quiescent in *. by rewrite Hr1, Hp1.
    - by destruct ev. }
  { destruct Hrel as [?|Hrel]; [by left | right].
    cbn in Hrel. by apply andb_true_iff in Hrel as [_ Hrel]. }
  exists st'. split.
  { cbn [dispatch_all]. by rewrite (bind_Ok _ _ _ _ _ Hrun). }
  do 2 (split; [done|]). split; [by eapply background_trans|].
  split; [congruence|]. split; [congruence|]. split.
  - intros b Hb. rewrite Hb', Hb1; [done| |].
    + intros ->. apply Hb. left.
    + intros Hin. apply Hb. by right.
  - split; [by eauto|]. intros fr Hfr. rewrite Hf', Hf1; done.
Qed.

Lemma first_reply_split evs r :
  first_reply evs = Some r →
  ∃ pre post,
    evs = pre ++ (if r then Ev_params_created else Ev_params_failed) :: post ∧
    first_reply pre = None.
Proof.
  induction evs as [|ev evs IH]; [done|]. intros H.
  destruct ev; cbn in H;
    try (destruct (IH H) as (pre&post&->&Hpre); eexists (_ :: pre), post; by split).
  - injection H as <-. by exists [], evs.
  - injection H as <-. by exists [], evs.
Qed.

(** The reply to the pending request: the listener fills the frame's buffer
    slot and destroys the parameters object. *)
Lemma dispatch_reply (r : bool) P fr rq f0 st :
  heap_inv (Some fr) st →
  st_pending st = Some (P, fr) →
  st_requests st !! P = Some rq → br_alive rq = true →
  st_frames st !! fr = Some f0 →
  (∀ b bs, st_buffers st !! b = Some bs → bs_listener bs ≠ Some fr) →
  ∃ st', dispatch (if r then Ev_params_created else Ev_params_failed) st = Ok tt st' ∧
    heap_inv (Some fr) st' ∧ quiescent st' = true ∧ background st st' ∧
    st_pending st' = st_pending st ∧
    st_requests st' = <[P := answered rq]> (st_requests st) ∧
    if r then
      st_buffers st' = <[st_next st := {| bs_origin := P; bs_listener := Some fr |}]>
                         (st_buffers st) ∧
      st_frames st' = <[fr := {| buffer := Val (Some (st_next st)); image := image f0 |}]>
                        (st_frames st) ∧
      st_next st' = S (st_next st)
    else
      st_buffers st' = st_buffers st ∧
      st_frames st' = <[fr := {| buffer := Val None; image := image f0 |}]> (st_frames st) ∧
      st_next st' = st_next st.
Proof.
  intros (H1&H2&H3&H4&H5) Hp HP Halive Hf Hnone.
  assert (HPlt : (P < st_next st)%nat) by apply (H3 P rq HP).
  assert (Hfrlt : (fr < st_next st)%nat) by apply (H2 fr f0 Hf).
  destruct r.
  - eexists. split.
    { unfold dispatch, bind, get. rewrite Hp, HP, Halive.
      unfold fresh, modify, param_create_succeeded, bind, load_frame, bind, get.
      cbn. rewrite Hf. cbn. unfold store_frame, bind, get. cbn. rewrite Hf. cbn.
      unfold wl_buffer_add_listener, bind, get. cbn. rewrite lookup_insert_eq. cbn.
      unfold zwp_linux_buffer_params_v1_destroy, bind, live_request, bind, get.
      cbn. rewrite HP, Halive. cbn. reflexivity. }
    cbn. rewrite insert_insert_eq.
    split; [|split; [|split; [|by repeat split]]].
    + unfold heap_inv. cbn. repeat split.
      * apply keys_below_insert; [|lia]. eapply keys_below_mono; [done|lia].
      * apply keys_below_insert; [|lia]. eapply keys_below_mono; [done|lia].
      * apply keys_below_insert; [|lia]. eapply keys_below_mono; [done|lia].
      * intros b bs Hb. apply lookup_insert_Some in Hb as [[<- <-]|[Hne Hb]].
        { unfold listener_ready. cbn. by rewrite bool_decide_eq_true_2. }
        specialize (H4 b bs Hb). cbn in H4. unfold listener_ready in *.
        destruct (bs_listener bs) as [a|] eqn:Ha; [|done].
        apply orb_true_iff in H4 as [H4|H4]; [by rewrite H4|].
        apply orb_true_iff. right. unfold frame_ready in *. cbn.
        rewrite lookup_insert_ne; [done|]. intros <-. by apply (Hnone b bs).
      * intros b1 bs1 Hb1 b2 bs2 Hb2.
        apply lookup_insert_Some in Hb1 as [[<- <-]|[Hne1 Hb1]];
        apply lookup_insert_Some in Hb2 as [[<- <-]|[Hne2 Hb2]]; cbn.
        -- done.
        -- intros _ Heq. exfalso. by apply (Hnone b2 bs2 Hb2).
        -- intros _ Heq. exfalso. by apply (Hnone b1 bs1 Hb1).
        -- by apply (H5 b1 bs1 Hb1 b2 bs2 Hb2).
    + unfold quiescent. cbn. rewrite Hp. by rewrite lookup_insert_eq.
    + repeat split; cbn; try done; try lia. solve_log.
  - eexists. split.
    { unfold dispatch, bind, get. rewrite Hp, HP, Halive.
      unfold param_create_failed, bind, load_frame, bind, get.
      cbn. rewrite Hf. cbn. unfold store_frame, bind, get. cbn. rewrite Hf. cbn.
      unfold zwp_linux_buffer_params_v1_destroy, bind, live_request, bind, get.
      cbn. rewrite HP, Halive. cbn. reflexivity. }
    cbn.
    split; [|split; [|split; [|by repeat split]]].
    + unfold heap_inv. cbn. repeat split; try done.
      * by apply keys_below_insert.
      * by apply keys_below_insert.
      * intros b bs Hb. specialize (H4 b bs Hb). cbn in H4. unfold listener_ready in *.
        destruct (bs_listener bs) as [a|] eqn:Ha; [|done].
        apply orb_true_iff in H4 as [H4|H4]; [by rewrite H4|].
        apply orb_true_iff. right. unfold frame_ready in *. cbn.
        rewrite lookup_insert_ne; [done|]. intros <-. by apply (Hnone b bs).
    + unfold quiescent. cbn. rewrite Hp. by rewrite lookup_insert_eq.
    + repeat split; cbn; try done. solve_log.
Qed.

Lemma releases_below_mono n n' evs :
  releases_below n evs = true → (n ≤ n')%nat → releases_below n' evs = true.
Proof.
  unfold releases_below. rewrite !forallb_forall. intros H Hle ev Hin.
  specialize (H ev Hin). destruct ev; try done.
  apply bool_decide_eq_true in H. apply bool_decide_eq_true. lia.
Qed.

(** The round-trip of a hand-off whose request is answered. *)
Lemma roundtrip_reply n0 (r : bool) P fr rq evs dpy st :
  heap_inv (Some fr) st → (n0 ≤ st_next st)%nat →
  st_pending st = Some (P, fr) →
  st_requests st !! P = Some rq → br_alive rq = true →
  st_frames st !! fr = Some {| buffer := Uninit; image := Uninit |} →
  (∀ b bs, st_buffers st !! b = Some bs → bs_listener bs ≠ Some fr) →
  first_reply evs = Some r → releases_below n0 evs = true →
  ∃ st', wl_display_roundtrip dpy evs st = Ok tt st' ∧
    heap_inv (Some fr) st' ∧ quiescent st' = true ∧
    priv_stable (st_priv st) (st_priv st') ∧
    st_surfaces st' = st_surfaces st ∧
    st_subsurfaces st' = st_subsurfaces st ∧
    (st_next st ≤ st_next st')%nat ∧
    (∃ d, st_log st' = st_log st ++ Rq_display_sync dpy :: d ∧
          List.filter visible d = []) ∧
    st_requests st' = <[P := answered rq]> (st_requests st) ∧
    (∀ b, (n0 ≤ b < st_next st)%nat → st_buffers st' !! b = st_buffers st !! b) ∧
    if r then
      ∃ b, (st_next st ≤ b < st_next st')%nat ∧
        st_frames st' !! fr = Some {| buffer := Val (Some b); image := Uninit |} ∧
        st_buffers st' !! b = Some {| bs_origin := P; bs_listener := Some fr |} ∧
        (∀ b' bs, st_buffers st' !! b' = Some bs → bs_listener bs = Some fr → b' = b)
    else
      st_frames st' !! fr = Some {| buffer := Val None; image := Uninit |} ∧
      (∀ b bs, st_buffers st' !! b = Some bs → bs_listener bs ≠ Some fr).
Proof.
  intros Hinv Hn0 Hp HP Halive Hf Hnone Hreply Hrel.
  destruct (first_reply_split evs r Hreply) as (pre&post&->&Hpre).
  rewrite releases_below_app in Hrel. apply andb_true_iff in Hrel as [Hrel1 Hrel2].
  change (releases_below n0 (?e :: post)) with
    (match e with Ev_buffer_release b => bool_decide (b < n0)%nat | _ => true end
     && releases_below n0 post) in Hrel2.
  assert (Hrel3 : releases_below n0 post = true) by (by destruct r). clear Hrel2.
  set (st0 := set_log (st_log st ++ [Rq_display_sync dpy]) st).
  assert (Hinv0 : heap_inv (Some fr) st0) by (by apply (heap_inv_ext _ st)).
  (* before the reply *)
  destruct (dispatch_all_idle (Some fr) n0 pre st0 Hinv0)
    as (st1&Hrun1&Hinv1&Hfl1&Hbg1&Hr1&Hp1&Hb1&Hs1&Hf1); [| by right | by right |].
  { intros ? [= <-]. unfold st0; cbn. split; [by rewrite Hf|].
    intros b bs Hb Hl. by destruct (Hnone b bs Hb). }
  specialize (Hf1 fr eq_refl). cbn in Hf1. rewrite Hf in Hf1.
  assert (Hnone1 : ∀ b bs, st_buffers st1 !! b = Some bs → bs_listener bs ≠ Some fr).
  { intros b bs Hb. apply Hs1 in Hb. by apply (Hnone b bs). }
  (* the reply *)
  destruct (dispatch_reply r P fr rq {| buffer := Uninit; image := Uninit |} st1 Hinv1)
    as (st2&Hrun2&Hinv2&Hq2&Hbg2&Hp2&Hr2&Hres);
    [by rewrite Hp1 | by rewrite Hr1 | done | done | done |].
  (* after the reply *)
  assert (Hle1 : (st_next st ≤ st_next st1)%nat) by apply Hbg1.
  assert (Hfl2 : inflight_ok (Some fr) n0 st2).
  { intros ? [= <-]. destruct r.
    - destruct Hres as (Hb2&Hf2&Hn2). rewrite Hb2, Hf2. split.
      + rewrite lookup_insert_eq. eauto.
      + intros b bs Hb Hl. apply lookup_insert_Some in Hb as [[<- _]|[_ Hb]]; [lia|].
        by destruct (Hnone1 b bs Hb).
    - destruct Hres as (Hb2&Hf2&Hn2). rewrite Hb2, Hf2. split.
      + rewrite lookup_insert_eq. eauto.
      + intros b bs Hb Hl. by destruct (Hnone1 b bs Hb). }
  destruct (dispatch_all_idle (Some fr) n0 post st2 Hinv2 Hfl2)
    as (st3&Hrun3&Hinv3&Hfl3&Hbg3&Hr3&Hp3&Hb3&Hs3&Hf3); [by left | by right |].
  specialize (Hf3 fr eq_refl).
  exists st3. split.
  { unfold wl_display_roundtrip, bind, send, modify. fold st0.
    rewrite dispatch_all_app. rewrite (bind_Ok _ _ _ _ _ Hrun1).
    cbn [dispatch_all]. by rewrite (bind_Ok _ _ _ _ _ Hrun2). }
  pose proof (background_trans _ _ _ (background_trans _ _ _ Hbg1 Hbg2) Hbg3)
    as (Hpriv&Hsf&Hssf&Hnx&d&Hd&Hvis).
  split; [done|]. split; [unfold quiescent in *; by rewrite Hr3, Hp3|].
  do 4 (split; [done|]).
  split. { exists d. split; [|done]. rewrite Hd. cbn. by rewrite <- app_assoc. }
  split. { by rewrite Hr3, Hr2, Hr1. }
  assert (Hold : ∀ b, (n0 ≤ b)%nat → b ≠ st_next st1 →
                      st_buffers st3 !! b = st_buffers st !! b).
  { intros b Hb Hne. rewrite Hb3; [|by apply releases_below_not_elem with n0].
    transitivity (st_buffers st1 !! b).
    - destruct r; destruct Hres as (Hb2&_&_); rewrite Hb2; [|done].
      by rewrite lookup_insert_ne.
    - rewrite Hb1; [done|]. by apply releases_below_not_elem with n0. }
  split. { intros b Hb. apply Hold; lia. }
  destruct r; destruct Hres as (Hb2&Hf2&Hn2).
  - exists (st_next st1). cbn in Hnx. split; [|split; [|split]].
    + pose proof Hbg3 as (_&_&_&Hn3&_). lia.
    + rewrite Hf3, Hf2. by rewrite lookup_insert_eq.
    + rewrite Hb3; [|apply releases_below_not_elem with n0; [done|lia]].
      rewrite Hb2. by rewrite lookup_insert_eq.
    + intros b' bs Hb' Hl. apply Hs3 in Hb'. rewrite Hb2 in Hb'.
      apply lookup_insert_Some in Hb' as [[<- _]|[_ Hb']]; [done|].
      by destruct (Hnone1 b' bs Hb').
  - split.
    + rewrite Hf3, Hf2. by rewrite lookup_insert_eq.
    + intros b bs Hb. apply Hs3 in Hb. rewrite Hb2 in Hb. by apply (Hnone1 b bs).
Qed.

(** ** The plane loop *)

Lemma state_eta st :
  set_log (st_log st) (set_requests (st_requests st) st) = st.
Proof. by destruct st. Qed.

Lemma uint32_slot plane :
  0 ≤ plane < AV_DRM_MAX_PLANES → uint32 plane = plane.
Proof. intros H. unfold uint32, AV_DRM_MAX_PLANES in *. apply Z.mod_small. lia. Qed.

Lemma plane_body_spec desc layer P plane st rq :
  0 ≤ plane < AV_DRM_MAX_PLANES → slot_ok desc layer plane = true →
  st_requests st !! P = Some rq → br_alive rq = true →
  ∃ d, plane_body desc layer P 0 plane st =
       Ok tt (set_log (st_log st ++ d)
               (set_requests (<[P := with_planes rq
                                  (option_list (selected_plane desc layer plane))]>
                                (st_requests st)) st)) ∧
       List.filter visible d = [].
Proof.
  intros Hplane Hok HP Halive. unfold slot_ok in Hok. unfold selected_plane.
  unfold plane_body, bind, array_at, ret, crash.
  rewrite bool_decide_eq_true_2 by done.
  destruct (planes layer !! Z.to_nat plane) as [pl|]; [|done].
  apply andb_true_iff in Hok as [Hidx Hobj]. cbv beta iota.
  rewrite Hidx. apply bool_decide_eq_true in Hobj as [obj Hobj]. rewrite Hobj.
  cbv beta iota. rewrite bool_decide_and.
  destruct (bool_decide (fd obj ≠ 0) && bool_decide (pitch pl ≠ 0)).
  - exists [Rq_params_add P (fd obj) plane (uint32 (offset pl)) (uint32 (pitch pl)) 0 0].
    split; [|done].
    unfold zwp_linux_buffer_params_v1_add, bind, live_request, bind, get.
    rewrite HP, Halive. rewrite (uint32_slot plane Hplane). reflexivity.
  - exists []. split; [|done]. cbn. rewrite app_nil_r.
    replace (with_planes rq []) with rq.
    + rewrite insert_id by done. by rewrite state_eta.
    + destruct rq. unfold with_planes. cbn. by rewrite app_nil_r.
Qed.

Lemma with_planes_app rq es1 es2 :
  with_planes (with_planes rq es1) es2 = with_planes rq (es1 ++ es2).
Proof. unfold with_planes. cbn. by rewrite <- app_assoc. Qed.

Lemma omap_cons_app {A B} (f : A → option B) x l :
  option_list (f x) ++ omap f l = omap f (x :: l).
Proof. cbn. by destruct (f x). Qed.

Lemma planes_loop_spec desc layer P slots st rq :
  Forall (fun plane => 0 ≤ plane < AV_DRM_MAX_PLANES ∧
                       slot_ok desc layer plane = true) slots →
  st_requests st !! P = Some rq → br_alive rq = true →
  ∃ d, planes_loop desc layer P 0 slots st =
       Ok tt (set_log (st_log st ++ d)
               (set_requests (<[P := with_planes rq
                                  (omap (selected_plane desc layer) slots)]>
                                (st_requests st)) st)) ∧
       List.filter visible d = [].
Proof.
  intros Hslots. revert st rq.
  induction Hslots as [|plane slots [Hplane Hok] _ IH]; intros st rq HP Halive.
  - exists []. split; [|done]. cbn. rewrite app_nil_r.
    replace (with_planes rq []) with rq.
    + rewrite insert_id by done. by rewrite state_eta.
    + destruct rq. unfold with_planes. cbn. by rewrite app_nil_r.
  - destruct (plane_body_spec desc layer P plane st rq Hplane Hok HP Halive)
      as (d1&Hrun1&Hv1).
    cbn [planes_loop]. rewrite (bind_Ok _ _ _ _ _ Hrun1).
    match type of Hrun1 with _ = Ok _ ?s1 =>
      destruct (IH s1 (with_planes rq (option_list (selected_plane desc layer plane))))
        as (d2&Hrun2&Hv2)
    end.
    { cbn. by rewrite lookup_insert_eq. }
    { done. }
    rewrite Hrun2. exists (d1 ++ d2). split.
    + cbn. rewrite insert_insert_eq, <- app_assoc, with_planes_app.
      by rewrite omap_cons_app.
    + by rewrite List.filter_app, Hv1, Hv2.
Qed.

Lemma layer_ok_slots desc l :
  layer_ok desc l = true →
  0 ≤ l < AV_DRM_MAX_PLANES ∧
  ∃ layer, layers desc !! Z.to_nat l = Some layer ∧
    Forall (fun plane => 0 ≤ plane < AV_DRM_MAX_PLANES ∧
                         slot_ok desc layer plane = true)
           (seqZ 0 AV_DRM_MAX_PLANES).
Proof.
  unfold layer_ok. intros H. apply andb_true_iff in H as [Hl H].
  apply bool_decide_eq_true in Hl. split; [done|].
  destruct (layers desc !! Z.to_nat l) as [layer|]; [|done].
  exists layer. split; [done|].
  rewrite forallb_forall in H. apply Forall_forall. intros plane Hin.
  split.
  - apply elem_of_seqZ in Hin. lia.
  - apply H. by apply list_elem_of_In.
Qed.

(** The hand-off in progress ends: the image reference is stored in its
    frame, or the frame is freed. *)
Lemma heap_inv_image fr st st' f' :
  heap_inv (Some fr) st → is_Some (st_frames st !! fr) →
  is_init (image f') = true →
  st_buffers st' = st_buffers st →
  st_frames st' = <[fr := f']> (st_frames st) →
  st_requests st' = st_requests st →
  st_next st' = st_next st →
  heap_inv None st'.
Proof.
  intros (H1&H2&H3&H4&H5) [f Hf] Hinit Hb Hfr Hr Hn.
  unfold heap_inv. rewrite Hb, Hfr, Hr, Hn. repeat split; try done.
  - apply keys_below_insert; [done|]. apply (H2 fr f Hf).
  - intros b bs Hbs. specialize (H4 b bs Hbs). cbn in H4.
    unfold listener_ready in *. destruct (bs_listener bs) as [a|]; [|done].
    cbn. unfold frame_ready in *. rewrite Hfr.
    destruct (decide (a = fr)) as [->|Hne].
    + by rewrite lookup_insert_eq.
    + rewrite lookup_insert_ne by done.
      apply orb_true_iff in H4 as [H4|H4]; [|done].
      apply bool_decide_eq_true in H4. congruence.
Qed.

Lemma heap_inv_freed fr st st' :
  heap_inv (Some fr) st →
  (∀ b bs, st_buffers st !! b = Some bs → bs_listener bs ≠ Some fr) →
  st_buffers st' = st_buffers st →
  st_frames st' = delete fr (st_frames st) →
  st_requests st' = st_requests st →
  st_next st' = st_next st →
  heap_inv None st'.
Proof.
  intros (H1&H2&H3&H4&H5) Hnone Hb Hfr Hr Hn.
  unfold heap_inv. rewrite Hb, Hfr, Hr, Hn. repeat split; try done.
  - by apply keys_below_delete.
  - intros b bs Hbs. specialize (H4 b bs Hbs). cbn in H4.
    unfold listener_ready in *. destruct (bs_listener bs) as [a|] eqn:Ha; [|done].
    cbn. unfold frame_ready in *. rewrite Hfr.
    apply orb_true_iff in H4 as [H4|H4].
    + apply bool_decide_eq_true in H4. injection H4 as ->. by destruct (Hnone b bs Hbs).
    + rewrite lookup_delete_ne; [done|]. intros <-. by destruct (Hnone b bs Hbs).
Qed.

(** ** One iteration of the layer loop *)

Lemma array_at_ok {A} (a : list A) (i : Z) (x : A) st :
  0 ≤ i < AV_DRM_MAX_PLANES → a !! Z.to_nat i = Some x →
  array_at a i st = Ok x st.
Proof.
  intros Hi Hx. unfold array_at. rewrite bool_decide_eq_true_2 by done.
  by rewrite Hx.
Qed.

Lemma outcome_attached e :
  outcome e = Attached → malloc_ok e = true ∧ first_reply (events e) = Some true.
Proof.
  unfold outcome. destruct (malloc_ok e); [|done].
  by destruct (first_reply (events e)) as [[]|].
Qed.

Lemma outcome_failed e :
  outcome e = CreateFailed → malloc_ok e = true ∧ first_reply (events e) = Some false.
Proof.
  unfold outcome. destruct (malloc_ok e); [|done].
  by destruct (first_reply (events e)) as [[]|].
Qed.

Lemma outcome_oom e : outcome e = OutOfMemory → malloc_ok e = false.
Proof.
  unfold outcome. destruct (malloc_ok e); [|done].
  by destruct (first_reply (events e)) as [[]|].
Qed.

Section Layer.
Context (img : mp_image) (desc : AVDRMFrameDescriptor) (r : mp_rect)
        (env : Z → layer_env) (n0 : handle).

(** The state in which the iteration for a layer starts. *)
Context (st : state) (l : Z) (layer : AVDRMLayerDescriptor)
        (wp : mpv_opengl_cb_wayland_params) (dm s : handle) (ss : surface_state).
Context (Hheap : heap_ok st) (Hn0 : (n0 ≤ st_next st)%nat)
        (Hwp : wayland_params (st_priv st) = Some wp)
        (Hdm : dmabuf (st_priv st) = Some dm)
        (Hs : video_surface (st_priv st) = Some s)
        (Hss : st_surfaces st !! s = Some ss)
        (Hl : layer_ok desc l = true)
        (Hlayer : layers desc !! Z.to_nat l = Some layer).

(** The parameters object is created and filled: the state before
    [malloc]. *)
Lemma layer_begin :
  ∃ d, List.filter visible d = [] ∧
    ∀ k : AVDRMLayerDescriptor → handle → M Z,
    (let* layer := array_at (layers desc) l in
     let* p := get_priv in
     let* params := zwp_linux_dmabuf_v1_create_params (dmabuf p) in
     planes_loop desc layer params 0 (seqZ 0 AV_DRM_MAX_PLANES) ;;;
     k layer params) st =
    k layer (st_next st)
      (set_log (st_log st ++ d)
         (set_requests
            (<[st_next st := {| br_planes := layer_entries desc layer;
                                br_created := None; br_alive := true |}]>
               (st_requests st))
            (set_next (S (st_next st)) st))).
Proof.
  destruct (layer_ok_slots desc l Hl) as (Hrange&layer'&Hlayer'&Hslots).
  rewrite Hlayer in Hlayer'. injection Hlayer' as <-.
  set (st2 := set_log (st_log st ++ [Rq_dmabuf_create_params dm (st_next st)])
         (set_requests
            (<[st_next st := {| br_planes := []; br_created := None; br_alive := true |}]>
               (st_requests st))
            (set_next (S (st_next st)) st))).
  destruct (planes_loop_spec desc layer (st_next st) (seqZ 0 AV_DRM_MAX_PLANES) st2
              {| br_planes := []; br_created := None; br_alive := true |} Hslots)
    as (d&Hrun&Hvis).
  { unfold st2. cbn. by rewrite lookup_insert_eq. }
  { done. }
  exists (Rq_dmabuf_create_params dm (st_next st) :: d). split; [done|].
  intros k.
  step (array_at_ok (layers desc) l layer st Hrange Hlayer).
  step_refl. rewrite Hdm.
  assert (Hcp : zwp_linux_dmabuf_v1_create_params (Some dm) st = Ok (st_next st) st2)
    by reflexivity.
  step Hcp. step Hrun.
  f_equal. unfold st2. cbn. rewrite insert_insert_eq, <- app_assoc. reflexivity.
Qed.

Lemma layer_step_oom ls' :
  outcome (env l) = OutOfMemory →
  ∃ st',
    layers_loop img desc (Some r) 0 0 env (l :: ls') st = Ok (-1) st' ∧
    heap_ok st' ∧ st_priv st' = st_priv st ∧
    st_surfaces st' = st_surfaces st ∧ st_subsurfaces st' = st_subsurfaces st ∧
    st_buffers st' = st_buffers st ∧
    (st_next st < st_next st')%nat ∧
    st_requests st' =
      <[st_next st := layer_request desc r layer OutOfMemory]> (st_requests st) ∧
    ∃ d, st_log st' = st_log st ++ d ∧ List.filter visible d = [].
Proof using All.
  intros Hout. apply outcome_oom in Hout.
  destruct layer_begin as (d&Hvis&Hbegin).
  eexists. split.
  { cbn [layers_loop]. rewrite Hbegin. rewrite Hout. reflexivity. }
  cbn. destruct Hheap as [(H1&H2&H3&H4&H5) Hq].
  split; [|repeat split; try done; try lia; by exists d].
  split.
  - unfold heap_inv. cbn. repeat split; try (eapply keys_below_mono; [done|lia]).
    + apply keys_below_insert; [|lia]. eapply keys_below_mono; [done|lia].
    + done.
    + done.
  - unfold quiescent in *. cbn. destruct (st_pending st) as [[P fr]|]; [|done].
    destruct (st_requests st !! P) as [rq|] eqn:HP; [|done].
    rewrite lookup_insert_ne; [by rewrite HP|].
    intros <-. specialize (H3 _ _ HP). cbn in H3. lia.
Qed.

(** Every listener frame of a heap without a hand-off in progress is an
    allocated cell below the counter. *)
Lemma listener_below b bs a :
  st_buffers st !! b = Some bs → bs_listener bs = Some a → (a < st_next st)%nat.
Proof.
  intros Hb Ha. destruct Hheap as [Hinv _].
  destruct (heap_inv_listener _ _ _ _ _ Hinv Hb Ha) as [?|(f&?&Hf&_)]; [done|].
  destruct Hinv as (_&H2&_). apply (H2 a f Hf).
Qed.

(** With [malloc] succeeding and a reply [rp] among the events, the
    iteration reaches the end of its round-trip. *)
Lemma layer_roundtrip (rp : bool) :
  malloc_ok (env l) = true →
  first_reply (events (env l)) = Some rp →
  releases_below n0 (events (env l)) = true →
  let P := st_next st in
  let fr := S (st_next st) in
  ∃ st7,
    heap_inv (Some fr) st7 ∧ quiescent st7 = true ∧
    priv_stable (st_priv st) (st_priv st7) ∧
    st_surfaces st7 = st_surfaces st ∧
    st_subsurfaces st7 = st_subsurfaces st ∧
    (S (S (st_next st)) ≤ st_next st7)%nat ∧
    (∃ d, st_log st7 = st_log st ++ d ∧
          List.filter visible d = [Rq_display_sync (display wp)]) ∧
    st_requests st7 = <[P := layer_request desc r layer Attached]> (st_requests st) ∧
    (∀ b, (n0 ≤ b < st_next st)%nat → st_buffers st7 !! b = st_buffers st !! b) ∧
    (if rp then
       ∃ b, (S (S (st_next st)) ≤ b < st_next st7)%nat ∧
         st_frames st7 !! fr = Some {| buffer := Val (Some b); image := Uninit |} ∧
         st_buffers st7 !! b = Some {| bs_origin := P; bs_listener := Some fr |} ∧
         (∀ b' bs, st_buffers st7 !! b' = Some bs → bs_listener bs = Some fr → b' = b)
     else
       st_frames st7 !! fr = Some {| buffer := Val None; image := Uninit |} ∧
       (∀ b bs, st_buffers st7 !! b = Some bs → bs_listener bs ≠ Some fr)) ∧
    ∀ k : AVDRMLayerDescriptor → option handle → handle → M Z,
    (let* layer := array_at (layers desc) l in
     let* p := get_priv in
     let* params := zwp_linux_dmabuf_v1_create_params (dmabuf p) in
     planes_loop desc layer params 0 (seqZ 0 AV_DRM_MAX_PLANES) ;;;
     let* frame := malloc (malloc_ok (env l)) in
     match frame with
     | None => overlay_fail frame (-1)
     | Some fr =>
         zwp_linux_buffer_params_v1_add_listener params fr ;;;
         let* r := deref (Some r) in
         zwp_linux_buffer_params_v1_create params
           (int_sub (x1 r) (x0 r)) (int_sub (y1 r) (y0 r)) (format layer) 0 ;;;
         let* p := get_priv in
         let* wp := deref (wayland_params p) in
         wl_display_roundtrip (display wp) (events (env l)) ;;;
         k layer frame fr
     end) st = k layer (Some fr) fr st7.
Proof.
  intros Hmalloc Hreply Hrel P fr.
  destruct layer_begin as (d&Hvis&Hbegin).
  set (rq := {| br_planes := layer_entries desc layer;
                br_created := Some (create_args_of r layer); br_alive := true |}).
  set (st6 :=
    set_log ((st_log st ++ d) ++
             [Rq_params_create P (int_sub (x1 r) (x0 r)) (int_sub (y1 r) (y0 r))
                (format layer) 0])
      (set_requests (<[P := rq]> (st_requests st))
         (set_pending (Some (P, fr))
            (set_frames (<[fr := {| buffer := Uninit; image := Uninit |}]> (st_frames st))
               (set_next (S (S (st_next st))) st))))).
  destruct Hheap as [(H1&H2&H3&H4&H5) Hq].
  assert (Hnone : ∀ b bs, st_buffers st !! b = Some bs → bs_listener bs ≠ Some fr).
  { intros b bs Hb Ha. pose proof (listener_below b bs fr Hb Ha). unfold fr in *. lia. }
  assert (Hinv6 : heap_inv (Some fr) st6).
  { unfold heap_inv, st6. cbn. repeat split.
    - eapply keys_below_mono; [done|lia].
    - apply keys_below_insert; [|unfold fr; lia]. eapply keys_below_mono; [done|lia].
    - apply keys_below_insert; [|unfold P; lia]. eapply keys_below_mono; [done|lia].
    - intros b bs Hb. specialize (H4 b bs Hb). cbn in H4.
      unfold listener_ready in *. destruct (bs_listener bs) as [a|] eqn:Ha; [|done].
      cbn in H4. apply orb_true_iff. right. unfold frame_ready in *. cbn.
      rewrite lookup_insert_ne; [done|]. intros <-. by apply (Hnone b bs).
    - done. }
  destruct (roundtrip_reply n0 rp P fr rq (events (env l)) (display wp) st6 Hinv6)
    as (st7&Hrun&Hinv7&Hq7&Hpriv&Hsf&Hssf&Hnx&(d7&Hd7&Hv7)&Hr7&Hb7&Hres);
    try done.
  { unfold st6. cbn. lia. }
  { unfold st6. cbn. by rewrite lookup_insert_eq. }
  { unfold st6. cbn. by rewrite lookup_insert_eq. }
  exists st7. split; [done|]. split; [done|]. split; [done|].
  split; [done|]. split; [done|]. split; [done|].
  split.
  { eexists. split; [rewrite Hd7; unfold st6; cbn; rewrite <- !app_assoc; reflexivity|].
    rewrite List.filter_app, Hvis. cbn. by rewrite Hv7. }
  split. { rewrite Hr7. unfold st6. cbn. by rewrite insert_insert_eq. }
  split. { intros b Hb. apply Hb7. unfold st6. cbn. lia. }
  split. { exact Hres. }
  intros k. rewrite Hbegin. cbv beta. rewrite Hmalloc.
  match goal with |- bind (malloc true) _ ?s = _ => set (st3 := s) end.
  assert (Hmal : malloc true st3 = Ok (Some fr)
              (set_frames (<[fr := {| buffer := Uninit; image := Uninit |}]> (st_frames st3))
                 (set_next (S (st_next st3)) st3))).
  { reflexivity. }
  step Hmal.
  match goal with |- bind (zwp_linux_buffer_params_v1_add_listener _ _) _ ?s = _ =>
    assert (Hal : zwp_linux_buffer_params_v1_add_listener P fr s =
                  Ok tt (set_pending (Some (P, fr)) s))
  end.
  { unfold zwp_linux_buffer_params_v1_add_listener, bind, live_request, bind, get.
    cbn. by rewrite lookup_insert_eq. }
  step Hal. step_refl.
  match goal with |- bind (zwp_linux_buffer_params_v1_create _ ?w ?h ?f ?g) _ ?s = _ =>
    assert (Hcr : zwp_linux_buffer_params_v1_create P w h f g s = Ok tt st6)
  end.
  { unfold zwp_linux_buffer_params_v1_create, bind, live_request, bind, get.
    cbn. rewrite lookup_insert_eq. cbn. unfold st6. cbn.
    by rewrite insert_insert_eq. }
  step Hcr. step_refl.
  assert (Hwp6 : wayland_params (st_priv st6) = Some wp) by done.
  rewrite Hwp6. step_refl. step Hrun. reflexivity.
Qed.

(** The iteration for a layer whose buffer is created: the buffer is
    attached and committed, and the loop goes on. *)
Lemma layer_step_attached :
  outcome (env l) = Attached →
  releases_below n0 (events (env l)) = true →
  ∃ st' b,
    (∀ ls', layers_loop img desc (Some r) 0 0 env (l :: ls') st =
            layers_loop img desc (Some r) 0 0 env ls' st') ∧
    heap_ok st' ∧ priv_stable (st_priv st) (st_priv st') ∧
    st_subsurfaces st' = st_subsurfaces st ∧
    (st_next st < b < st_next st')%nat ∧
    st_surfaces st' =
      <[s := {| ss_pending := None; ss_current := Some b |}]> (st_surfaces st) ∧
    st_requests st' =
      <[st_next st := layer_request desc r layer Attached]> (st_requests st) ∧
    st_buffers st' !! b =
      Some {| bs_origin := st_next st; bs_listener := Some (S (st_next st)) |} ∧
    (∀ b', (n0 ≤ b' < st_next st)%nat → st_buffers st' !! b' = st_buffers st !! b') ∧
    ∃ d, st_log st' = st_log st ++ d ∧
         List.filter visible d =
           [Rq_display_sync (display wp); Rq_surface_attach s (Some b) 0 0;
            Rq_surface_commit s].
Proof.
  intros Hout Hrel. apply outcome_attached in Hout as [Hmalloc Hreply].
  destruct (layer_roundtrip true Hmalloc Hreply Hrel)
    as (st7&Hinv7&Hq7&Hpriv&Hsf&Hssf&Hnx&(d&Hd&Hvis)&Hr7&Hb7&(b&Hb&Hfr&Hbb&Huniq)&Hk).
  set (fr := S (st_next st)) in *.
  set (st8 := set_frames (<[fr := {| buffer := Val (Some b);
                                      image := Val (mp_image_new_ref img) |}]>
                            (st_frames st7)) st7).
  set (st10 := set_log (st_log st7 ++ [Rq_surface_attach s (Some b) 0 0;
                                       Rq_surface_commit s])
                 (set_surfaces (<[s := {| ss_pending := None; ss_current := Some b |}]>
                                  (st_surfaces st7)) st8)).
  exists st10, b. split.
  { intros ls'. cbn [layers_loop]. rewrite Hk. cbv beta.
    assert (Hload : load_frame fr st7 =
                    Ok {| buffer := Val (Some b); image := Uninit |} st7).
    { unfold load_frame, bind, get. by rewrite Hfr. }
    step Hload. step_refl. step Hload.
    assert (Hstore : store_frame fr {| buffer := Val (Some b);
                                       image := Val (mp_image_new_ref img) |} st7 =
                     Ok tt st8).
    { unfold store_frame, bind, get. by rewrite Hfr. }
    step Hstore. step_refl.
    assert (Hs8 : video_surface (st_priv st8) = Some s).
    { cbn. destruct Hpriv as (_&_&->&_). done. }
    rewrite Hs8.
    assert (Hatt : wl_surface_attach (Some s) (Some b) 0 0 st8 =
                   Ok tt (set_log (st_log st8 ++ [Rq_surface_attach s (Some b) 0 0])
                            (set_surfaces
                               (<[s := {| ss_pending := Some (Some b);
                                          ss_current := ss_current ss |}]>
                                  (st_surfaces st8)) st8))).
    { assert (Hss7 : st_surfaces st7 !! s = Some ss) by (by rewrite Hsf).
      unfold wl_surface_attach, bind, deref, ret, get. cbn. rewrite Hss7.
      unfold buffer_arg_ok. cbn. rewrite Hbb.
      rewrite bool_decide_eq_true_2 by eauto. reflexivity. }
    step Hatt.
    match goal with |- bind (wl_surface_commit _) _ ?s9 = _ =>
      assert (Hcom : wl_surface_commit (Some s) s9 = Ok tt st10)
    end.
    { unfold wl_surface_commit, bind, deref, ret, get. cbn.
      rewrite lookup_insert_eq. cbn. unfold st10. cbn.
      rewrite insert_insert_eq. unfold send, modify. cbn.
      by rewrite <- app_assoc. }
    step Hcom. reflexivity. }
  split.
  { split.
    - apply (heap_inv_image fr st7 st10 {| buffer := Val (Some b);
                                           image := Val (mp_image_new_ref img) |});
        try done.
    - exact Hq7. }
  split; [exact Hpriv|]. split; [exact Hssf|].
  split. { unfold st10. cbn. lia. }
  split. { unfold st10. cbn. by rewrite Hsf. }
  split; [exact Hr7|]. split; [exact Hbb|]. split; [exact Hb7|].
  eexists. split.
  - unfold st10. cbn. rewrite Hd, <- app_assoc. reflexivity.
  - rewrite List.filter_app, Hvis. reflexivity.
Qed.

(** The iteration for a layer whose buffer the server refuses: the frame
    is freed and the hand-off returns -1. *)
Lemma layer_step_failed ls' :
  outcome (env l) = CreateFailed →
  releases_below n0 (events (env l)) = true →
  ∃ st',
    layers_loop img desc (Some r) 0 0 env (l :: ls') st = Ok (-1) st' ∧
    heap_ok st' ∧ priv_stable (st_priv st) (st_priv st') ∧
    st_subsurfaces st' = st_subsurfaces st ∧
    (st_next st < st_next st')%nat ∧
    st_surfaces st' = st_surfaces st ∧
    st_requests st' =
      <[st_next st := layer_request desc r layer CreateFailed]> (st_requests st) ∧
    (∀ b', (n0 ≤ b' < st_next st)%nat → st_buffers st' !! b' = st_buffers st !! b') ∧
    ∃ d, st_log st' = st_log st ++ d ∧
         List.filter visible d = [Rq_display_sync (display wp)].
Proof using All.
  intros Hout Hrel. apply outcome_failed in Hout as [Hmalloc Hreply].
  destruct (layer_roundtrip false Hmalloc Hreply Hrel)
    as (st7&Hinv7&Hq7&Hpriv&Hsf&Hssf&Hnx&(d&Hd&Hvis)&Hr7&Hb7&(Hfr&Hnone)&Hk).
  set (fr := S (st_next st)) in *.
  set (st8 := set_frames (delete fr (st_frames st7)) st7).
  exists st8. split.
  { cbn [layers_loop]. rewrite Hk. cbv beta.
    assert (Hload : load_frame fr st7 =
                    Ok {| buffer := Val None; image := Uninit |} st7).
    { unfold load_frame, bind, get. by rewrite Hfr. }
    step Hload. step_refl.
    unfold overlay_fail, free, bind, get. rewrite Hfr. reflexivity. }
  split.
  { split; [|exact Hq7]. by apply (heap_inv_freed fr st7 st8). }
  split; [exact Hpriv|]. split; [exact Hssf|].
  split. { unfold st8. cbn. lia. }
  split; [exact Hsf|]. split; [exact Hr7|]. split; [exact Hb7|].
  by exists d.
Qed.
End Layer.

(** ** The layer loop *)

Lemma attached_last_cons s step steps m :
  attached_last s steps
    (<[s := {| ss_pending := None; ss_current := Some step.2 |}]> m) =
  attached_last s (step :: steps) m.
Proof.
  unfold attached_last. rewrite last_cons.
  destruct (last steps); [|done]. by rewrite insert_insert_eq.
Qed.

(** The release bound of a run, layer by layer. *)
Lemma after_layers_run img desc src env st l st' :
  layers_loop img desc src 0 0 env (seqZ 0 l) st = Ok 0 st' →
  after_layers img desc src env st l = Some st'.
Proof. unfold after_layers. by intros ->. Qed.

Lemma releases_in_order_head img desc src env l ls st :
  releases_in_order img desc src env (l :: ls) st →
  releases_below (st_next st) (events (env l)) = true.
Proof. intros H. by apply (H [] l ls st). Qed.

Lemma releases_in_order_prefix img desc src env ls1 ls2 st :
  releases_in_order img desc src env (ls1 ++ ls2) st →
  releases_in_order img desc src env ls1 st.
Proof.
  intros H pre l post st_l -> Hpre.
  apply (H pre l (post ++ ls2) st_l); [by rewrite <- app_assoc|done].
Qed.

Lemma releases_in_order_app img desc src env ls1 ls2 st st1 :
  releases_in_order img desc src env (ls1 ++ ls2) st →
  (∀ ls, layers_loop img desc src 0 0 env (ls1 ++ ls) st =
         layers_loop img desc src 0 0 env ls st1) →
  releases_in_order img desc src env ls2 st1.
Proof.
  intros H Hrun pre l post st_l -> Hpre.
  apply (H (ls1 ++ pre) l post st_l); [by rewrite app_assoc|]. by rewrite Hrun.
Qed.

Lemma releases_earlier_in_order img desc src env st n :
  (∀ l, 0 ≤ l < n → releases_earlier img desc src env st l = true) →
  releases_in_order img desc src env (seqZ 0 n) st.
Proof.
  intros H pre l post st_l Heq Hpre.
  assert (Hl : seqZ 0 n !! length pre = Some l).
  { rewrite Heq. by apply list_lookup_middle. }
  apply lookup_seqZ in Hl as [-> Hlt].
  assert (pre = seqZ 0 (Z.of_nat (length pre))) as Hpre'.
  { replace n with (Z.of_nat (length pre) + (n - Z.of_nat (length pre))) in Heq by lia.
    rewrite seqZ_app in Heq by lia.
    apply app_inj_1 in Heq as [Heq _]; [done|]. rewrite length_seqZ. lia. }
  specialize (H (0 + Z.of_nat (length pre))). unfold releases_earlier in H.
  rewrite Z.add_0_l in H. rewrite Hpre' in Hpre.
  rewrite (after_layers_run _ _ _ _ _ _ _ Hpre) in H. rewrite Z.add_0_l. apply H. lia.
Qed.

Section Loop.
Context (img : mp_image) (desc : AVDRMFrameDescriptor) (r : mp_rect)
        (env : Z → layer_env) (n0 : handle)
        (wp : mpv_opengl_cb_wayland_params) (s : handle).

Lemma loop_inv_step st st' :
  loop_inv n0 wp s st → heap_ok st' → priv_stable (st_priv st) (st_priv st') →
  (st_next st ≤ st_next st')%nat → is_Some (st_surfaces st' !! s) →
  loop_inv n0 wp s st'.
Proof.
  intros (_&Hn&Hwp&Hdm&Hs&_) Hheap (Hp1&_&Hp3&_&Hp5&_) Hle Hss.
  split; [done|]. split; [lia|]. split; [congruence|]. split; [by apply Hp5|].
  split; [congruence|done].
Qed.

(** A run of layers whose buffers are all created. *)
Lemma layers_loop_attached ls : ∀ st,
  loop_inv n0 wp s st →
  Forall (fun l => layer_ok desc l = true ∧ outcome (env l) = Attached) ls →
  releases_in_order img desc (Some r) env ls st →
  ∃ st' (steps : list (handle * handle)),
    (∀ ls2, layers_loop img desc (Some r) 0 0 env (ls ++ ls2) st =
            layers_loop img desc (Some r) 0 0 env ls2 st') ∧
    loop_inv n0 wp s st' ∧ priv_stable (st_priv st) (st_priv st') ∧
    st_subsurfaces st' = st_subsurfaces st ∧
    (st_next st ≤ st_next st')%nat ∧
    length steps = length ls ∧
    st_surfaces st' = attached_last s steps (st_surfaces st) ∧
    (∀ i l P b, ls !! i = Some l → steps !! i = Some (P, b) →
       (st_next st ≤ P < st_next st')%nat ∧ (st_next st ≤ b < st_next st')%nat ∧
       ∃ layer, layers desc !! Z.to_nat l = Some layer ∧
         st_requests st' !! P = Some (layer_request desc r layer Attached)) ∧
    (∀ Q, (Q < st_next st)%nat → st_requests st' !! Q = st_requests st !! Q) ∧
    (∀ Q, (st_next st ≤ Q)%nat → is_Some (st_requests st' !! Q) →
          ∃ i b, steps !! i = Some (Q, b)) ∧
    ∃ d, st_log st' = st_log st ++ d ∧
         List.filter visible d = flat_map (layer_trace (display wp) s) steps.
Proof.
  induction ls as [|l ls IH]; intros st Hinv Hls Hrio.
  { exists st, []. split; [done|]. do 6 (split; [done|]).
    split; [by intros i l P b Hi|]. split; [done|].
    split. { intros Q HQ [rq Hrq]. destruct Hinv as ([(_&_&H3&_) _]&_).
             specialize (H3 Q rq Hrq). cbn in H3. lia. }
    exists []. by rewrite app_nil_r. }
  apply Forall_cons in Hls as [(Hl&Hout) Hls].
  pose proof (releases_in_order_head _ _ _ _ _ _ _ Hrio) as Hrel.
  pose proof Hinv as (Hheap&Hn0&Hwp&[dm Hdm]&Hs&[ss Hss]).
  destruct (layer_ok_slots desc l Hl) as (_&layer&Hlayer&_).
  destruct (layer_step_attached img desc r env (st_next st) st l layer wp dm s ss
              Hheap (le_n _) Hwp Hdm Hs Hss Hl Hlayer Hout Hrel)
    as (st1&b&Hrun1&Hheap1&Hpriv1&Hssf1&Hb&Hsf1&Hr1&Hbb1&_&d1&Hd1&Hv1).
  assert (Hinv1 : loop_inv n0 wp s st1).
  { apply (loop_inv_step st); [done | done | done | lia |].
    rewrite Hsf1, lookup_insert_eq. eauto. }
  destruct (IH st1 Hinv1 Hls)
    as (st'&steps&Hrun&Hinv'&Hpriv'&Hssf'&Hle'&Hlen&Hsf'&Hsteps&Hreq&Hnew&d'&Hd'&Hv').
  { by apply (releases_in_order_app _ _ _ _ [l] ls st). }
  exists st', ((st_next st, b) :: steps).
  split. { intros ls2. cbn [app]. by rewrite Hrun1, Hrun. }
  split; [done|]. split; [by eapply priv_stable_trans|].
  split; [congruence|]. split; [lia|]. split; [cbn; congruence|].
  split. { rewrite Hsf', Hsf1. apply (attached_last_cons s (st_next st, b)). }
  split.
  { intros [|i] l' P b' Hi Hstep; cbn in Hi, Hstep.
    - injection Hi as <-. injection Hstep as <- <-.
      split; [lia|]. split; [lia|]. exists layer. split; [done|].
      rewrite Hreq by lia. rewrite Hr1. by rewrite lookup_insert_eq.
    - destruct (Hsteps i l' P b' Hi Hstep) as (HP&Hb'&Hrest).
      split; [lia|]. split; [lia|]. done. }
  split.
  { intros Q HQ. rewrite Hreq by lia. rewrite Hr1.
    rewrite lookup_insert_ne; [done | lia]. }
  split.
  { intros Q HQ Hsome. destruct (decide (Q < st_next st1)%nat) as [Hlt|Hge].
    - rewrite Hreq in Hsome by done. rewrite Hr1 in Hsome.
      destruct (decide (Q = st_next st)) as [->|Hne]; [by exists 0%nat, b|].
      rewrite lookup_insert_ne in Hsome by done.
      destruct Hsome as [rq Hrq]. destruct Hheap as [(_&_&H3&_) _].
      specialize (H3 Q rq Hrq). cbn in H3. lia.
    - destruct (Hnew Q) as (i&b'&Hi); [lia | done |]. by exists (S i), b'. }
  exists (d1 ++ d'). split.
  - by rewrite Hd', Hd1, <- app_assoc.
  - rewrite List.filter_app, Hv1, Hv'. reflexivity.
Qed.

(** A run of layers ends at the first layer that is not attached. *)
Lemma split_attached ls :
  Forall (fun l => outcome (env l) ≠ NoReply) ls →
  Forall (fun l => outcome (env l) = Attached) ls ∨
  ∃ pre l post, ls = pre ++ l :: post ∧
    Forall (fun l => outcome (env l) = Attached) pre ∧
    (outcome (env l) = CreateFailed ∨ outcome (env l) = OutOfMemory).
Proof.
  induction 1 as [|l ls Hl _ IH]; [by left|].
  destruct (outcome (env l)) eqn:Hout; try done.
  - destruct IH as [IH|(pre&l'&post&->&Hpre&Hl')].
    + left. by constructor.
    + right. exists (l :: pre), l', post. split; [done|]. split; [|done].
      by constructor.
  - right. exists [], l, ls. split; [done|]. split; [done|]. by left.
  - right. exists [], l, ls. split; [done|]. split; [done|]. by right.
Qed.

(** A run of attached layers from [st] that ends in [st1], as the prefix of
    a longer run. *)
Lemma layers_loop_attached_end pre st st1 :
  (∀ ls2, layers_loop img desc (Some r) 0 0 env (pre ++ ls2) st =
          layers_loop img desc (Some r) 0 0 env ls2 st1) →
  layers_loop img desc (Some r) 0 0 env pre st = Ok 0 st1.
Proof. intros Hrun. specialize (Hrun []). by rewrite app_nil_r in Hrun. Qed.

(** Every run that gets a reply wherever it waits for one returns, and
    the buffer requests it creates are those of the layers it visits. *)
Lemma layers_loop_requests ls st :
  loop_inv n0 wp s st →
  Forall (fun l => layer_ok desc l = true ∧ outcome (env l) ≠ NoReply) ls →
  releases_in_order img desc (Some r) env ls st →
  ∃ ret st',
    layers_loop img desc (Some r) 0 0 env ls st = Ok ret st' ∧
    (ret = 0 ∨ ret = -1) ∧
    loop_inv n0 wp s st' ∧
    (∀ Q, (Q < st_next st)%nat → st_requests st' !! Q = st_requests st !! Q) ∧
    (∀ Q rq, (st_next st ≤ Q)%nat → st_requests st' !! Q = Some rq →
       ∃ l layer, l ∈ ls ∧ layers desc !! Z.to_nat l = Some layer ∧
         rq = layer_request desc r layer (outcome (env l))).
Proof.
  intros Hinv Hls Hrio.
  destruct (split_attached ls) as [Hall|(pre&l&post&->&Hpre&Hl)].
  { eapply Forall_impl; [exact Hls|]. by intros l (_&?). }
  - destruct (layers_loop_attached ls st Hinv)
      as (st'&steps&Hrun&Hinv'&_&_&_&Hlen&_&Hsteps&Hreq&Hnew&_); [|done|].
    { rewrite Forall_forall in Hls, Hall. apply Forall_forall. intros l Hl.
      destruct (Hls l Hl) as (?&_). split; [done|]. by apply Hall. }
    exists 0, st'. split; [by apply layers_loop_attached_end|].
    split; [by left|]. split; [exact Hinv'|]. split; [done|].
    intros Q rq HQ Hrq. destruct (Hnew Q HQ) as (i&b&Hi); [by eauto|].
    destruct (lookup_lt_is_Some_2 ls i) as [l Hl].
    { rewrite <- Hlen. by eapply lookup_lt_Some. }
    destruct (Hsteps i l Q b Hl Hi) as (_&_&layer&Hlayer&Hrq').
    exists l, layer. split; [by eapply list_elem_of_lookup_2|]. split; [done|].
    rewrite Forall_forall in Hall. rewrite (Hall l) by (by eapply list_elem_of_lookup_2).
    congruence.
  - pose proof Hls as Hls'. apply Forall_app in Hls' as [Hls1 Hls2].
    apply Forall_cons in Hls2 as [(Hlok&_) _].
    destruct (layers_loop_attached pre st Hinv)
      as (st1&steps&Hrun&Hinv1&_&_&Hle1&Hlen&_&Hsteps&Hreq&Hnew&_).
    { rewrite Forall_forall in Hls1, Hpre. apply Forall_forall. intros l' Hl'.
      destruct (Hls1 l' Hl') as (?&_). split; [done|]. by apply Hpre. }
    { by apply (releases_in_order_prefix _ _ _ _ pre (l :: post)). }
    assert (Hrel : releases_below (st_next st1) (events (env l)) = true).
    { apply (Hrio pre l post st1 eq_refl). by apply layers_loop_attached_end. }
    pose proof Hinv1 as (Hheap1&Hn1&Hwp1&[dm Hdm1]&Hs1&[ss Hss1]).
    destruct (layer_ok_slots desc l Hlok) as (_&layer&Hlayer&_).
    assert (Hfinal : ∃ st',
      layers_loop img desc (Some r) 0 0 env (l :: post) st1 = Ok (-1) st' ∧
      loop_inv n0 wp s st' ∧
      st_requests st' =
        <[st_next st1 := layer_request desc r layer (outcome (env l))]>
          (st_requests st1)).
    { destruct Hl as [Hl|Hl].
      - destruct (layer_step_failed img desc r env (st_next st1) st1 l layer wp dm s ss
                    Hheap1 (le_n _) Hwp1 Hdm1 Hs1 Hss1 Hlok Hlayer post Hl Hrel)
          as (st'&?&?&?&_&?&Hsf'&?&_).
        exists st'. rewrite Hl. split; [done|]. split; [|done].
        apply (loop_inv_step st1); [done | done | done | lia |].
        rewrite Hsf'. eauto.
      - destruct (layer_step_oom img desc r env (st_next st1) st1 l layer wp dm s ss
                    Hheap1 (le_n _) Hwp1 Hdm1 Hs1 Hss1 Hlok Hlayer post Hl)
          as (st'&?&?&Hp'&Hsf'&_&_&?&?&_).
        exists st'. rewrite Hl. split; [done|]. split; [|done].
        apply (loop_inv_step st1); [done | done | | lia |].
        + rewrite Hp'. apply priv_stable_refl.
        + rewrite Hsf'. eauto. }
    destruct Hfinal as (st'&Hrun'&Hinv'&Hr').
    exists (-1), st'. split; [by rewrite Hrun|]. split; [by right|].
    split; [done|]. split.
    { intros Q HQ. rewrite Hr', lookup_insert_ne by lia. by apply Hreq. }
    intros Q rq HQ Hrq. rewrite Hr' in Hrq.
    apply lookup_insert_Some in Hrq as [[<- <-]|[Hne Hrq]].
    + exists l, layer. split; [|done]. apply elem_of_app. right. left.
    + destruct (Hnew Q HQ) as (i&b&Hi); [by eauto|].
      destruct (lookup_lt_is_Some_2 pre i) as [l' Hl'].
      { rewrite <- Hlen. by eapply lookup_lt_Some. }
      destruct (Hsteps i l' Q b Hl' Hi) as (_&_&layer'&Hlayer'&Hrq').
      exists l', layer'. split.
      { apply elem_of_app. left. by eapply list_elem_of_lookup_2. }
      split; [done|].
      rewrite Forall_forall in Hpre.
      rewrite (Hpre l') by (by eapply list_elem_of_lookup_2). congruence.
Qed.
End Loop.

(** ** The hand-off of a frame *)

Lemma ready_loop_inv st :
  bridge_ready st = true → heap_ok st →
  ∃ wp s, wayland_params (st_priv st) = Some wp ∧
          video_surface (st_priv st) = Some s ∧
          loop_inv (st_next st) wp s st.
Proof.
  unfold bridge_ready. intros Hready Hheap.
  apply andb_true_iff in Hready as [Hready Hs].
  apply andb_true_iff in Hready as [Hwp Hdm].
  apply bool_decide_eq_true in Hwp as [wp Hwp].
  apply bool_decide_eq_true in Hdm.
  destruct (video_surface (st_priv st)) as [s|] eqn:Hvs; [|done].
  apply bool_decide_eq_true in Hs.
  exists wp, s. split; [done|]. split; [done|].
  split; [done|]. split; [lia|]. by repeat split.
Qed.

Lemma desc_ok_layers desc :
  desc_ok desc = true →
  ∀ l, 0 ≤ l < nb_layers desc → layer_ok desc l = true.
Proof.
  unfold desc_ok. rewrite forallb_forall. intros H l Hl.
  apply H. apply list_elem_of_In. apply elem_of_seqZ. lia.
Qed.

Lemma filter_sync_visible d :
  List.filter is_sync d = List.filter is_sync (List.filter visible d).
Proof.
  induction d as [|rq d IH]; [done|]. destruct rq; cbn; by rewrite ?IH.
Qed.

Lemma filter_sync_trace dpy s steps :
  length (List.filter is_sync (flat_map (layer_trace dpy s) steps)) = length steps.
Proof. induction steps as [|step steps IH]; [done|]. cbn. by rewrite IH. Qed.

Lemma heap_ok_ready : heap_ok st_ready.
Proof. refine (bool_decide_unpack _ _). vm_compute. exact I. Qed.

Lemma heap_ok_playing : heap_ok st_playing.
Proof. refine (bool_decide_unpack _ _). vm_compute. exact I. Qed.

(** C1, refuted for a descriptor with two layers: the server creates the
    buffer of layer 0 and rejects layer 1.  The call returns -1, but the
    buffer of layer 0 has been attached and committed, so the surface is not
    in the state it had before the call. *)
Lemma overlay_frame_failure_leaves_layer_attached :
  outcome (env_second_fails 1) = CreateFailed ∧
  ∃ st',
    overlay_frame (Some {| planes_0 := Some desc_2layers |}) (Some crop_1080p)
      (Some dst_window) true env_second_fails st_ready = Ok (-1) st' ∧
    st_surfaces st_ready !! 13%nat =
      Some {| ss_pending := None; ss_current := None |} ∧
    st_surfaces st' !! 13%nat =
      Some {| ss_pending := None; ss_current := Some 17%nat |} ∧
    st_surfaces st' ≠ st_surfaces st_ready.
Proof.
  split; [reflexivity|]. eexists. split; [vm_compute; reflexivity|].
  split; [reflexivity|]. split; [reflexivity|].
  intros Heq. apply (f_equal (lookup 13%nat)) in Heq. vm_compute in Heq. discriminate.
Qed.

(** ** The buffer requests of a hand-off *)

(** Every hand-off that gets a reply wherever it waits for one returns, and
    each buffer request it creates is the request of one of the layers. *)
Lemma overlay_frame_requests (img : mp_image) (desc : AVDRMFrameDescriptor)
    (r : mp_rect) (dst : option mp_rect) (newframe : bool) (env : Z → layer_env)
    (st : state) :
  planes_0 img = Some desc →
  bridge_ready st = true → heap_ok st →
  desc_ok desc = true →
  (∀ l, 0 ≤ l < nb_layers desc →
        outcome (env l) ≠ NoReply ∧
        releases_earlier img desc (Some r) env st l = true) →
  ∃ ret st',
    overlay_frame (Some img) (Some r) dst newframe env st = Ok ret st' ∧
    ∀ Q rq, st_requests st !! Q = None → st_requests st' !! Q = Some rq →
      ∃ l layer, 0 ≤ l < nb_layers desc ∧
        layers desc !! Z.to_nat l = Some layer ∧
        layer_ok desc l = true ∧
        rq = layer_request desc r layer (outcome (env l)).
Proof.
  intros Hdesc Hready Hheap Hok Henv.
  destruct (ready_loop_inv st Hready Hheap) as (wp&s&Hwp&Hs&Hinv).
  destruct (layers_loop_requests img desc r env (st_next st) wp s
              (seqZ 0 (nb_layers desc)) st Hinv)
    as (ret&st'&Hrun&_&_&Hold&Hnew).
  { apply Forall_seqZ. intros l Hl. destruct (Henv l) as [? ?]; [lia|].
    split; [apply desc_ok_layers; [done|lia]|done]. }
  { apply releases_earlier_in_order. intros l Hl. by apply Henv. }
  exists ret, st'. split.
  { unfold overlay_frame. by rewrite Hdesc. }
  intros Q rq HQ Hrq.
  destruct (decide (Q < st_next st)%nat) as [Hlt|Hge].
  { rewrite Hold in Hrq by done. congruence. }
  destruct (Hnew Q rq) as (l&layer&Hl&Hlayer&->); [lia | done |].
  apply elem_of_seqZ in Hl. exists l, layer. split; [lia|]. split; [done|].
  split; [apply desc_ok_layers; [done|lia]|done].
Qed.

(** X13: the hypotheses of these theorems hold again when the call
    returns, with 0 or with -1: the next hand-off starts from a ready state
    with a consistent heap. *)
Lemma overlay_frame_keeps_ready (img : mp_image) (desc : AVDRMFrameDescriptor)
    (r : mp_rect) (dst : option mp_rect) (newframe : bool) (env : Z → layer_env)
    (st : state) :
  planes_0 img = Some desc →
  bridge_ready st = true → heap_ok st →
  desc_ok desc = true →
  (∀ l, 0 ≤ l < nb_layers desc →
        outcome (env l) ≠ NoReply ∧
        releases_earlier img desc (Some r) env st l = true) →
  ∃ ret st',
    overlay_frame (Some img) (Some r) dst newframe env st = Ok ret st' ∧
    (ret = 0 ∨ ret = -1) ∧
    bridge_ready st' = true ∧ heap_ok st'.
Proof.
  intros Hdesc Hready Hheap Hok Henv.
  destruct (ready_loop_inv st Hready Hheap) as (wp&s&Hwp&Hs&Hinv).
  destruct (layers_loop_requests img desc r env (st_next st) wp s
              (seqZ 0 (nb_layers desc)) st Hinv)
    as (ret&st'&Hrun&Hret&Hinv'&_).
  { apply Forall_seqZ. intros l Hl. destruct (Henv l) as [? ?]; [lia|].
    split; [apply desc_ok_layers; [done|lia]|done]. }
  { apply releases_earlier_in_order. intros l Hl. by apply Henv. }
  exists ret, st'. split; [unfold overlay_frame; by rewrite Hdesc|].
  split; [exact Hret|].
  destruct Hinv' as (Hheap'&_&Hwp'&Hdm'&Hs'&Hss'). split; [|done].
  unfold bridge_ready. rewrite Hwp', Hs'.
  by rewrite !bool_decide_eq_true_2 by eauto.
Qed.

Lemma layer_entries_elem desc layer e :
  e ∈ layer_entries desc layer ↔
  ∃ plane, 0 ≤ plane < AV_DRM_MAX_PLANES ∧ selected_plane desc layer plane = Some e.
Proof.
  unfold layer_entries. rewrite list_elem_of_omap. split.
  - intros (plane&Hin&Hsel). apply elem_of_seqZ in Hin. exists plane. split; [lia|done].
  - intros (plane&Hin&Hsel). exists plane. split; [|done]. apply elem_of_seqZ. lia.
Qed.

Lemma selected_plane_idx desc layer plane e :
  selected_plane desc layer plane = Some e →
  pe_plane_idx e = plane ∧ pe_modifier_hi e = 0 ∧ pe_modifier_lo e = 0.
Proof.
  unfold selected_plane. intros H.
  destruct (planes layer !! Z.to_nat plane) as [pl|]; [|done].
  destruct (objects desc !! Z.to_nat (object_index pl)) as [obj|]; [|done].
  destruct (bool_decide _); [|done]. by injection H as <-.
Qed.

(** Every layer the hand-off visits gets its buffer request. *)
Lemma overlay_frame_visits (img : mp_image) (desc : AVDRMFrameDescriptor)
    (r : mp_rect) (dst : option mp_rect) (newframe : bool) (env : Z → layer_env)
    (st : state) (l : Z) :
  planes_0 img = Some desc →
  bridge_ready st = true → heap_ok st →
  desc_ok desc = true →
  (∀ l, 0 ≤ l < nb_layers desc →
        outcome (env l) ≠ NoReply ∧
        releases_earlier img desc (Some r) env st l = true) →
  visited desc env l →
  ∃ ret st' Q layer,
    overlay_frame (Some img) (Some r) dst newframe env st = Ok ret st' ∧
    layers desc !! Z.to_nat l = Some layer ∧
    created_by st st' Q (layer_request desc r layer (outcome (env l))).
Proof.
  intros Hdesc Hready Hheap Hok Henv [Hl Hbefore].
  destruct (ready_loop_inv st Hready Hheap) as (wp&s&Hwp&Hs&Hinv).
  assert (Hsplit : seqZ 0 (nb_layers desc) =
                   (seqZ 0 l ++ [l]) ++ seqZ (l + 1) (nb_layers desc - l - 1)).
  { replace (nb_layers desc) with (l + (1 + (nb_layers desc - l - 1))) at 1 by lia.
    rewrite seqZ_app by lia. rewrite (seqZ_cons (0 + l)) by lia.
    rewrite <- app_assoc. cbn [app]. do 2 f_equal. f_equal; lia. }
  assert (Hrio : releases_in_order img desc (Some r) env (seqZ 0 (nb_layers desc)) st).
  { apply releases_earlier_in_order. intros l' Hl'. by apply Henv. }
  rewrite Hsplit in Hrio.
  destruct (layers_loop_attached img desc r env (st_next st) wp s (seqZ 0 l) st Hinv)
    as (st1&steps&Hrun&Hinv1&_&_&Hle&_).
  { apply Forall_seqZ. intros l' Hl'.
    split; [apply desc_ok_layers; [done|lia]|]. apply Hbefore; lia. }
  { apply (releases_in_order_prefix _ _ _ _ _ [l]).
    by apply (releases_in_order_prefix _ _ _ _ _ (seqZ (l + 1) (nb_layers desc - l - 1))). }
  pose proof Hinv1 as (Hheap1&Hn1&Hwp1&[dm Hdm1]&Hs1&[ss Hss1]).
  assert (Hlk : layer_ok desc l = true) by (by apply desc_ok_layers).
  destruct (layer_ok_slots desc l Hlk) as (_&layer&Hlayer&_).
  destruct (Henv l Hl) as [Hno _].
  assert (Hrel : releases_below (st_next st1) (events (env l)) = true).
  { apply (Hrio (seqZ 0 l) l (seqZ (l + 1) (nb_layers desc - l - 1)) st1).
    - by rewrite <- app_assoc.
    - by apply (layers_loop_attached_end img desc r env). }
  assert (Hfresh : st_requests st !! st_next st1 = None).
  { destruct Hheap as [(_&_&H3&_) _]. by apply (keys_below_fresh _ _ _ H3). }
  unfold overlay_frame. rewrite Hdesc, Hsplit, <- app_assoc. cbn [app].
  destruct (outcome (env l)) eqn:Hout; [| | |done].
  - destruct (layer_step_attached img desc r env (st_next st1) st1 l layer wp dm s ss
                Hheap1 (le_n _) Hwp1 Hdm1 Hs1 Hss1 Hlk Hlayer Hout Hrel)
      as (st2&b&Hrun2&Hheap2&Hpriv2&_&Hb&Hsf2&Hr2&_).
    assert (Hinv2 : loop_inv (st_next st) wp s st2).
    { apply (loop_inv_step _ _ _ st1); [done | done | done | lia |].
      rewrite Hsf2, lookup_insert_eq. eauto. }
    destruct (layers_loop_requests img desc r env (st_next st) wp s
                (seqZ (l + 1) (nb_layers desc - l - 1)) st2 Hinv2)
      as (ret&st'&Hrun'&_&_&Hold&_).
    { apply Forall_seqZ. intros l' Hl'. destruct (Henv l') as [? ?]; [lia|].
      split; [apply desc_ok_layers; [done|lia]|done]. }
    { apply (releases_in_order_app _ _ _ _ (seqZ 0 l ++ [l]) _ st); [done|].
      intros ls. rewrite <- app_assoc. cbn [app]. by rewrite Hrun, Hrun2. }
    exists ret, st', (st_next st1), layer. split; [by rewrite Hrun, Hrun2|].
    split; [done|]. split; [done|].
    rewrite Hold by lia. rewrite Hr2. by rewrite lookup_insert_eq.
  - destruct (layer_step_failed img desc r env (st_next st1) st1 l layer wp dm s ss
                Hheap1 (le_n _) Hwp1 Hdm1 Hs1 Hss1 Hlk Hlayer
                (seqZ (l + 1) (nb_layers desc - l - 1)) Hout Hrel)
      as (st'&Hrun'&_&_&_&_&_&Hr'&_).
    exists (-1), st', (st_next st1), layer. split; [by rewrite Hrun|].
    split; [done|]. split; [done|]. rewrite Hr'. by rewrite lookup_insert_eq.
  - destruct (layer_step_oom img desc r env (st_next st1) st1 l layer wp dm s ss
                Hheap1 (le_n _) Hwp1 Hdm1 Hs1 Hss1 Hlk Hlayer
                (seqZ (l + 1) (nb_layers desc - l - 1)) Hout)
      as (st'&Hrun'&_&_&_&_&_&_&Hr'&_).
    exists (-1), st', (st_next st1), layer. split; [by rewrite Hrun|].
    split; [done|]. split; [done|]. rewrite Hr'. by rewrite lookup_insert_eq.
Qed.

Lemma layer_request_skip_rule desc r layer o :
  skip_rule desc layer (layer_request desc r layer o).
Proof.
  intros plane pl obj Hplane Hpl Hobj. cbn [br_planes layer_request]. split.
  - intros Hzero e He Hidx. apply layer_entries_elem in He as (plane'&_&Hsel).
    destruct (selected_plane_idx _ _ _ _ Hsel) as (Hidx'&_).
    assert (plane' = plane) as -> by congruence.
    unfold selected_plane in Hsel. rewrite Hpl, Hobj in Hsel.
    rewrite bool_decide_eq_false_2 in Hsel; [done|]. intros [? ?]. by destruct Hzero.
  - intros Hfd Hpitch. apply layer_entries_elem. exists plane. split; [done|].
    unfold selected_plane. rewrite Hpl, Hobj. by rewrite bool_decide_eq_true_2.
Qed.

(** C4: the buffer requests a hand-off builds obey the skip rule.  Every
    request the call creates belongs to a layer and holds exactly that
    layer's plane slots whose fd and pitch are both non-zero: no entry for
    a slot with fd 0 or pitch 0, the entry of every other slot.  Every layer
    the call visits gets such a request. *)
Theorem overlay_frame_skip_rule (img : mp_image) (desc : AVDRMFrameDescriptor)
    (r : mp_rect) (dst : option mp_rect) (newframe : bool) (env : Z → layer_env)
    (st : state) :
  planes_0 img = Some desc →
  bridge_ready st = true → heap_ok st →
  desc_ok desc = true →
  (∀ l, 0 ≤ l < nb_layers desc →
        outcome (env l) ≠ NoReply ∧
        releases_earlier img desc (Some r) env st l = true) →
  ∃ ret st',
    overlay_frame (Some img) (Some r) dst newframe env st = Ok ret st' ∧
    (∀ Q rq, created_by st st' Q rq →
       ∃ l layer, 0 ≤ l < nb_layers desc ∧
         layers desc !! Z.to_nat l = Some layer ∧ skip_rule desc layer rq) ∧
    (∀ l, visited desc env l →
       ∃ Q rq layer, created_by st st' Q rq ∧
         layers desc !! Z.to_nat l = Some layer ∧ skip_rule desc layer rq).
Proof.
  intros Hdesc Hready Hheap Hok Henv.
  destruct (overlay_frame_requests img desc r dst newframe env st
              Hdesc Hready Hheap Hok Henv) as (ret&st'&Hrun&Hnew).
  exists ret, st'. split; [done|]. split.
  - intros Q rq [HQ Hrq].
    destruct (Hnew Q rq HQ Hrq) as (l&layer&Hl&Hlayer&_&->).
    exists l, layer. split; [done|]. split; [done|]. apply layer_request_skip_rule.
  - intros l Hvis.
    destruct (overlay_frame_visits img desc r dst newframe env st l
                Hdesc Hready Hheap Hok Henv Hvis) as (ret2&st2&Q&layer&Hrun2&Hlayer&Hcr).
    rewrite Hrun in Hrun2. injection Hrun2 as <- <-.
    eexists Q, _, layer. split; [exact Hcr|]. split; [done|]. apply layer_request_skip_rule.
Qed.

Lemma overlay_frame_skip_rule_witness :
  ∃ ret st',
    overlay_frame (Some {| planes_0 := Some desc_mixed |}) (Some crop_1080p)
      (Some dst_window) true (fun _ => reply_created) st_ready = Ok ret st' ∧
    (∀ Q rq, created_by st_ready st' Q rq →
       ∃ l layer, 0 ≤ l < nb_layers desc_mixed ∧
         layers desc_mixed !! Z.to_nat l = Some layer ∧
         skip_rule desc_mixed layer rq) ∧
    (∀ l, visited desc_mixed (fun _ => reply_created) l →
       ∃ Q rq layer, created_by st_ready st' Q rq ∧
         layers desc_mixed !! Z.to_nat l = Some layer ∧
         skip_rule desc_mixed layer rq).
Proof.
  apply (overlay_frame_skip_rule {| planes_0 := Some desc_mixed |} desc_mixed
           crop_1080p (Some dst_window) true (fun _ => reply_created) st_ready);
    try reflexivity.
  - exact heap_ok_ready.
  - intros l Hl. assert (l = 0) as -> by (cbn in Hl; lia).
    split; [discriminate | reflexivity].
Defined.

(** C5: every create request a hand-off submits carries the width and
    height of the source rectangle ([x1 - x0], [y1 - y0]), the format of its
    layer and no flags, and every plane entry of a request has both modifier
    halves 0.  The create request is submitted for every layer the call
    visits, unless [malloc] fails there. *)
Theorem overlay_frame_create_args (img : mp_image) (desc : AVDRMFrameDescriptor)
    (r : mp_rect) (dst : option mp_rect) (newframe : bool) (env : Z → layer_env)
    (st : state) :
  planes_0 img = Some desc →
  bridge_ready st = true → heap_ok st →
  desc_ok desc = true →
  (∀ l, 0 ≤ l < nb_layers desc →
        outcome (env l) ≠ NoReply ∧
        releases_earlier img desc (Some r) env st l = true) →
  ∃ ret st',
    overlay_frame (Some img) (Some r) dst newframe env st = Ok ret st' ∧
    (∀ Q rq, created_by st st' Q rq →
       (∀ e, e ∈ br_planes rq → pe_modifier_hi e = 0 ∧ pe_modifier_lo e = 0) ∧
       ∀ a, br_created rq = Some a →
         ∃ l layer, 0 ≤ l < nb_layers desc ∧
           layers desc !! Z.to_nat l = Some layer ∧
           a = {| ca_width := int_sub (x1 r) (x0 r);
                  ca_height := int_sub (y1 r) (y0 r);
                  ca_format := format layer;
                  ca_flags := 0 |}) ∧
    (∀ l, visited desc env l → malloc_ok (env l) = true →
       ∃ Q rq layer, created_by st st' Q rq ∧
         layers desc !! Z.to_nat l = Some layer ∧
         br_created rq = Some {| ca_width := int_sub (x1 r) (x0 r);
                                 ca_height := int_sub (y1 r) (y0 r);
                                 ca_format := format layer;
                                 ca_flags := 0 |}).
Proof.
  intros Hdesc Hready Hheap Hok Henv.
  destruct (overlay_frame_requests img desc r dst newframe env st
              Hdesc Hready Hheap Hok Henv) as (ret&st'&Hrun&Hnew).
  exists ret, st'. split; [done|]. split.
  - intros Q rq [HQ Hrq].
    destruct (Hnew Q rq HQ Hrq) as (l&layer&Hl&Hlayer&_&->). split.
    + intros e He. cbn in He. apply layer_entries_elem in He as (plane&_&Hsel).
      by destruct (selected_plane_idx _ _ _ _ Hsel) as (_&?&?).
    + intros a Ha. exists l, layer. split; [done|]. split; [done|].
      cbn in Ha. unfold create_args_of in Ha. destruct (outcome (env l)); congruence.
  - intros l Hvis Hmalloc.
    destruct (overlay_frame_visits img desc r dst newframe env st l
                Hdesc Hready Hheap Hok Henv Hvis) as (ret2&st2&Q&layer&Hrun2&Hlayer&Hcr).
    rewrite Hrun in Hrun2. injection Hrun2 as <- <-.
    eexists Q, _, layer. split; [exact Hcr|]. split; [done|]. cbn.
    destruct Hvis as [Hl _]. destruct (Henv l Hl) as [Hno _].
    unfold outcome in *. rewrite Hmalloc in *.
    by destruct (first_reply (events (env l))) as [[]|].
Qed.

Lemma overlay_frame_create_args_witness :
  ∃ ret st',
    overlay_frame (Some {| planes_0 := Some desc_1layer |}) (Some crop_1080p)
      (Some dst_window) true (fun _ => reply_created) st_ready = Ok ret st' ∧
    (∀ Q rq, created_by st_ready st' Q rq →
       (∀ e, e ∈ br_planes rq → pe_modifier_hi e = 0 ∧ pe_modifier_lo e = 0) ∧
       ∀ a, br_created rq = Some a →
         ∃ l layer, 0 ≤ l < nb_layers desc_1layer ∧
           layers desc_1layer !! Z.to_nat l = Some layer ∧
           a = {| ca_width := int_sub (x1 crop_1080p) (x0 crop_1080p);
                  ca_height := int_sub (y1 crop_1080p) (y0 crop_1080p);
                  ca_format := format layer;
                  ca_flags := 0 |}) ∧
    (∀ l, visited desc_1layer (fun _ => reply_created) l →
       malloc_ok ((fun _ => reply_created) l) = true →
       ∃ Q rq layer, created_by st_ready st' Q rq ∧
         layers desc_1layer !! Z.to_nat l = Some layer ∧
         br_created rq = Some {| ca_width := int_sub (x1 crop_1080p) (x0 crop_1080p);
                                 ca_height := int_sub (y1 crop_1080p) (y0 crop_1080p);
                                 ca_format := format layer;
                                 ca_flags := 0 |}).
Proof.
  apply (overlay_frame_create_args {| planes_0 := Some desc_1layer |} desc_1layer
           crop_1080p (Some dst_window) true (fun _ => reply_created) st_ready);
    try reflexivity.
  - exact heap_ok_ready.
  - intros l Hl. assert (l = 0) as -> by (cbn in Hl; lia).
    split; [discriminate | reflexivity].
Defined.

(** The scenario of the specification: one layer, two valid planes, crop
    1920x1080.  One request with exactly two plane entries is created. *)
Example overlay_frame_scenario :
  ∃ st',
    overlay_frame (Some {| planes_0 := Some desc_1layer |}) (Some crop_1080p)
      (Some dst_window) true (fun _ => reply_created) st_ready = Ok 0 st' ∧
    st_requests st' =
      {[ 15%nat :=
           {| br_planes :=
                [ {| pe_fd := 5; pe_plane_idx := 0; pe_offset := 0; pe_stride := 1920;
                     pe_modifier_hi := 0; pe_modifier_lo := 0 |};
                  {| pe_fd := 5; pe_plane_idx := 1; pe_offset := 3072000;
                     pe_stride := 960; pe_modifier_hi := 0; pe_modifier_lo := 0 |} ];
              br_created := Some {| ca_width := 1920; ca_height := 1080;
                                    ca_format := 842094158; ca_flags := 0 |};
              br_alive := false |} ]} ∧
    st_surfaces st' !! 13%nat = Some {| ss_pending := None; ss_current := Some 17%nat |}.
Proof. eexists. split; [vm_compute; reflexivity|]. split; reflexivity. Qed.

(** A layer with a slot whose object has fd 0 and a slot whose pitch is 0:
    the request holds the entry of the one valid slot only. *)
Example overlay_frame_skipped_slots :
  ∃ st',
    overlay_frame (Some {| planes_0 := Some desc_mixed |}) (Some crop_1080p)
      (Some dst_window) true (fun _ => reply_created) st_ready = Ok 0 st' ∧
    (br_planes <$> st_requests st' !! 15%nat) =
      Some [ {| pe_fd := 5; pe_plane_idx := 0; pe_offset := 0; pe_stride := 1920;
                pe_modifier_hi := 0; pe_modifier_lo := 0 |} ].
Proof. eexists. split; [vm_compute; reflexivity|]. reflexivity. Qed.

(** Two hand-offs in a row; during the round-trip of the second the
    compositor releases the buffer of the first.  The release listener
    destroys buffer 17 and frees its frame, the new buffer 20 ends up
    current. *)
Example overlay_frame_next_frame :
  ∃ st',
    (overlay_frame (Some {| planes_0 := Some desc_1layer |}) (Some crop_1080p)
       None true (fun _ => reply_created) ;;;
     overlay_frame (Some {| planes_0 := Some desc_1layer |}) (Some crop_1080p)
       None true
       (fun _ => {| malloc_ok := true;
                    events := [Ev_buffer_release 17; Ev_params_created] |}))
      st_ready = Ok 0 st' ∧
    st_surfaces st' !! 13%nat = Some {| ss_pending := None; ss_current := Some 20%nat |} ∧
    st_buffers st' !! 17%nat = None ∧
    st_frames st' !! 16%nat = None ∧
    (bs_listener <$> st_buffers st' !! 20%nat) = Some (Some 19%nat) ∧
    Rq_buffer_destroy 17 ∈ st_log st'.
Proof.
  eexists. split; [vm_compute; reflexivity|].
  repeat (split; [reflexivity|]). vm_compute. set_solver.
Qed.

(** When the round-trip brings neither reply, [frame->buffer] is read as
    [malloc] left it. *)
Example overlay_frame_without_reply :
  overlay_frame (Some {| planes_0 := Some desc_1layer |}) (Some crop_1080p)
    None true (fun _ => {| malloc_ok := true; events := [] |}) st_ready =
  Fault Uninitialised.
Proof. reflexivity. Qed.

(** ** The declared plane count is not consulted *)

Lemma planes_loop_agree desc desc' layer layer' params modifier slots st :
  objects desc = objects desc' → planes layer = planes layer' →
  planes_loop desc layer params modifier slots st =
  planes_loop desc' layer' params modifier slots st.
Proof.
  intros Hobj Hpl. revert st. induction slots as [|plane slots IH]; intros st; [done|].
  cbn [planes_loop]. unfold bind, plane_body. rewrite Hobj, Hpl.
  match goal with |- match ?m with _ => _ end = _ => destruct m as [[] st1|]; [|done] end.
  apply IH.
Qed.

Lemma layers_loop_nb_planes img desc desc' src modifier flags env ls st :
  agree_up_to_nb_planes desc desc' →
  layers_loop img desc src modifier flags env ls st =
  layers_loop img desc' src modifier flags env ls st.
Proof.
  intros (Hobj&Hn&Hlayers). revert st. induction ls as [|l ls IH]; intros st; [done|].
  cbn [layers_loop]. unfold bind.
  assert (Harr : (∃ layer layer', array_at (layers desc) l st = Ok layer st ∧
                    array_at (layers desc') l st = Ok layer' st ∧
                    format layer = format layer' ∧ planes layer = planes layer') ∨
                 (∃ f, array_at (layers desc) l st = Fault f ∧
                       array_at (layers desc') l st = Fault f)).
  { unfold array_at. destruct (bool_decide (0 ≤ l < AV_DRM_MAX_PLANES)); [|right; by eexists].
    destruct (layers desc !! Z.to_nat l) as [layer|] eqn:Hl.
    - destruct (Forall2_lookup_l _ _ _ _ _ Hlayers Hl) as (layer'&Hl'&Hf&Hp).
      rewrite Hl'. left. by exists layer, layer'.
    - apply lookup_ge_None in Hl. rewrite (Forall2_length _ _ _ Hlayers) in Hl.
      apply lookup_ge_None in Hl. rewrite Hl. right. by eexists. }
  destruct Harr as [(layer&layer'&->&->&Hf&Hp)|(f&->&->)]; [|done].
  destruct (get_priv st) as [p st2|]; [|done].
  destruct (zwp_linux_dmabuf_v1_create_params (dmabuf p) st2) as [params st3|]; [|done].
  rewrite (planes_loop_agree desc desc' layer layer') by done.
  destruct (planes_loop _ _ _ _ _ st3) as [[] st4|]; [|done].
  destruct (malloc _ st4) as [[fr|] st5|]; [|done|done].
  destruct (zwp_linux_buffer_params_v1_add_listener params fr st5) as [[] st6|]; [|done].
  destruct (deref src st6) as [r st6'|]; [|done]. rewrite Hf.
  destruct (zwp_linux_buffer_params_v1_create _ _ _ _ _ st6') as [[] st7|]; [|done].
  destruct (get_priv st7) as [p7 st8|]; [|done].
  destruct (deref (wayland_params p7) st8) as [wp st9|]; [|done].
  destruct (wl_display_roundtrip _ _ st9) as [[] st10|]; [|done].
  destruct (load_frame fr st10) as [f st11|]; [|done].
  destruct (read_cell (buffer f) st11) as [[b|] st12|]; [|done|done].
  destruct (load_frame fr st12) as [f' st13|]; [|done].
  destruct (store_frame fr _ st13) as [[] st14|]; [|done].
  destruct (get_priv st14) as [p14 st15|]; [|done].
  destruct (wl_surface_attach _ _ _ _ st15) as [[] st16|]; [|done].
  destruct (wl_surface_commit _ st16) as [[] st17|]; [|done].
  apply IH.
Qed.

(** C10: the layer loop of [overlay_frame] never reads [nb_planes]: run on
    two descriptors that differ only in the declared plane counts it does
    the same.  Every layer the call visits gets a buffer request, and a
    request the call creates holds a slot of its layer exactly when the
    slot's fd and pitch are non-zero, over all AV_DRM_MAX_PLANES slots: the
    slots at or beyond the layer's declared plane count are included when
    their fields are non-zero. *)
Theorem overlay_frame_ignores_nb_planes (img : mp_image)
    (desc : AVDRMFrameDescriptor) (r : mp_rect) (dst : option mp_rect)
    (newframe : bool) (env : Z → layer_env) (st : state) :
  planes_0 img = Some desc →
  bridge_ready st = true → heap_ok st →
  desc_ok desc = true →
  (∀ l, 0 ≤ l < nb_layers desc →
        outcome (env l) ≠ NoReply ∧
        releases_earlier img desc (Some r) env st l = true) →
  (∀ desc' src ls st0,
     agree_up_to_nb_planes desc desc' →
     layers_loop img desc src 0 0 env ls st0 =
     layers_loop img desc' src 0 0 env ls st0) ∧
  ∃ ret st',
    overlay_frame (Some img) (Some r) dst newframe env st = Ok ret st' ∧
    (∀ Q rq, created_by st st' Q rq →
      ∃ l layer, 0 ≤ l < nb_layers desc ∧
        layers desc !! Z.to_nat l = Some layer ∧
        skip_rule desc layer rq ∧
        ∀ plane pl obj,
          nb_planes layer ≤ plane →
          0 ≤ plane < AV_DRM_MAX_PLANES →
          planes layer !! Z.to_nat plane = Some pl →
          objects desc !! Z.to_nat (object_index pl) = Some obj →
          fd obj ≠ 0 → pitch pl ≠ 0 →
          {| pe_fd := fd obj; pe_plane_idx := plane;
             pe_offset := uint32 (offset pl); pe_stride := uint32 (pitch pl);
             pe_modifier_hi := 0; pe_modifier_lo := 0 |} ∈ br_planes rq) ∧
    (∀ l, visited desc env l →
      ∃ Q rq layer, created_by st st' Q rq ∧
        layers desc !! Z.to_nat l = Some layer ∧
        skip_rule desc layer rq ∧
        ∀ plane pl obj,
          nb_planes layer ≤ plane →
          0 ≤ plane < AV_DRM_MAX_PLANES →
          planes layer !! Z.to_nat plane = Some pl →
          objects desc !! Z.to_nat (object_index pl) = Some obj →
          fd obj ≠ 0 → pitch pl ≠ 0 →
          {| pe_fd := fd obj; pe_plane_idx := plane;
             pe_offset := uint32 (offset pl); pe_stride := uint32 (pitch pl);
             pe_modifier_hi := 0; pe_modifier_lo := 0 |} ∈ br_planes rq).
Proof.
  intros Hdesc Hready Hheap Hok Henv. split.
  { intros desc' src ls st0 Hagree. by apply layers_loop_nb_planes. }
  destruct (overlay_frame_requests img desc r dst newframe env st
              Hdesc Hready Hheap Hok Henv) as (ret&st'&Hrun&Hnew).
  exists ret, st'. split; [done|]. split.
  - intros Q rq [HQ Hrq].
    destruct (Hnew Q rq HQ Hrq) as (l&layer&Hl&Hlayer&_&->).
    exists l, layer. split; [done|]. split; [done|].
    split; [apply layer_request_skip_rule|].
    intros plane pl obj _ Hplane Hpl Hobj Hfd Hpitch.
    by apply (layer_request_skip_rule desc r layer (outcome (env l)) plane pl obj).
  - intros l Hvis.
    destruct (overlay_frame_visits img desc r dst newframe env st l
                Hdesc Hready Hheap Hok Henv Hvis) as (ret2&st2&Q&layer&Hrun2&Hlayer&Hcr).
    rewrite Hrun in Hrun2. injection Hrun2 as <- <-.
    eexists Q, _, layer. split; [exact Hcr|]. split; [done|].
    split; [apply layer_request_skip_rule|].
    intros plane pl obj _ Hplane Hpl Hobj Hfd Hpitch.
    by apply (layer_request_skip_rule desc r layer (outcome (env l)) plane pl obj).
Qed.

Lemma overlay_frame_ignores_nb_planes_witness :
  (∀ desc' src ls st0,
     agree_up_to_nb_planes desc_short desc' →
     layers_loop {| planes_0 := Some desc_short |} desc_short src 0 0
       (fun _ => reply_created) ls st0 =
     layers_loop {| planes_0 := Some desc_short |} desc' src 0 0
       (fun _ => reply_created) ls st0) ∧
  ∃ ret st',
    overlay_frame (Some {| planes_0 := Some desc_short |}) (Some crop_1080p)
      None true (fun _ => reply_created) st_ready = Ok ret st' ∧
    (∀ Q rq, created_by st_ready st' Q rq →
      ∃ l layer, 0 ≤ l < nb_layers desc_short ∧
        layers desc_short !! Z.to_nat l = Some layer ∧
        skip_rule desc_short layer rq ∧
        ∀ plane pl obj,
          nb_planes layer ≤ plane →
          0 ≤ plane < AV_DRM_MAX_PLANES →
          planes layer !! Z.to_nat plane = Some pl →
          objects desc_short !! Z.to_nat (object_index pl) = Some obj →
          fd obj ≠ 0 → pitch pl ≠ 0 →
          {| pe_fd := fd obj; pe_plane_idx := plane;
             pe_offset := uint32 (offset pl); pe_stride := uint32 (pitch pl);
             pe_modifier_hi := 0; pe_modifier_lo := 0 |} ∈ br_planes rq) ∧
    (∀ l, visited desc_short (fun _ => reply_created) l →
      ∃ Q rq layer, created_by st_ready st' Q rq ∧
        layers desc_short !! Z.to_nat l = Some layer ∧
        skip_rule desc_short layer rq ∧
        ∀ plane pl obj,
          nb_planes layer ≤ plane →
          0 ≤ plane < AV_DRM_MAX_PLANES →
          planes layer !! Z.to_nat plane = Some pl →
          objects desc_short !! Z.to_nat (object_index pl) = Some obj →
          fd obj ≠ 0 → pitch pl ≠ 0 →
          {| pe_fd := fd obj; pe_plane_idx := plane;
             pe_offset := uint32 (offset pl); pe_stride := uint32 (pitch pl);
             pe_modifier_hi := 0; pe_modifier_lo := 0 |} ∈ br_planes rq).
Proof.
  apply (overlay_frame_ignores_nb_planes {| planes_0 := Some desc_short |} desc_short
           crop_1080p None true (fun _ => reply_created) st_ready);
    try reflexivity.
  - exact heap_ok_ready.
  - intros l Hl. assert (l = 0) as -> by (cbn in Hl; lia).
    split; [discriminate | reflexivity].
Defined.

(** The slot beyond the declared plane count of [layer_short] is in the
    request. *)
Example overlay_frame_undeclared_slot :
  ∃ st',
    overlay_frame (Some {| planes_0 := Some desc_short |}) (Some crop_1080p)
      None true (fun _ => reply_created) st_ready = Ok 0 st' ∧
    nb_planes layer_short = 1 ∧
    (br_planes <$> st_requests st' !! 15%nat) =
      Some [ {| pe_fd := 5; pe_plane_idx := 0; pe_offset := 0; pe_stride := 1920;
                pe_modifier_hi := 0; pe_modifier_lo := 0 |};
             {| pe_fd := 5; pe_plane_idx := 1; pe_offset := 3072000;
                pe_stride := 960; pe_modifier_hi := 0; pe_modifier_lo := 0 |} ].
Proof. eexists. split; [vm_compute; reflexivity|]. split; reflexivity. Qed.

(** ** Teardown and initialisation *)

(** A round-trip between two hand-offs. *)
Lemma roundtrip_idle dpy evs st :
  heap_ok st →
  ∃ st', wl_display_roundtrip dpy evs st = Ok tt st' ∧
    heap_ok st' ∧ priv_stable (st_priv st) (st_priv st') ∧
    st_surfaces st' = st_surfaces st ∧
    st_subsurfaces st' = st_subsurfaces st ∧
    (st_next st ≤ st_next st')%nat ∧
    ∃ d, st_log st' = st_log st ++ Rq_display_sync dpy :: d ∧
         List.filter visible d = [].
Proof.
  intros [Hinv Hq].
  set (st0 := set_log (st_log st ++ [Rq_display_sync dpy]) st).
  destruct (dispatch_all_idle None 0%nat evs st0)
    as (st'&Hrun&Hinv'&_&(Hpriv&Hsf&Hssf&Hn&d&Hd&Hvis)&Hr&Hp&_);
    [by apply (heap_inv_ext _ st) | by intros ? [=] | by left | by left |].
  exists st'. split; [done|]. split.
  { split; [done|]. unfold quiescent in *. by rewrite Hr, Hp. }
  do 4 (split; [done|]). exists d. split; [|done].
  rewrite Hd. unfold st0. cbn. by rewrite <- app_assoc.
Qed.

(** C2, amended: when the surface and the subsurface were never created and
    the interop parameters are set, two calls of [uninit] in a row destroy
    nothing and do not fault; all they show on the connection is one
    round-trip each. *)
Theorem uninit_twice_never_created (evs1 evs2 : list wl_event) (st : state)
    (wp : mpv_opengl_cb_wayland_params) :
  wayland_params (st_priv st) = Some wp →
  video_surface (st_priv st) = None →
  video_subsurface (st_priv st) = None →
  heap_ok st →
  ∃ st1 st2 d,
    uninit evs1 st = Ok tt st1 ∧
    uninit evs2 st1 = Ok tt st2 ∧
    st_surfaces st2 = st_surfaces st ∧
    st_subsurfaces st2 = st_subsurfaces st ∧
    st_log st2 = st_log st ++ d ∧
    List.filter visible d = [Rq_display_sync (display wp); Rq_display_sync (display wp)].
Proof.
  intros Hwp Hs Hss Hheap.
  destruct (roundtrip_idle (display wp) evs1 st Hheap)
    as (st1&Hrun1&Hheap1&(Hp1&_&Hp3&Hp4&_)&Hsf1&Hssf1&_&d1&Hd1&Hv1).
  destruct (roundtrip_idle (display wp) evs2 st1 Hheap1)
    as (st2&Hrun2&_&_&Hsf2&Hssf2&_&d2&Hd2&Hv2).
  exists st1, st2, (Rq_display_sync (display wp) :: d1 ++ Rq_display_sync (display wp) :: d2).
  split. { unfold uninit, bind, get_priv. rewrite Hs, Hss, Hwp. exact Hrun1. }
  split. { unfold uninit, bind, get_priv. rewrite Hp3, Hp4, Hp1, Hs, Hss, Hwp. exact Hrun2. }
  split; [congruence|]. split; [congruence|]. split.
  - rewrite Hd2, Hd1. rewrite <- app_assoc. reflexivity.
  - cbn. rewrite List.filter_app, Hv1. cbn. by rewrite Hv2.
Qed.

Lemma uninit_twice_never_created_witness :
  ∃ st1 st2 d,
    uninit [] {| st_priv := {| wayland_params := Some host_params; registry := None;
                               dmabuf := None; subcompositor := None;
                               video_surface := None; video_subsurface := None |};
                 st_log := []; st_surfaces := ∅; st_subsurfaces := ∅;
                 st_requests := ∅; st_pending := None; st_buffers := ∅;
                 st_frames := ∅; st_next := 10%nat |} = Ok tt st1 ∧
    uninit [Ev_dmabuf_format 0] st1 = Ok tt st2 ∧
    st_surfaces st2 = ∅ ∧
    st_subsurfaces st2 = ∅ ∧
    st_log st2 = [] ++ d ∧
    List.filter visible d =
      [Rq_display_sync (display host_params); Rq_display_sync (display host_params)].
Proof.
  apply (uninit_twice_never_created [] [Ev_dmabuf_format 0]
           {| st_priv := {| wayland_params := Some host_params; registry := None;
                            dmabuf := None; subcompositor := None;
                            video_surface := None; video_subsurface := None |};
              st_log := []; st_surfaces := ∅; st_subsurfaces := ∅;
              st_requests := ∅; st_pending := None; st_buffers := ∅;
              st_frames := ∅; st_next := 10%nat |} host_params);
    try reflexivity.
  refine (bool_decide_unpack _ _). vm_compute. exact I.
Defined.

(** X8: a single [uninit] on live objects destroys each of them once, the
    surface before the subsurface, and then waits for one round-trip; it
    sends no other [visible] request (the listeners the round-trip runs may
    bind a global or destroy a released buffer). *)
Lemma uninit_destroys_once evs st wp s ss :
  wayland_params (st_priv st) = Some wp →
  video_surface (st_priv st) = Some s → is_Some (st_surfaces st !! s) →
  video_subsurface (st_priv st) = Some ss → ss ∈ st_subsurfaces st →
  heap_ok st →
  ∃ st' d,
    uninit evs st = Ok tt st' ∧
    st_surfaces st' = delete s (st_surfaces st) ∧
    st_subsurfaces st' = st_subsurfaces st ∖ {[ss]} ∧
    st_log st' = st_log st ++ d ∧
    List.filter visible d =
      [Rq_surface_destroy s; Rq_subsurface_destroy ss; Rq_display_sync (display wp)].
Proof.
  intros Hwp Hs [sst Hsst] Hss Hin Hheap.
  set (st2 := set_log (st_log st ++ [Rq_surface_destroy s; Rq_subsurface_destroy ss])
                (set_subsurfaces (st_subsurfaces st ∖ {[ss]})
                   (set_surfaces (delete s (st_surfaces st)) st))).
  destruct (roundtrip_idle (display wp) evs st2)
    as (st'&Hrun&_&_&Hsf&Hssf&_&d&Hd&Hv).
  { destruct Hheap as [Hinv Hq]. split; [by apply (heap_inv_ext _ st)|done]. }
  exists st', ([Rq_surface_destroy s; Rq_subsurface_destroy ss] ++
               Rq_display_sync (display wp) :: d).
  split.
  { unfold uninit. step_refl. rewrite Hs, Hss, Hwp.
    assert (H1 : wl_surface_destroy s st =
                 Ok tt (set_log (st_log st ++ [Rq_surface_destroy s])
                          (set_surfaces (delete s (st_surfaces st)) st))).
    { unfold wl_surface_destroy, bind, get. by rewrite Hsst. }
    step H1.
    match goal with |- bind (wl_subsurface_destroy ss) _ ?s1 = _ =>
      assert (H2 : wl_subsurface_destroy ss s1 = Ok tt st2)
    end.
    { unfold wl_subsurface_destroy, bind, get. cbn.
      rewrite bool_decide_eq_true_2 by done. unfold st2, send, modify. cbn.
      by rewrite <- app_assoc. }
    step H2. step_refl. exact Hrun. }
  split; [done|]. split; [done|]. split.
  - rewrite Hd. unfold st2. cbn. by rewrite <- !app_assoc.
  - cbn. by rewrite Hv.
Qed.

Ltac norm_state :=
  cbn [st_priv st_log st_surfaces st_subsurfaces st_requests st_pending
       st_buffers st_frames st_next set_priv set_log set_surfaces
       set_subsurfaces set_requests set_pending set_buffers set_frames set_next
       wayland_params registry dmabuf subcompositor video_surface
       video_subsurface].

(** [uninit] on any combination of live and never-created objects. *)
Lemma uninit_spec evs st wp :
  wayland_params (st_priv st) = Some wp →
  heap_ok st →
  (∀ s, video_surface (st_priv st) = Some s → is_Some (st_surfaces st !! s)) →
  (∀ ss, video_subsurface (st_priv st) = Some ss → ss ∈ st_subsurfaces st) →
  ∃ st' d,
    uninit evs st = Ok tt st' ∧
    st_surfaces st' = match video_surface (st_priv st) with
                      | Some s => delete s (st_surfaces st)
                      | None => st_surfaces st
                      end ∧
    st_subsurfaces st' = match video_subsurface (st_priv st) with
                         | Some ss => st_subsurfaces st ∖ {[ss]}
                         | None => st_subsurfaces st
                         end ∧
    st_log st' = st_log st ++ d ∧
    List.filter visible d =
      match video_surface (st_priv st) with
      | Some s => [Rq_surface_destroy s]
      | None => []
      end ++
      match video_subsurface (st_priv st) with
      | Some ss => [Rq_subsurface_destroy ss]
      | None => []
      end ++ [Rq_display_sync (display wp)].
Proof.
  intros Hwp Hheap Hs Hss.
  assert (H1 : ∃ st1 d1,
    match video_surface (st_priv st) with
    | Some s => wl_surface_destroy s
    | None => ret tt
    end st = Ok tt st1 ∧
    st1 = set_log (st_log st ++ d1)
            (set_surfaces match video_surface (st_priv st) with
                          | Some s => delete s (st_surfaces st)
                          | None => st_surfaces st
                          end st) ∧
    d1 = match video_surface (st_priv st) with
         | Some s => [Rq_surface_destroy s]
         | None => []
         end).
  { destruct (video_surface (st_priv st)) as [s|].
    - destruct (Hs s eq_refl) as [sst Hsst]. eexists _, _. split; [|done].
      unfold wl_surface_destroy, bind, get. by rewrite Hsst.
    - exists st, []. split; [done|]. split; [|done]. destruct st. cbn.
      by rewrite app_nil_r. }
  destruct H1 as (st1&d1&Hrun1&->&Hd1).
  assert (H2 : ∃ st2 d2,
    match video_subsurface (st_priv st) with
    | Some ss => wl_subsurface_destroy ss
    | None => ret tt
    end (set_log (st_log st ++ d1)
           (set_surfaces match video_surface (st_priv st) with
                         | Some s => delete s (st_surfaces st)
                         | None => st_surfaces st
                         end st)) = Ok tt st2 ∧
    st2 = set_log ((st_log st ++ d1) ++ d2)
            (set_subsurfaces match video_subsurface (st_priv st) with
                             | Some ss => st_subsurfaces st ∖ {[ss]}
                             | None => st_subsurfaces st
                             end
               (set_surfaces match video_surface (st_priv st) with
                             | Some s => delete s (st_surfaces st)
                             | None => st_surfaces st
                             end st)) ∧
    d2 = match video_subsurface (st_priv st) with
         | Some ss => [Rq_subsurface_destroy ss]
         | None => []
         end).
  { destruct (video_subsurface (st_priv st)) as [ss|].
    - eexists _, _. split; [|done].
      unfold wl_subsurface_destroy, bind, get. cbn.
      by rewrite bool_decide_eq_true_2 by (by apply Hss).
    - eexists _, []. split; [reflexivity|]. split; [|done]. destruct st. cbn.
      by rewrite app_nil_r. }
  destruct H2 as (st2&d2&Hrun2&->&Hd2).
  match type of Hrun2 with _ = Ok _ ?s2 =>
    destruct (roundtrip_idle (display wp) evs s2) as (st'&Hrun&_&_&Hsf&Hssf&_&d&Hd&Hv)
  end.
  { destruct Hheap as [Hinv Hq]. split; [by apply (heap_inv_ext _ st)|done]. }
  exists st', (d1 ++ d2 ++ Rq_display_sync (display wp) :: d).
  split.
  { unfold uninit. step_refl. step Hrun1. step Hrun2. rewrite Hwp. step_refl. exact Hrun. }
  split; [done|]. split; [done|]. split.
  - rewrite Hd. cbn. by rewrite <- !app_assoc.
  - rewrite !List.filter_app. cbn. rewrite Hv, Hd1, Hd2.
    by destruct (video_surface (st_priv st)), (video_subsurface (st_priv st)).
Qed.

(** Once the registry listener is installed, a round-trip that announces
    the subcompositor leaves it bound. *)
Lemma roundtrip_binds_subcompositor dpy evs st name ver :
  heap_ok st → is_Some (registry (st_priv st)) →
  Ev_registry_global name "wl_subcompositor" ver ∈ evs →
  ∃ st', wl_display_roundtrip dpy evs st = Ok tt st' ∧
    heap_ok st' ∧ priv_stable (st_priv st) (st_priv st') ∧
    is_Some (subcompositor (st_priv st')) ∧
    st_surfaces st' = st_surfaces st ∧
    st_subsurfaces st' = st_subsurfaces st.
Proof.
  intros [Hinv Hq] [reg Hreg] Hin.
  apply list_elem_of_split in Hin as (pre&post&->).
  set (st0 := set_log (st_log st ++ [Rq_display_sync dpy]) st).
  destruct (dispatch_all_idle None 0%nat pre st0)
    as (st1&Hrun1&Hinv1&_&Hbg1&Hr1&Hp1&_);
    [by apply (heap_inv_ext _ st) | by intros ? [=] | by left | by left |].
  assert (Hq1 : quiescent st1 = true) by (unfold quiescent in *; by rewrite Hr1, Hp1).
  assert (Hreg1 : registry (st_priv st1) = Some reg).
  { destruct Hbg1 as ((_&->&_)&_). done. }
  set (st2 := set_priv {| wayland_params := wayland_params (st_priv st1);
                          registry := registry (st_priv st1);
                          dmabuf := dmabuf (st_priv st1);
                          subcompositor := Some (st_next st1);
                          video_surface := video_surface (st_priv st1);
                          video_subsurface := video_subsurface (st_priv st1) |}
                (set_log (st_log st1 ++
                          [Rq_registry_bind reg name "wl_subcompositor" 1 (st_next st1)])
                   (set_next (S (st_next st1)) st1))).
  assert (Hrun2 : dispatch (Ev_registry_global name "wl_subcompositor" ver) st1 = Ok tt st2).
  { unfold dispatch, bind, get. rewrite Hreg1. reflexivity. }
  assert (Hinv2 : heap_inv None st2) by (apply (heap_inv_ext _ st1); try done; cbn; lia).
  destruct (dispatch_all_idle None 0%nat post st2 Hinv2)
    as (st3&Hrun3&Hinv3&_&Hbg3&Hr3&Hp3&_); [by intros ? [=] | by left | by left |].
  exists st3. split.
  { unfold wl_display_roundtrip, bind, send, modify. fold st0.
    rewrite dispatch_all_app, (bind_Ok _ _ _ _ _ Hrun1). cbn [dispatch_all].
    by rewrite (bind_Ok _ _ _ _ _ Hrun2). }
  split. { split; [done|]. unfold quiescent in *. by rewrite Hr3, Hp3. }
  destruct Hbg1 as (Hpr1&Hsf1&Hssf1&_). destruct Hbg3 as (Hpr3&Hsf3&Hssf3&_).
  split.
  { eapply priv_stable_trans; [exact Hpr1|]. eapply priv_stable_trans; [|exact Hpr3].
    by repeat split. }
  split. { destruct Hpr3 as (_&_&_&_&_&Hsc). apply Hsc. by eexists. }
  split.
  - rewrite Hsf3. unfold st2. cbn. by rewrite Hsf1.
  - rewrite Hssf3. unfold st2. cbn. by rewrite Hssf1.
Qed.

(** X4: the two failures of [init] that the rollback handles.  When the
    surface or the subsurface cannot be created, [init] returns -1 and no
    surface or subsurface is left on the connection. *)
Lemma init_creation_failure_rolls_back hw e st wp name ver :
  match ra_gl_get hw with
  | Some g => mpgl_get_native_display g "opengl-cb-wayland-params"
  | None => None
  end = Some wp →
  heap_ok st → st_surfaces st = ∅ → st_subsurfaces st = ∅ →
  video_subsurface (st_priv st) = None →
  Ev_registry_global name "wl_subcompositor" ver ∈ registry_events e →
  surface_ok e = false ∨ subsurface_ok e = false →
  ∃ st', init hw e st = Ok (-1) st' ∧ st_surfaces st' = ∅ ∧ st_subsurfaces st' = ∅.
Proof.
  intros Hgl Hheap Hsf Hssf Hvss Hsub Hfail.
  unfold init. rewrite Hgl. step_refl. step_refl. norm_state.
  step_refl. step_refl. step_refl.
  match goal with |- ∃ _, bind (wl_display_roundtrip _ _) _ ?s0 = _ ∧ _ => set (st1 := s0) end.
  destruct (roundtrip_binds_subcompositor (display wp) (registry_events e) st1 name ver)
    as (st2&Hrun2&Hheap2&Hpriv2&[sc Hsc]&Hsf2&Hssf2); [| by eexists | done |].
  { destruct Hheap as [Hinv Hq]. split; [|done]. apply (heap_inv_ext _ st); try done.
    unfold st1. cbn. lia. }
  step Hrun2.
  assert (Hwp2 : wayland_params (st_priv st2) = Some wp).
  { destruct Hpriv2 as (->&_). done. }
  assert (Hvss2 : video_subsurface (st_priv st2) = None).
  { destruct Hpriv2 as (_&_&_&->&_). done. }
  assert (Hsf2' : st_surfaces st2 = ∅) by (by rewrite Hsf2).
  assert (Hssf2' : st_subsurfaces st2 = ∅) by (by rewrite Hssf2).
  destruct (surface_ok e) eqn:Hsok.
  - (* the surface is created, the subsurface is not *)
    destruct Hfail as [?|Hssok]; [done|].
    step_refl. step_refl. step_refl. norm_state. rewrite Hsc.
    match goal with |- ∃ _, bind (wl_subcompositor_get_subsurface _ ?s _ _) _ ?s3 = _ ∧ _ =>
      assert (Hget : wl_subcompositor_get_subsurface (Some sc) s (surface wp)
                       (subsurface_ok e) s3 = Ok None s3)
    end.
    { unfold wl_subcompositor_get_subsurface, bind, deref, ret, get. cbn.
      rewrite lookup_insert_eq. by rewrite Hssok. }
    step Hget. step_refl. unfold init_err.
    match goal with |- ∃ _, bind (uninit _) _ ?s4 = _ ∧ _ => set (st4 := s4) end.
    destruct (uninit_spec (uninit_events e) st4 wp) as (st5&d&Hrun5&Hsf5&Hssf5&_).
    { unfold st4. by norm_state. }
    { destruct Hheap2 as [Hinv2 Hq2]. split; [|done]. apply (heap_inv_ext _ st2); try done.
      unfold st4. cbn. lia. }
    { unfold st4. norm_state. intros s [= <-]. rewrite lookup_insert_eq. eauto. }
    { unfold st4. norm_state. rewrite ?Hvss2. done. }
    exists st5. split; [by step Hrun5|]. rewrite Hsf5, Hssf5. unfold st4. norm_state.
    by rewrite ?Hvss2, delete_insert_eq, Hsf2', Hssf2', delete_empty.
  - (* the surface is not created *)
    step_refl. step_refl. unfold init_err.
    match goal with |- ∃ _, bind (uninit _) _ ?s4 = _ ∧ _ => set (st4 := s4) end.
    destruct (uninit_spec (uninit_events e) st4 wp) as (st5&d&Hrun5&Hsf5&Hssf5&_).
    { unfold st4. by norm_state. }
    { destruct Hheap2 as [Hinv2 Hq2]. split; [|done]. by apply (heap_inv_ext _ st2). }
    { unfold st4. by norm_state. }
    { unfold st4. norm_state. rewrite ?Hvss2. done. }
    exists st5. split; [by step Hrun5|]. rewrite Hsf5, Hssf5. unfold st4. norm_state.
    by rewrite Hvss2.
Qed.

(** ** The registry listener *)

(** What one dispatched event may change in [priv]: only the registry
    listener writes it, and only the pointer of the global it binds. *)
Lemma dispatch_priv ev st st' :
  dispatch ev st = Ok tt st' →
  wayland_params (st_priv st') = wayland_params (st_priv st) ∧
  registry (st_priv st') = registry (st_priv st) ∧
  video_surface (st_priv st') = video_surface (st_priv st) ∧
  video_subsurface (st_priv st') = video_subsurface (st_priv st) ∧
  (if announces "wl_subcompositor" ev && bool_decide (is_Some (registry (st_priv st)))
   then subcompositor (st_priv st') = Some (st_next st)
   else subcompositor (st_priv st') = subcompositor (st_priv st)) ∧
  (if announces "zwp_linux_dmabuf_v1" ev && bool_decide (is_Some (registry (st_priv st)))
   then dmabuf (st_priv st') = Some (st_next st)
   else dmabuf (st_priv st') = dmabuf (st_priv st)).
Proof.
  unfold dispatch, bind, get, ret, dmabuf_format, registry_handle_remove.
  destruct ev as [name interface ver|name|fmt| | |b]; cbn [announces andb].
  - destruct (registry (st_priv st)) as [reg|] eqn:Hreg.
    2:{ intros [= <-].
        rewrite (bool_decide_eq_false_2 (is_Some (@None handle))) by apply is_Some_None.
        rewrite !andb_false_r. by repeat split. }
    rewrite (bool_decide_eq_true_2 (is_Some (Some reg))) by (by eexists).
    rewrite !andb_true_r.
    unfold registry_handle_add, wl_subcompositor_interface_name.
    destruct (decide (interface = "wl_subcompositor"%string)) as [->|Hsc].
    + cbn. intros [= <-]. cbn. by repeat split.
    + rewrite (bool_decide_eq_false_2 _ Hsc).
      destruct (decide (interface = "zwp_linux_dmabuf_v1"%string)) as [->|Hdm].
      * cbn. intros [= <-]. cbn. by repeat split.
      * rewrite (bool_decide_eq_false_2 _ Hdm). cbn. unfold ret. intros [= <-].
        by repeat split.
  - destruct (registry (st_priv st)) eqn:Hreg; intros [= <-]; by repeat split.
  - by intros [= <-].
  - destruct (st_pending st) as [[P data]|]; [|by intros [= <-]].
    destruct (st_requests st !! P) as [rq|] eqn:HP; [|by intros [= <-]].
    destruct (br_alive rq) eqn:Hal; [|by intros [= <-]].
    unfold fresh, modify, param_create_succeeded, bind, load_frame, bind, get, ret.
    cbn. destruct (st_frames st !! data) as [f|] eqn:Hf; [|done]. cbn.
    unfold store_frame, bind, get. cbn. rewrite Hf. cbn.
    unfold wl_buffer_add_listener, bind, get. cbn. rewrite lookup_insert_eq. cbn.
    unfold zwp_linux_buffer_params_v1_destroy, bind, live_request, bind, get.
    cbn. rewrite HP, Hal. cbn. by intros [= <-].
  - destruct (st_pending st) as [[P data]|]; [|by intros [= <-]].
    destruct (st_requests st !! P) as [rq|] eqn:HP; [|by intros [= <-]].
    destruct (br_alive rq) eqn:Hal; [|by intros [= <-]].
    unfold param_create_failed, bind, load_frame, bind, get, ret.
    destruct (st_frames st !! data) as [f|] eqn:Hf; [|done]. cbn.
    unfold store_frame, bind, get. cbn. rewrite Hf. cbn.
    unfold zwp_linux_buffer_params_v1_destroy, bind, live_request, bind, get.
    cbn. rewrite HP, Hal. cbn. by intros [= <-].
  - destruct (st_buffers st !! b) as [bs|] eqn:Hb; [|by intros [= <-]].
    destruct (bs_listener bs) as [a|]; [|by intros [= <-]].
    unfold buffer_release, bind, load_frame, bind, get, ret.
    destruct (st_frames st !! a) as [f|] eqn:Hf; [|done].
    destruct (image f) as [|img]; [done|]. cbn.
    unfold wl_buffer_destroy, bind, get. rewrite Hb. cbn.
    unfold free, bind, get. cbn. rewrite Hf. cbn. by intros [= <-].
Qed.

(** The globals a run of events leaves bound. *)
Lemma dispatch_all_priv evs : ∀ st st',
  dispatch_all evs st = Ok tt st' →
  is_Some (registry (st_priv st)) →
  wayland_params (st_priv st') = wayland_params (st_priv st) ∧
  registry (st_priv st') = registry (st_priv st) ∧
  video_surface (st_priv st') = video_surface (st_priv st) ∧
  video_subsurface (st_priv st') = video_subsurface (st_priv st) ∧
  (if announced "wl_subcompositor" evs
   then is_Some (subcompositor (st_priv st'))
   else subcompositor (st_priv st') = subcompositor (st_priv st)) ∧
  (if announced "zwp_linux_dmabuf_v1" evs
   then is_Some (dmabuf (st_priv st'))
   else dmabuf (st_priv st') = dmabuf (st_priv st)).
Proof.
  induction evs as [|ev evs IH]; intros st st' Hrun Hreg.
  { injection Hrun as <-. by repeat split. }
  cbn [dispatch_all] in Hrun. apply bind_inv in Hrun as ([]&st1&Hrun1&Hrun).
  destruct (dispatch_priv ev st st1 Hrun1) as (Hw1&Hr1&Hs1&Hss1&Hsc1&Hdm1).
  rewrite (bool_decide_eq_true_2 _ Hreg), !andb_true_r in Hsc1, Hdm1.
  destruct (IH st1 st' Hrun) as (Hw&Hr&Hs&Hss&Hsc&Hdm); [by rewrite Hr1|].
  do 4 (split; [congruence|]).
  unfold announced in *. cbn [existsb]. split.
  - destruct (announces "wl_subcompositor" ev),
      (existsb (announces "wl_subcompositor") evs); cbn [orb]; try done.
    + rewrite Hsc, Hsc1. by eexists.
    + congruence.
  - destruct (announces "zwp_linux_dmabuf_v1" ev),
      (existsb (announces "zwp_linux_dmabuf_v1") evs); cbn [orb]; try done.
    + rewrite Hdm, Hdm1. by eexists.
    + congruence.
Qed.

(** The fields of [priv] that only [init] writes. *)
Lemma dispatch_all_stable evs : ∀ st st',
  dispatch_all evs st = Ok tt st' →
  wayland_params (st_priv st') = wayland_params (st_priv st) ∧
  registry (st_priv st') = registry (st_priv st) ∧
  video_surface (st_priv st') = video_surface (st_priv st) ∧
  video_subsurface (st_priv st') = video_subsurface (st_priv st).
Proof.
  induction evs as [|ev evs IH]; intros st st' Hrun.
  { injection Hrun as <-. by repeat split. }
  cbn [dispatch_all] in Hrun. apply bind_inv in Hrun as ([]&st1&Hrun1&Hrun).
  destruct (dispatch_priv ev st st1 Hrun1) as (Hw1&Hr1&Hs1&Hss1&_).
  destruct (IH st1 st' Hrun) as (Hw&Hr&Hs&Hss).
  repeat split; congruence.
Qed.

(** The bind requests one dispatched event adds to the log. *)
Lemma dispatch_binds ev st st' :
  dispatch ev st = Ok tt st' →
  is_Some (registry (st_priv st)) →
  ∃ d, st_log st' = st_log st ++ d ∧
       omap request_bind d = option_list (expected_bind ev).
Proof.
  unfold dispatch, bind, get, ret, dmabuf_format, registry_handle_remove.
  intros Hrun [reg Hreg].
  assert (Hsame : st' = st →
    ∃ d, st_log st' = st_log st ++ d ∧ omap request_bind d = []).
  { intros ->. exists []. by rewrite app_nil_r. }
  destruct ev as [name interface ver|name|fmt| | |b]; cbn [expected_bind option_list].
  - rewrite Hreg in Hrun.
    unfold registry_handle_add, wl_subcompositor_interface_name in Hrun.
    destruct (decide (interface = "wl_subcompositor"%string)) as [->|Hsc].
    + cbn in Hrun. injection Hrun as <-. cbn. by eexists.
    + rewrite (bool_decide_eq_false_2 _ Hsc) in *.
      destruct (decide (interface = "zwp_linux_dmabuf_v1"%string)) as [->|Hdm].
      * cbn in Hrun. injection Hrun as <-. cbn. by eexists.
      * rewrite (bool_decide_eq_false_2 _ Hdm) in *. cbn in Hrun.
        apply Hsame. by injection Hrun.
  - rewrite Hreg in Hrun. apply Hsame. by injection Hrun.
  - apply Hsame. by injection Hrun.
  - destruct (st_pending st) as [[P data]|]; [|apply Hsame; by injection Hrun].
    destruct (st_requests st !! P) as [rq|] eqn:HP; [|apply Hsame; by injection Hrun].
    destruct (br_alive rq) eqn:Hal; [|apply Hsame; by injection Hrun].
    unfold fresh, modify, param_create_succeeded, bind, load_frame, bind, get, ret in Hrun.
    cbn in Hrun. destruct (st_frames st !! data) as [f|] eqn:Hf; [|done]. cbn in Hrun.
    unfold store_frame, bind, get in Hrun. cbn in Hrun. rewrite Hf in Hrun. cbn in Hrun.
    unfold wl_buffer_add_listener, bind, get in Hrun. cbn in Hrun.
    rewrite lookup_insert_eq in Hrun. cbn in Hrun.
    unfold zwp_linux_buffer_params_v1_destroy, bind, live_request, bind, get in Hrun.
    cbn in Hrun. rewrite HP, Hal in Hrun. cbn in Hrun. injection Hrun as <-.
    cbn. by eexists.
  - destruct (st_pending st) as [[P data]|]; [|apply Hsame; by injection Hrun].
    destruct (st_requests st !! P) as [rq|] eqn:HP; [|apply Hsame; by injection Hrun].
    destruct (br_alive rq) eqn:Hal; [|apply Hsame; by injection Hrun].
    unfold param_create_failed, bind, load_frame, bind, get, ret in Hrun.
    destruct (st_frames st !! data) as [f|] eqn:Hf; [|done]. cbn in Hrun.
    unfold store_frame, bind, get in Hrun. cbn in Hrun. rewrite Hf in Hrun. cbn in Hrun.
    unfold zwp_linux_buffer_params_v1_destroy, bind, live_request, bind, get in Hrun.
    cbn in Hrun. rewrite HP, Hal in Hrun. cbn in Hrun. injection Hrun as <-.
    cbn. by eexists.
  - destruct (st_buffers st !! b) as [bs|] eqn:Hb; [|apply Hsame; by injection Hrun].
    destruct (bs_listener bs) as [a|]; [|apply Hsame; by injection Hrun].
    unfold buffer_release, bind, load_frame, bind, get, ret in Hrun.
    destruct (st_frames st !! a) as [f|] eqn:Hf; [|done].
    destruct (image f) as [|img]; [done|]. cbn in Hrun.
    unfold wl_buffer_destroy, bind, get in Hrun. rewrite Hb in Hrun. cbn in Hrun.
    unfold free, bind, get in Hrun. cbn in Hrun. rewrite Hf in Hrun. cbn in Hrun.
    injection Hrun as <-. cbn. by eexists.
Qed.

(** The bind requests of a run of events: one per announcement of a known
    interface, in order. *)
Lemma dispatch_all_binds evs : ∀ st st',
  dispatch_all evs st = Ok tt st' →
  is_Some (registry (st_priv st)) →
  ∃ d, st_log st' = st_log st ++ d ∧
       omap request_bind d = omap expected_bind evs.
Proof.
  induction evs as [|ev evs IH]; intros st st' Hrun Hreg.
  { injection Hrun as <-. exists []. by rewrite app_nil_r. }
  cbn [dispatch_all] in Hrun. apply bind_inv in Hrun as ([]&st1&Hrun1&Hrun).
  destruct (dispatch_binds ev st st1 Hrun1 Hreg) as (d1&Hd1&Hb1).
  destruct (dispatch_priv ev st st1 Hrun1) as (_&Hr1&_).
  destruct (IH st1 st' Hrun) as (d&Hd&Hb); [by rewrite Hr1|].
  exists (d1 ++ d). split; [by rewrite Hd, Hd1, app_assoc|].
  rewrite omap_app, Hb1, Hb. cbn. by destruct (expected_bind ev).
Qed.

(** A round-trip with the registry listener installed and no buffer
    request pending. *)
Lemma roundtrip_registry dpy evs st :
  heap_ok st → is_Some (registry (st_priv st)) →
  ∃ st' d, wl_display_roundtrip dpy evs st = Ok tt st' ∧
    heap_ok st' ∧
    wayland_params (st_priv st') = wayland_params (st_priv st) ∧
    registry (st_priv st') = registry (st_priv st) ∧
    video_surface (st_priv st') = video_surface (st_priv st) ∧
    video_subsurface (st_priv st') = video_subsurface (st_priv st) ∧
    (if announced "wl_subcompositor" evs
     then is_Some (subcompositor (st_priv st'))
     else subcompositor (st_priv st') = subcompositor (st_priv st)) ∧
    (if announced "zwp_linux_dmabuf_v1" evs
     then is_Some (dmabuf (st_priv st'))
     else dmabuf (st_priv st') = dmabuf (st_priv st)) ∧
    st_surfaces st' = st_surfaces st ∧
    st_subsurfaces st' = st_subsurfaces st ∧
    (st_next st ≤ st_next st')%nat ∧
    st_log st' = st_log st ++ Rq_display_sync dpy :: d ∧
    List.filter visible d = [] ∧
    omap request_bind d = omap expected_bind evs.
Proof.
  intros Hheap Hreg.
  destruct (roundtrip_idle dpy evs st Hheap)
    as (st'&Hrun&Hheap'&_&Hsf&Hssf&Hn&d&Hd&Hv).
  exists st', d. split; [done|]. split; [done|].
  unfold wl_display_roundtrip in Hrun. apply bind_inv in Hrun as ([]&st0&Hsend&Hrun).
  injection Hsend as <-.
  destruct (dispatch_all_priv evs _ st' Hrun Hreg) as (?&?&?&?&?&?).
  do 11 (split; [done|]).
  destruct (dispatch_all_binds evs _ st' Hrun Hreg) as (d'&Hd'&Hb).
  cbn in Hd'. rewrite Hd, <- app_assoc in Hd'. apply app_inv_head in Hd'.
  injection Hd' as ->. done.
Qed.

(** X7: the registry listener over a whole round-trip.  Every
    announcement of [wl_subcompositor] or [zwp_linux_dmabuf_v1] is answered
    with one bind request for version 1, whatever version is announced, and
    nothing else is bound; removals and dmabuf formats are ignored.
    Afterwards a pointer that was NULL is set exactly when its interface was
    announced, and no other field of [priv], surface or subsurface has
    changed. *)
Theorem registry_binds_announced (dpy : handle) (evs : list wl_event) (st : state) :
  heap_ok st → is_Some (registry (st_priv st)) →
  subcompositor (st_priv st) = None → dmabuf (st_priv st) = None →
  ∃ st' d,
    wl_display_roundtrip dpy evs st = Ok tt st' ∧
    st_log st' = st_log st ++ Rq_display_sync dpy :: d ∧
    omap request_bind d = omap expected_bind evs ∧
    (is_Some (subcompositor (st_priv st')) ↔ announced "wl_subcompositor" evs = true) ∧
    (is_Some (dmabuf (st_priv st')) ↔ announced "zwp_linux_dmabuf_v1" evs = true) ∧
    wayland_params (st_priv st') = wayland_params (st_priv st) ∧
    video_surface (st_priv st') = video_surface (st_priv st) ∧
    video_subsurface (st_priv st') = video_subsurface (st_priv st) ∧
    st_surfaces st' = st_surfaces st ∧
    st_subsurfaces st' = st_subsurfaces st.
Proof.
  intros Hheap Hreg Hsc Hdm.
  destruct (roundtrip_registry dpy evs st Hheap Hreg)
    as (st'&d&Hrun&_&?&_&?&?&Hsc'&Hdm'&?&?&_&?&_&?).
  exists st', d. do 3 (split; [done|]).
  split.
  { destruct (announced "wl_subcompositor" evs); [done|].
    rewrite Hsc', Hsc. split; [by intros [? ?]|done]. }
  split; [|done].
  destruct (announced "zwp_linux_dmabuf_v1" evs); [done|].
  rewrite Hdm', Hdm. split; [by intros [? ?]|done].
Qed.

Lemma heap_ok_zero : heap_ok st_zero.
Proof. refine (bool_decide_unpack _ _). vm_compute. exact I. Qed.

Lemma heap_ok_listening : heap_ok st_listening.
Proof. refine (bool_decide_unpack _ _). vm_compute. exact I. Qed.

Lemma registry_binds_announced_witness :
  ∃ st' d,
    wl_display_roundtrip 1 globals_twice st_listening = Ok tt st' ∧
    st_log st' = st_log st_listening ++ Rq_display_sync 1 :: d ∧
    omap request_bind d = omap expected_bind globals_twice ∧
    (is_Some (subcompositor (st_priv st')) ↔
     announced "wl_subcompositor" globals_twice = true) ∧
    (is_Some (dmabuf (st_priv st')) ↔
     announced "zwp_linux_dmabuf_v1" globals_twice = true) ∧
    wayland_params (st_priv st') = wayland_params (st_priv st_listening) ∧
    video_surface (st_priv st') = video_surface (st_priv st_listening) ∧
    video_subsurface (st_priv st') = video_subsurface (st_priv st_listening) ∧
    st_surfaces st' = st_surfaces st_listening ∧
    st_subsurfaces st' = st_subsurfaces st_listening.
Proof.
  apply (registry_binds_announced 1%nat globals_twice st_listening);
    [exact heap_ok_listening | by eexists | reflexivity | reflexivity].
Defined.

(** ** Initialisation *)

(** A successful [init], in full. *)
Lemma init_ok_spec (hw : ra_hwdec) (e : init_env) (st : state)
    (wp : mpv_opengl_cb_wayland_params) :
  match ra_gl_get hw with
  | Some g => mpgl_get_native_display g "opengl-cb-wayland-params"
  | None => None
  end = Some wp →
  heap_ok st →
  announced "wl_subcompositor" (registry_events e) = true →
  surface_ok e = true → subsurface_ok e = true →
  ∃ st' sc s ss d,
    init hw e st = Ok 0 st' ∧
    wayland_params (st_priv st') = Some wp ∧
    registry (st_priv st') = Some (st_next st) ∧
    subcompositor (st_priv st') = Some sc ∧
    video_surface (st_priv st') = Some s ∧
    video_subsurface (st_priv st') = Some ss ∧
    (st_next st < s)%nat ∧ ss = S s ∧
    st_surfaces st' =
      <[s := {| ss_pending := None; ss_current := None |}]> (st_surfaces st) ∧
    st_subsurfaces st' = {[ss]} ∪ st_subsurfaces st ∧
    heap_ok st' ∧
    st_log st' =
      st_log st ++ Rq_display_get_registry (display wp) (st_next st) ::
                   Rq_display_sync (display wp) :: d ++
                   [Rq_compositor_create_surface (compositor wp) s;
                    Rq_subcompositor_get_subsurface sc ss s (surface wp);
                    Rq_subsurface_place_below ss (surface wp)] ∧
    List.filter visible d = [] ∧
    omap request_bind d = omap expected_bind (registry_events e) ∧
    (if announced "zwp_linux_dmabuf_v1" (registry_events e)
     then bridge_ready st' = true
     else dmabuf (st_priv st') = dmabuf (st_priv st)).
Proof.
  intros Hgl Hheap Hsub Hsok Hssok.
  set (st1 := set_priv {| wayland_params := Some wp; registry := Some (st_next st);
                          dmabuf := dmabuf (st_priv st);
                          subcompositor := subcompositor (st_priv st);
                          video_surface := video_surface (st_priv st);
                          video_subsurface := video_subsurface (st_priv st) |}
                (set_log (st_log st ++ [Rq_display_get_registry (display wp) (st_next st)])
                   (set_next (S (st_next st)) st))).
  destruct (roundtrip_registry (display wp) (registry_events e) st1)
    as (st2&d&Hrun2&Hheap2&Hw2&Hr2&Hs2&Hss2&Hsc2&Hdm2&Hsf2&Hssf2&Hn2&Hd2&Hv2&Hbind2).
  { destruct Hheap as [Hinv Hq]. split; [|done]. apply (heap_inv_ext _ st); try done.
    unfold st1. cbn. lia. }
  { unfold st1. cbn. by eexists. }
  rewrite Hsub in Hsc2. destruct Hsc2 as [sc Hsc].
  set (s := st_next st2). set (ss := S (st_next st2)).
  set (st' :=
    set_priv {| wayland_params := wayland_params (st_priv st2);
                registry := registry (st_priv st2);
                dmabuf := dmabuf (st_priv st2);
                subcompositor := Some sc;
                video_surface := Some s; video_subsurface := Some ss |}
      (set_log (st_log st2 ++
                [Rq_compositor_create_surface (compositor wp) s;
                 Rq_subcompositor_get_subsurface sc ss s (surface wp);
                 Rq_subsurface_place_below ss (surface wp)])
         (set_subsurfaces ({[ss]} ∪ st_subsurfaces st2)
            (set_surfaces (<[s := {| ss_pending := None; ss_current := None |}]>
                             (st_surfaces st2))
               (set_next (S (S (st_next st2))) st2))))).
  assert (Hrun : init hw e st = Ok 0 st').
  { unfold init. rewrite Hgl. step_refl. step_refl. norm_state.
    step_refl. step_refl. step_refl. fold st1. step Hrun2.
    rewrite Hsok. step_refl. step_refl. step_refl. norm_state. rewrite Hsc, Hssok.
    match goal with |- bind (wl_subcompositor_get_subsurface _ _ _ _) _ ?s3 = _ =>
      assert (Hget : wl_subcompositor_get_subsurface (Some sc) s (surface wp) true s3 =
                     Ok (Some ss)
                       (set_log (st_log s3 ++
                                 [Rq_subcompositor_get_subsurface sc ss s (surface wp)])
                          (set_subsurfaces ({[ss]} ∪ st_subsurfaces s3)
                             (set_next (S (st_next s3)) s3))))
    end.
    { unfold wl_subcompositor_get_subsurface, bind, deref, ret, get. cbn.
      by rewrite lookup_insert_eq. }
    fold s. step Hget. step_refl.
    unfold wl_subsurface_place_below, bind, get. norm_state.
    rewrite bool_decide_eq_true_2
      by (apply elem_of_union; left; by apply elem_of_singleton).
    unfold send, modify, ret, st'. norm_state. rewrite <- !app_assoc. reflexivity. }
  exists st', sc, s, ss, d. split; [exact Hrun|].
  unfold st'. norm_state. rewrite Hw2, Hr2, Hsf2, Hssf2, Hd2. unfold st1. norm_state.
  do 5 (split; [done|]).
  split. { unfold s. unfold st1 in Hn2. cbn in Hn2. lia. }
  split; [done|]. split; [done|]. split; [done|].
  split.
  { destruct Hheap2 as [Hinv2 Hq2]. split; [|done].
    apply (heap_inv_ext _ st2); try done. cbn. lia. }
  split. { rewrite <- !app_assoc. reflexivity. }
  split; [done|]. split; [done|].
  destruct (announced "zwp_linux_dmabuf_v1" (registry_events e)); [|done].
  unfold bridge_ready. norm_state.
  rewrite lookup_insert_eq.
  rewrite !bool_decide_eq_true_2; eauto.
Qed.



(** X3: [init] never checks [p->dmabuf] either.  Without a
    [zwp_linux_dmabuf_v1] global the call still returns 0 and leaves the
    pointer NULL, so the first hand-off of a frame with a layer passes NULL
    to [zwp_linux_dmabuf_v1_create_params]. *)
Theorem init_without_dmabuf (hw : ra_hwdec) (e : init_env) (st : state)
    (wp : mpv_opengl_cb_wayland_params) :
  match ra_gl_get hw with
  | Some g => mpgl_get_native_display g "opengl-cb-wayland-params"
  | None => None
  end = Some wp →
  heap_ok st →
  dmabuf (st_priv st) = None →
  announced "wl_subcompositor" (registry_events e) = true →
  announced "zwp_linux_dmabuf_v1" (registry_events e) = false →
  surface_ok e = true → subsurface_ok e = true →
  ∃ st',
    init hw e st = Ok 0 st' ∧
    dmabuf (st_priv st') = None ∧
    ∀ img desc src dst newframe env,
      planes_0 img = Some desc →
      0 < nb_layers desc → is_Some (layers desc !! 0%nat) →
      overlay_frame (Some img) src dst newframe env st' = Fault NullPointer.
Proof.
  intros Hgl Hheap Hnone Hsub Hdma Hsok Hssok.
  destruct (init_ok_spec hw e st wp Hgl Hheap Hsub Hsok Hssok)
    as (st'&sc&s&ss&d&Hrun&_&_&_&_&_&_&_&_&_&_&_&_&_&Hdm).
  rewrite Hdma, Hnone in Hdm.
  exists st'. split; [done|]. split; [done|].
  intros img desc src dst newframe env Hdesc Hn [layer Hlayer].
  unfold overlay_frame. rewrite Hdesc.
  rewrite seqZ_cons by lia. cbn [layers_loop].
  rewrite (bind_Ok _ _ _ _ _ (array_at_ok (layers desc) 0 layer st'
                                ltac:(unfold AV_DRM_MAX_PLANES; lia) Hlayer)).
  cbv beta. unfold bind at 1. unfold get_priv at 1. cbv beta iota.
  rewrite Hdm. reflexivity.
Qed.

Lemma init_without_dmabuf_witness :
  ∃ st',
    init {| ra_gl_get := Some gl_host |} init_env_no_dmabuf st_zero = Ok 0 st' ∧
    dmabuf (st_priv st') = None ∧
    ∀ img desc src dst newframe env,
      planes_0 img = Some desc →
      0 < nb_layers desc → is_Some (layers desc !! 0%nat) →
      overlay_frame (Some img) src dst newframe env st' = Fault NullPointer.
Proof.
  apply (init_without_dmabuf {| ra_gl_get := Some gl_host |} init_env_no_dmabuf
           st_zero host_params);
    [reflexivity | exact heap_ok_zero | reflexivity | reflexivity | reflexivity
    | reflexivity | reflexivity].
Defined.

(** X2: [init] never checks [p->subcompositor].  When the registry
    round-trip announces no [wl_subcompositor] and the surface is created,
    the NULL pointer is handed to [wl_subcompositor_get_subsurface]: the
    call neither returns 0 nor reaches its error path. *)
Theorem init_without_subcompositor (hw : ra_hwdec) (e : init_env) (st : state)
    (wp : mpv_opengl_cb_wayland_params) :
  match ra_gl_get hw with
  | Some g => mpgl_get_native_display g "opengl-cb-wayland-params"
  | None => None
  end = Some wp →
  heap_ok st →
  subcompositor (st_priv st) = None →
  announced "wl_subcompositor" (registry_events e) = false →
  surface_ok e = true →
  init hw e st = Fault NullPointer.
Proof.
  intros Hgl Hheap Hnone Hsub Hsok.
  set (st1 := set_priv {| wayland_params := Some wp; registry := Some (st_next st);
                          dmabuf := dmabuf (st_priv st);
                          subcompositor := subcompositor (st_priv st);
                          video_surface := video_surface (st_priv st);
                          video_subsurface := video_subsurface (st_priv st) |}
                (set_log (st_log st ++ [Rq_display_get_registry (display wp) (st_next st)])
                   (set_next (S (st_next st)) st))).
  destruct (roundtrip_registry (display wp) (registry_events e) st1)
    as (st2&d&Hrun2&_&_&_&_&_&Hsc2&_).
  { destruct Hheap as [Hinv Hq]. split; [|done]. apply (heap_inv_ext _ st); try done.
    unfold st1. cbn. lia. }
  { unfold st1. cbn. by eexists. }
  rewrite Hsub in Hsc2. unfold st1 in Hsc2. cbn in Hsc2. rewrite Hnone in Hsc2.
  unfold init. rewrite Hgl. step_refl. step_refl. norm_state.
  step_refl. step_refl. step_refl. fold st1. step Hrun2.
  rewrite Hsok. step_refl. step_refl. step_refl. norm_state. rewrite Hsc2.
  reflexivity.
Qed.

Lemma init_without_subcompositor_witness :
  init {| ra_gl_get := Some gl_host |} init_env_no_subcompositor st_zero =
  Fault NullPointer.
Proof.
  apply (init_without_subcompositor {| ra_gl_get := Some gl_host |}
           init_env_no_subcompositor st_zero host_params);
    [reflexivity | exact heap_ok_zero | reflexivity | reflexivity | reflexivity].
Defined.

(** [uninit] destroys the objects but leaves the pointers to them set. *)
Lemma uninit_stable evs st st' :
  uninit evs st = Ok tt st' →
  wayland_params (st_priv st') = wayland_params (st_priv st) ∧
  video_surface (st_priv st') = video_surface (st_priv st) ∧
  video_subsurface (st_priv st') = video_subsurface (st_priv st).
Proof.
  unfold uninit. intros Hrun.
  apply bind_inv in Hrun as (p&st0&Hp&Hrun). injection Hp as <- <-.
  apply bind_inv in Hrun as ([]&st1&H1&Hrun).
  apply bind_inv in Hrun as ([]&st2&H2&Hrun).
  apply bind_inv in Hrun as (wp&st3&H3&Hrun).
  assert (Hp1 : st_priv st1 = st_priv st).
  { destruct (video_surface (st_priv st)) as [s|]; [|by injection H1 as <-].
    unfold wl_surface_destroy, bind, get in H1.
    destruct (st_surfaces st !! s); [|done]. by injection H1 as <-. }
  assert (Hp2 : st_priv st2 = st_priv st1).
  { destruct (video_subsurface (st_priv st)) as [s|]; [|by injection H2 as <-].
    unfold wl_subsurface_destroy, bind, get in H2.
    destruct (bool_decide (s ∈ st_subsurfaces st1)); [|done]. by injection H2 as <-. }
  assert (Hp3 : st3 = st2).
  { destruct (wayland_params (st_priv st)); [|done]. by injection H3 as _ <-. }
  subst st3. unfold wl_display_roundtrip in Hrun.
  apply bind_inv in Hrun as ([]&st4&H4&Hrun). injection H4 as <-.
  destruct (dispatch_all_stable evs _ st' Hrun) as (Hw&_&Hs&Hss).
  cbn in Hw, Hs, Hss. rewrite Hw, Hs, Hss, Hp2, Hp1. done.
Qed.

(** X5: the rollback of [init] when the subsurface cannot be
    created.  The call returns -1; the surface it created is destroyed
    again, the only [visible] request between the two round-trips; but
    [p->video_surface] keeps pointing to the destroyed surface, so any later
    [uninit] destroys it a second time. *)
Theorem init_subsurface_failure (hw : ra_hwdec) (e : init_env) (st : state)
    (wp : mpv_opengl_cb_wayland_params) :
  match ra_gl_get hw with
  | Some g => mpgl_get_native_display g "opengl-cb-wayland-params"
  | None => None
  end = Some wp →
  heap_ok st →
  video_subsurface (st_priv st) = None →
  announced "wl_subcompositor" (registry_events e) = true →
  surface_ok e = true → subsurface_ok e = false →
  ∃ st' s d,
    init hw e st = Ok (-1) st' ∧
    (st_next st < s)%nat ∧
    video_surface (st_priv st') = Some s ∧
    video_subsurface (st_priv st') = None ∧
    st_surfaces st' = delete s (st_surfaces st) ∧
    st_subsurfaces st' = st_subsurfaces st ∧
    st_log st' = st_log st ++ d ∧
    List.filter visible d =
      [Rq_display_sync (display wp); Rq_surface_destroy s;
       Rq_display_sync (display wp)] ∧
    ∀ evs, uninit evs st' = Fault DeadProxy.
Proof.
  intros Hgl Hheap Hvss Hsub Hsok Hssok.
  set (st1 := set_priv {| wayland_params := Some wp; registry := Some (st_next st);
                          dmabuf := dmabuf (st_priv st);
                          subcompositor := subcompositor (st_priv st);
                          video_surface := video_surface (st_priv st);
                          video_subsurface := video_subsurface (st_priv st) |}
                (set_log (st_log st ++ [Rq_display_get_registry (display wp) (st_next st)])
                   (set_next (S (st_next st)) st))).
  destruct (roundtrip_registry (display wp) (registry_events e) st1)
    as (st2&d&Hrun2&Hheap2&Hw2&Hr2&Hs2&Hss2&Hsc2&Hdm2&Hsf2&Hssf2&Hn2&Hd2&Hv2&_).
  { destruct Hheap as [Hinv Hq]. split; [|done]. apply (heap_inv_ext _ st); try done.
    unfold st1. cbn. lia. }
  { unfold st1. cbn. by eexists. }
  rewrite Hsub in Hsc2. destruct Hsc2 as [sc Hsc].
  unfold st1 in Hw2, Hss2, Hsf2, Hssf2, Hn2, Hd2. cbn in Hw2, Hss2, Hsf2, Hssf2, Hn2, Hd2.
  set (s := st_next st2).
  set (st4 :=
    set_priv {| wayland_params := wayland_params (st_priv st2);
                registry := registry (st_priv st2);
                dmabuf := dmabuf (st_priv st2);
                subcompositor := Some sc;
                video_surface := Some s; video_subsurface := None |}
      (set_log (st_log st2 ++ [Rq_compositor_create_surface (compositor wp) s])
         (set_surfaces (<[s := {| ss_pending := None; ss_current := None |}]>
                          (st_surfaces st2))
            (set_next (S (st_next st2)) st2)))).
  destruct (uninit_spec (uninit_events e) st4 wp) as (st5&d5&Hrun5&Hsf5&Hssf5&Hd5&Hv5).
  { unfold st4. by norm_state. }
  { destruct Hheap2 as [Hinv2 Hq2]. split; [|done]. apply (heap_inv_ext _ st2); try done.
    unfold st4. cbn. lia. }
  { unfold st4. norm_state. intros ? [= <-]. rewrite lookup_insert_eq. eauto. }
  { unfold st4. norm_state. done. }
  destruct (uninit_stable _ _ _ Hrun5) as (Hw5&Hs5&Hss5).
  unfold st4 in Hsf5, Hssf5, Hd5, Hv5, Hs5, Hss5.
  cbn in Hsf5, Hssf5, Hd5, Hv5, Hs5, Hss5.
  assert (Hrun : init hw e st = Ok (-1) st5).
  { unfold init. rewrite Hgl. step_refl. step_refl. norm_state.
    step_refl. step_refl. step_refl. fold st1. step Hrun2.
    rewrite Hsok. step_refl. step_refl. step_refl. norm_state. rewrite Hsc, Hssok.
    match goal with |- bind (wl_subcompositor_get_subsurface _ _ _ _) _ ?s3 = _ =>
      assert (Hget : wl_subcompositor_get_subsurface (Some sc) s (surface wp) false s3 =
                     Ok None s3)
    end.
    { unfold wl_subcompositor_get_subsurface, bind, deref, ret, get. cbn.
      by rewrite lookup_insert_eq. }
    fold s. step Hget. step_refl. unfold init_err. norm_state. rewrite Hss2, Hvss.
    fold st4. by step Hrun5. }
  exists st5, s,
    (Rq_display_get_registry (display wp) (st_next st) ::
     Rq_display_sync (display wp) :: d ++
     Rq_compositor_create_surface (compositor wp) s :: d5).
  split; [exact Hrun|].
  split. { unfold s. lia. }
  split; [done|]. split; [done|].
  split. { rewrite Hsf5, Hsf2. by rewrite delete_insert_eq. }
  split; [by rewrite Hssf5, Hssf2|].
  split. { rewrite Hd5, Hd2. rewrite <- !app_assoc. reflexivity. }
  split.
  { cbn. rewrite List.filter_app, Hv2. cbn. by rewrite Hv5. }
  intros evs. unfold uninit, bind, get_priv. rewrite Hs5.
  unfold wl_surface_destroy, bind, get. by rewrite Hsf5, lookup_delete_eq.
Qed.

Lemma init_subsurface_failure_witness :
  ∃ st' s d,
    init {| ra_gl_get := Some gl_host |} init_env_no_subsurface st_zero = Ok (-1) st' ∧
    (st_next st_zero < s)%nat ∧
    video_surface (st_priv st') = Some s ∧
    video_subsurface (st_priv st') = None ∧
    st_surfaces st' = delete s (st_surfaces st_zero) ∧
    st_subsurfaces st' = st_subsurfaces st_zero ∧
    st_log st' = st_log st_zero ++ d ∧
    List.filter visible d =
      [Rq_display_sync (display host_params); Rq_surface_destroy s;
       Rq_display_sync (display host_params)] ∧
    ∀ evs, uninit evs st' = Fault DeadProxy.
Proof.
  apply (init_subsurface_failure {| ra_gl_get := Some gl_host |} init_env_no_subsurface
           st_zero host_params);
    [reflexivity | exact heap_ok_zero | reflexivity | reflexivity | reflexivity
    | reflexivity].
Defined.

Lemma init_creation_failure_rolls_back_witness :
  ∃ st',
    init {| ra_gl_get := Some gl_host |} init_env_no_surface st_zero = Ok (-1) st' ∧
    st_surfaces st' = ∅ ∧ st_subsurfaces st' = ∅.
Proof.
  apply (init_creation_failure_rolls_back {| ra_gl_get := Some gl_host |}
           init_env_no_surface st_zero host_params 2 1);
    [reflexivity | exact heap_ok_zero | reflexivity | reflexivity | reflexivity
    | | by left].
  right. left.
Defined.

(** X6: [uninit] undoes a successful [init]: it leaves no surface and
    no subsurface behind, and the [visible] requests between the two
    round-trips are the two destroy requests, the surface first. *)
Theorem init_then_uninit (hw : ra_hwdec) (e : init_env) (evs : list wl_event)
    (st : state) (wp : mpv_opengl_cb_wayland_params) :
  match ra_gl_get hw with
  | Some g => mpgl_get_native_display g "opengl-cb-wayland-params"
  | None => None
  end = Some wp →
  heap_ok st → st_surfaces st = ∅ → st_subsurfaces st = ∅ →
  announced "wl_subcompositor" (registry_events e) = true →
  surface_ok e = true → subsurface_ok e = true →
  ∃ st1 st2 s ss d,
    init hw e st = Ok 0 st1 ∧
    video_surface (st_priv st1) = Some s ∧
    video_subsurface (st_priv st1) = Some ss ∧
    uninit evs st1 = Ok tt st2 ∧
    st_surfaces st2 = ∅ ∧ st_subsurfaces st2 = ∅ ∧
    st_log st2 = st_log st ++ d ∧
    List.filter visible d =
      [Rq_display_sync (display wp); Rq_surface_destroy s;
       Rq_subsurface_destroy ss; Rq_display_sync (display wp)].
Proof.
  intros Hgl Hheap Hsf Hssf Hsub Hsok Hssok.
  destruct (init_ok_spec hw e st wp Hgl Hheap Hsub Hsok Hssok)
    as (st1&sc&s&ss&d&Hrun&Hwp1&_&_&Hs1&Hss1&_&_&Hsf1&Hssf1&Hheap1&Hd1&Hv1&_).
  destruct (uninit_spec evs st1 wp Hwp1 Hheap1) as (st2&d2&Hrun2&Hsf2&Hssf2&Hd2&Hv2).
  { intros s' Hs'. rewrite Hs1 in Hs'. injection Hs' as <-.
    rewrite Hsf1, lookup_insert_eq. eauto. }
  { intros ss' Hss'. rewrite Hss1 in Hss'. injection Hss' as <-.
    rewrite Hssf1. apply elem_of_union. left. by apply elem_of_singleton. }
  rewrite Hs1 in Hsf2, Hv2. rewrite Hss1 in Hssf2, Hv2.
  eexists st1, st2, s, ss, _. do 4 (split; [done|]).
  split. { rewrite Hsf2, Hsf1, Hsf. by rewrite delete_insert_eq, delete_empty. }
  split. { rewrite Hssf2, Hssf1, Hssf. by rewrite (right_id_L ∅ (∪)), difference_diag_L. }
  split. { rewrite Hd2, Hd1. rewrite <- !app_assoc. reflexivity. }
  cbn. rewrite !List.filter_app, Hv1. cbn. by rewrite Hv2.
Qed.

Lemma init_then_uninit_witness :
  ∃ st1 st2 s ss d,
    init {| ra_gl_get := Some gl_host |} init_env_ok st_zero = Ok 0 st1 ∧
    video_surface (st_priv st1) = Some s ∧
    video_subsurface (st_priv st1) = Some ss ∧
    uninit [Ev_dmabuf_format 875713112] st1 = Ok tt st2 ∧
    st_surfaces st2 = ∅ ∧ st_subsurfaces st2 = ∅ ∧
    st_log st2 = st_log st_zero ++ d ∧
    List.filter visible d =
      [Rq_display_sync (display host_params); Rq_surface_destroy s;
       Rq_subsurface_destroy ss; Rq_display_sync (display host_params)].
Proof.
  apply (init_then_uninit {| ra_gl_get := Some gl_host |} init_env_ok
           [Ev_dmabuf_format 875713112] st_zero host_params);
    [reflexivity | exact heap_ok_zero | reflexivity | reflexivity | reflexivity
    | reflexivity | reflexivity].
Defined.

Lemma init_params_unavailable_never_returns_witness :
  ∃ f, init {| ra_gl_get := Some {| native_display := fun _ => None |} |}
         init_env_ok st_playing = Fault f.
Proof.
  apply (init_params_unavailable_never_returns
           {| ra_gl_get := Some {| native_display := fun _ => None |} |}
           init_env_ok st_playing).
  reflexivity.
Defined.

(** ** Teardown *)

Lemma uninit_destroys_once_witness :
  ∃ st' d,
    uninit [Ev_buffer_release 17] st_playing = Ok tt st' ∧
    st_surfaces st' = delete 13%nat (st_surfaces st_playing) ∧
    st_subsurfaces st' = st_subsurfaces st_playing ∖ {[14%nat]} ∧
    st_log st' = st_log st_playing ++ d ∧
    List.filter visible d =
      [Rq_surface_destroy 13; Rq_subsurface_destroy 14;
       Rq_display_sync (display host_params)].
Proof.
  apply (uninit_destroys_once [Ev_buffer_release 17] st_playing host_params
           13%nat 14%nat);
    [reflexivity | reflexivity | by eexists | reflexivity
    | refine (bool_decide_unpack _ _); vm_compute; exact I | exact heap_ok_playing].
Defined.

(** X24: [uninit] dereferences [p->wayland_params] for its round-trip
    without a test.  On a [priv] whose interop parameters are NULL the call
    never returns, whatever the rest of the state holds and whatever objects
    it destroyed before. *)
Theorem uninit_needs_params (evs : list wl_event) (st : state) :
  wayland_params (st_priv st) = None →
  ∃ f, uninit evs st = Fault f.
Proof.
  intros Hnone. unfold uninit.
  unfold bind at 1. cbn [get_priv].
  unfold bind at 1.
  destruct (match video_surface (st_priv st) with
            | Some s => wl_surface_destroy s
            | None => ret tt
            end st) as [[] st1|f]; [|by eexists].
  unfold bind at 1.
  destruct (match video_subsurface (st_priv st) with
            | Some s => wl_subsurface_destroy s
            | None => ret tt
            end st1) as [[] st2|f]; [|by eexists].
  rewrite Hnone. cbn. by eexists.
Qed.

Lemma uninit_needs_params_witness :
  ∃ f, uninit [Ev_dmabuf_format 875713112] st_zero = Fault f.
Proof.
  apply (uninit_needs_params [Ev_dmabuf_format 875713112] st_zero). reflexivity.
Defined.

(** X9: [uninit] is not idempotent on a live video surface.  The
    first call destroys the surface and leaves [p->video_surface] set, so a
    second call hands the dead proxy to [wl_surface_destroy], whatever
    events the two round-trips dispatch. *)
Theorem uninit_twice_faults (evs1 evs2 : list wl_event) (st : state)
    (wp : mpv_opengl_cb_wayland_params) (s : handle) :
  wayland_params (st_priv st) = Some wp →
  video_surface (st_priv st) = Some s → is_Some (st_surfaces st !! s) →
  (∀ ss, video_subsurface (st_priv st) = Some ss → ss ∈ st_subsurfaces st) →
  heap_ok st →
  ∃ st1,
    uninit evs1 st = Ok tt st1 ∧
    video_surface (st_priv st1) = Some s ∧
    st_surfaces st1 !! s = None ∧
    uninit evs2 st1 = Fault DeadProxy.
Proof.
  intros Hwp Hs Hlive Hss Hheap.
  destruct (uninit_spec evs1 st wp Hwp Hheap) as (st1&d&Hrun&Hsf&_); [|done|].
  { intros s' Hs'. rewrite Hs in Hs'. by injection Hs' as <-. }
  destruct (uninit_stable _ _ _ Hrun) as (_&Hs1&_).
  rewrite Hs in Hsf, Hs1.
  exists st1. split; [done|]. split; [done|].
  split; [by rewrite Hsf, lookup_delete_eq|].
  unfold uninit, bind, get_priv. rewrite Hs1.
  unfold wl_surface_destroy, bind, get. by rewrite Hsf, lookup_delete_eq.
Qed.

Lemma uninit_twice_faults_witness :
  ∃ st1,
    uninit [Ev_buffer_release 17] st_playing = Ok tt st1 ∧
    video_surface (st_priv st1) = Some 13%nat ∧
    st_surfaces st1 !! 13%nat = None ∧
    uninit [] st1 = Fault DeadProxy.
Proof.
  apply (uninit_twice_faults [Ev_buffer_release 17] [] st_playing host_params 13%nat);
    [reflexivity | reflexivity | by eexists | | exact heap_ok_playing].
  intros ss Hss. vm_compute in Hss. injection Hss as <-.
    refine (bool_decide_unpack _ _); vm_compute; exact I.
Defined.

(** Events other than a release leave the heap of a quiescent state as it
    is. *)
Lemma dispatch_all_no_release evs : ∀ st,
  quiescent st = true → no_release evs = true →
  ∃ st', dispatch_all evs st = Ok tt st' ∧
    st_buffers st' = st_buffers st ∧ st_frames st' = st_frames st ∧
    st_requests st' = st_requests st ∧ st_pending st' = st_pending st.
Proof.
  induction evs as [|ev evs IH]; intros st Hq Hnr; [by exists st|].
  cbn in Hnr. apply andb_true_iff in Hnr as [Hev Hnr].
  assert (Hstep : ∃ st1, dispatch ev st = Ok tt st1 ∧
    st_buffers st1 = st_buffers st ∧ st_frames st1 = st_frames st ∧
    st_requests st1 = st_requests st ∧ st_pending st1 = st_pending st).
  { destruct ev as [name interface ver|name|fmt| | |b]; try done.
    - unfold dispatch, bind, get. destruct (registry (st_priv st)) as [reg|].
      + destruct (registry_handle_add_spec reg name interface ver st)
          as (st1&Hrun&_&?&?&?&?).
        by exists st1.
      + by exists st.
    - exists st. split; [|done]. unfold dispatch, bind, get.
      by destruct (registry (st_priv st)).
    - by exists st.
    - exists st. split; [|done]. by apply (quiescent_drops_reply st true).
    - exists st. split; [|done]. by apply (quiescent_drops_reply st false). }
  destruct Hstep as (st1&Hrun1&Hb1&Hf1&Hr1&Hp1).
  destruct (IH st1) as (st'&Hrun&Hb&Hf&Hr&Hp); [|done|].
  { unfold quiescent in *. by rewrite Hr1, Hp1. }
  exists st'. split; [cbn [dispatch_all]; by step Hrun1|].
  repeat split; congruence.
Qed.

(** X10: [uninit] reclaims no buffer by itself.  Unless the compositor
    releases them during the round-trip, every [wl_buffer], every frame
    record and every parameters object is left as it was. *)
Theorem uninit_keeps_buffers (evs : list wl_event) (st : state)
    (wp : mpv_opengl_cb_wayland_params) :
  wayland_params (st_priv st) = Some wp →
  (∀ s, video_surface (st_priv st) = Some s → is_Some (st_surfaces st !! s)) →
  (∀ ss, video_subsurface (st_priv st) = Some ss → ss ∈ st_subsurfaces st) →
  quiescent st = true →
  no_release evs = true →
  ∃ st',
    uninit evs st = Ok tt st' ∧
    st_buffers st' = st_buffers st ∧
    st_frames st' = st_frames st ∧
    st_requests st' = st_requests st.
Proof.
  intros Hwp Hs Hss Hq Hnr.
  assert (H1 : ∃ st1,
    match video_surface (st_priv st) with
    | Some s => wl_surface_destroy s
    | None => ret tt
    end st = Ok tt st1 ∧
    st_priv st1 = st_priv st ∧ st_subsurfaces st1 = st_subsurfaces st ∧
    st_buffers st1 = st_buffers st ∧ st_frames st1 = st_frames st ∧
    st_requests st1 = st_requests st ∧ st_pending st1 = st_pending st).
  { destruct (video_surface (st_priv st)) as [s|]; [|by exists st].
    destruct (Hs s eq_refl) as [sst Hsst]. eexists. split.
    { unfold wl_surface_destroy, bind, get. by rewrite Hsst. }
    done. }
  destruct H1 as (st1&Hrun1&Hp1&Hssf1&Hb1&Hf1&Hr1&Hpe1).
  assert (H2 : ∃ st2,
    match video_subsurface (st_priv st) with
    | Some ss => wl_subsurface_destroy ss
    | None => ret tt
    end st1 = Ok tt st2 ∧
    st_buffers st2 = st_buffers st ∧ st_frames st2 = st_frames st ∧
    st_requests st2 = st_requests st ∧ st_pending st2 = st_pending st).
  { destruct (video_subsurface (st_priv st)) as [ss|]; [|by exists st1].
    eexists. split.
    { unfold wl_subsurface_destroy, bind, get.
      by rewrite bool_decide_eq_true_2 by (rewrite Hssf1; by apply Hss). }
    done. }
  destruct H2 as (st2&Hrun2&Hb2&Hf2&Hr2&Hpe2).
  destruct (dispatch_all_no_release evs
              (set_log (st_log st2 ++ [Rq_display_sync (display wp)]) st2))
    as (st'&Hrun&Hb&Hf&Hr&_); [|done|].
  { unfold quiescent in *. cbn. by rewrite Hr2, Hpe2. }
  exists st'. split.
  { unfold uninit. step_refl. step Hrun1. step Hrun2. rewrite Hwp. step_refl.
    exact Hrun. }
  cbn in Hb, Hf, Hr. repeat split; congruence.
Qed.

Lemma uninit_keeps_buffers_witness :
  ∃ st',
    uninit [Ev_dmabuf_format 875713112] st_playing = Ok tt st' ∧
    st_buffers st' = st_buffers st_playing ∧
    st_frames st' = st_frames st_playing ∧
    st_requests st' = st_requests st_playing.
Proof.
  apply (uninit_keeps_buffers [Ev_dmabuf_format 875713112] st_playing host_params);
    [reflexivity | | | reflexivity | reflexivity].
  - intros s Hs. vm_compute in Hs. injection Hs as <-. by eexists.
  - intros ss Hss. vm_compute in Hss. injection Hss as <-.
    refine (bool_decide_unpack _ _); vm_compute; exact I.
Defined.

(** ** Release of a buffer *)

(** X11: [buffer_release] on a buffer of a consistent heap, called with
    the buffer's listener data, returns: the frame record it reads is
    allocated and its image field is set.  It destroys the buffer proxy (one
    destroy request) and frees the frame record; every other part of the
    state is as before.  No buffer that stays has the freed record as
    listener data, and the heap stays consistent. *)
Theorem buffer_release_frees (st : state) (b : handle) (bs : buffer_state)
    (a : handle) :
  heap_ok st →
  st_buffers st !! b = Some bs → bs_listener bs = Some a →
  ∃ st' f img,
    buffer_release (Some a) b st = Ok tt st' ∧
    st_frames st !! a = Some f ∧ image f = Val img ∧
    st_buffers st' = delete b (st_buffers st) ∧
    st_frames st' = delete a (st_frames st) ∧
    st_log st' = st_log st ++ [Rq_buffer_destroy b] ∧
    st_priv st' = st_priv st ∧
    st_surfaces st' = st_surfaces st ∧
    st_subsurfaces st' = st_subsurfaces st ∧
    st_requests st' = st_requests st ∧
    st_pending st' = st_pending st ∧
    st_next st' = st_next st ∧
    (∀ b' bs', st_buffers st' !! b' = Some bs' → bs_listener bs' ≠ Some a) ∧
    heap_ok st'.
Proof.
  intros [Hinv Hq] Hb Ha.
  destruct (heap_inv_listener _ _ _ _ _ Hinv Hb Ha) as [?|(f&img&Hf&Himg)]; [done|].
  set (st' := set_frames (delete a (st_frames st))
                (set_log (st_log st ++ [Rq_buffer_destroy b])
                   (set_buffers (delete b (st_buffers st)) st))).
  assert (Hrun : buffer_release (Some a) b st = Ok tt st').
  { unfold buffer_release, bind, load_frame, bind, get, ret. rewrite Hf, Himg. cbn.
    unfold wl_buffer_destroy, bind, get. rewrite Hb. cbn.
    unfold free, bind, get. cbn. by rewrite Hf. }
  exists st', f, img. do 3 (split; [done|]). do 9 (split; [done|]).
  split.
  { intros b' bs' Hb' Ha'. cbn in Hb'. apply lookup_delete_Some in Hb' as [Hne Hb'].
    apply Hne. by eapply (heap_inv_inj None st b b' bs bs' a). }
  destruct (dispatch_release_idle None 0%nat b st Hinv) as (st''&Hrun'&Hinv'&_&_&Hr&Hp&_);
    [by intros ? [=] | by left |].
  assert (st'' = st') as ->.
  { unfold dispatch, bind, get in Hrun'. rewrite Hb, Ha, Hrun in Hrun'.
    by injection Hrun'. }
  split; [done|]. unfold quiescent in *. by rewrite Hr, Hp.
Qed.

Lemma buffer_release_frees_witness :
  ∃ st' f img,
    buffer_release (Some 16%nat) 17%nat st_playing = Ok tt st' ∧
    st_frames st_playing !! 16%nat = Some f ∧ image f = Val img ∧
    st_buffers st' = delete 17%nat (st_buffers st_playing) ∧
    st_frames st' = delete 16%nat (st_frames st_playing) ∧
    st_log st' = st_log st_playing ++ [Rq_buffer_destroy 17] ∧
    st_priv st' = st_priv st_playing ∧
    st_surfaces st' = st_surfaces st_playing ∧
    st_subsurfaces st' = st_subsurfaces st_playing ∧
    st_requests st' = st_requests st_playing ∧
    st_pending st' = st_pending st_playing ∧
    st_next st' = st_next st_playing ∧
    (∀ b' bs', st_buffers st' !! b' = Some bs' → bs_listener bs' ≠ Some 16%nat) ∧
    heap_ok st'.
Proof.
  apply (buffer_release_frees st_playing 17%nat
           {| bs_origin := 15%nat; bs_listener := Some 16%nat |} 16%nat);
    [exact heap_ok_playing | reflexivity | reflexivity].
Defined.

(** ** Hand-offs that do not complete *)

(** X20: a frame whose descriptor declares no layer (or a negative
    count) is accepted without any effect: the call returns 0, sends
    nothing, and whatever was attached stays attached. *)
Theorem overlay_frame_no_layers (img : mp_image) (desc : AVDRMFrameDescriptor)
    (src dst : option mp_rect) (newframe : bool) (env : Z → layer_env)
    (st : state) :
  planes_0 img = Some desc →
  nb_layers desc ≤ 0 →
  overlay_frame (Some img) src dst newframe env st = Ok 0 st.
Proof.
  intros Hdesc Hn. unfold overlay_frame. rewrite Hdesc.
  by rewrite seqZ_nil by lia.
Qed.

Lemma overlay_frame_no_layers_witness :
  overlay_frame (Some {| planes_0 := Some desc_0layers |}) (Some crop_1080p)
    (Some dst_window) true (fun _ => reply_created) st_playing = Ok 0 st_playing.
Proof.
  apply (overlay_frame_no_layers {| planes_0 := Some desc_0layers |} desc_0layers
           (Some crop_1080p) (Some dst_window) true (fun _ => reply_created) st_playing);
    [reflexivity | cbn; lia].
Defined.

(** A layer without reply: [malloc] succeeded and no event answers. *)
Lemma outcome_no_reply e :
  outcome e = NoReply → malloc_ok e = true ∧ first_reply (events e) = None.
Proof.
  unfold outcome. destruct (malloc_ok e); [|done].
  by destruct (first_reply (events e)) as [[]|].
Qed.

(** The iteration for a layer up to its round-trip: the parameters object
    is filled, the frame record allocated and the create request sent. *)
Lemma layer_submit desc r env st l layer wp dm :
  wayland_params (st_priv st) = Some wp →
  dmabuf (st_priv st) = Some dm →
  layer_ok desc l = true →
  layers desc !! Z.to_nat l = Some layer →
  malloc_ok (env l) = true →
  ∃ d, List.filter visible d = [] ∧
    ∀ k : option handle → handle → M Z,
    (let* layer := array_at (layers desc) l in
     let* p := get_priv in
     let* params := zwp_linux_dmabuf_v1_create_params (dmabuf p) in
     planes_loop desc layer params 0 (seqZ 0 AV_DRM_MAX_PLANES) ;;;
     let* frame := malloc (malloc_ok (env l)) in
     match frame with
     | None => overlay_fail frame (-1)
     | Some fr =>
         zwp_linux_buffer_params_v1_add_listener params fr ;;;
         let* r := deref (Some r) in
         zwp_linux_buffer_params_v1_create params
           (int_sub (x1 r) (x0 r)) (int_sub (y1 r) (y0 r)) (format layer) 0 ;;;
         let* p := get_priv in
         let* wp := deref (wayland_params p) in
         wl_display_roundtrip (display wp) (events (env l)) ;;;
         k frame fr
     end) st =
    (wl_display_roundtrip (display wp) (events (env l)) ;;;
     k (Some (S (st_next st))) (S (st_next st)))
      (set_log ((st_log st ++ d) ++
                [Rq_params_create (st_next st) (int_sub (x1 r) (x0 r))
                   (int_sub (y1 r) (y0 r)) (format layer) 0])
         (set_requests
            (<[st_next st := {| br_planes := layer_entries desc layer;
                                br_created := Some (create_args_of r layer);
                                br_alive := true |}]> (st_requests st))
            (set_pending (Some (st_next st, S (st_next st)))
               (set_frames (<[S (st_next st) := {| buffer := Uninit; image := Uninit |}]>
                              (st_frames st))
                  (set_next (S (S (st_next st))) st))))).
Proof.
  intros Hwp Hdm Hl Hlayer Hmalloc.
  destruct (layer_begin desc st l layer dm Hdm Hl Hlayer) as (d&Hvis&Hbegin).
  exists d. split; [done|]. intros k.
  set (P := st_next st). set (fr := S (st_next st)).
  rewrite Hbegin. cbv beta. rewrite Hmalloc.
  match goal with |- bind (malloc true) _ ?s = _ => set (st3 := s) end.
  assert (Hmal : malloc true st3 = Ok (Some fr)
              (set_frames (<[fr := {| buffer := Uninit; image := Uninit |}]> (st_frames st3))
                 (set_next (S (st_next st3)) st3))).
  { reflexivity. }
  step Hmal.
  match goal with |- bind (zwp_linux_buffer_params_v1_add_listener _ _) _ ?s = _ =>
    assert (Hal : zwp_linux_buffer_params_v1_add_listener P fr s =
                  Ok tt (set_pending (Some (P, fr)) s))
  end.
  { unfold zwp_linux_buffer_params_v1_add_listener, bind, live_request, bind, get.
    cbn. by rewrite lookup_insert_eq. }
  step Hal. step_refl.
  match goal with
  |- bind (zwp_linux_buffer_params_v1_create _ ?w ?h ?f ?g) _ ?s = _ ?s6 =>
    assert (Hcr : zwp_linux_buffer_params_v1_create P w h f g s = Ok tt s6)
  end.
  { unfold zwp_linux_buffer_params_v1_create, bind, live_request, bind, get.
    cbn. rewrite lookup_insert_eq. cbn.
    by rewrite insert_insert_eq. }
  step Hcr. step_refl. norm_state. rewrite Hwp. step_refl. reflexivity.
Qed.

(** The state [layer_submit] leaves satisfies what the round-trip of the
    hand-off assumes. *)
Lemma layer_submitted_inv st (P := st_next st) (fr := S (st_next st)) rq log :
  heap_ok st → br_alive rq = true →
  let st6 := set_log log
               (set_requests (<[P := rq]> (st_requests st))
                  (set_pending (Some (P, fr))
                     (set_frames (<[fr := {| buffer := Uninit; image := Uninit |}]>
                                    (st_frames st))
                        (set_next (S (S (st_next st))) st)))) in
  heap_inv (Some fr) st6 ∧
  (∀ b bs, st_buffers st6 !! b = Some bs → bs_listener bs ≠ Some fr) ∧
  (frames_owned None st → frames_owned (Some fr) st6).
Proof.
  intros [(H1&H2&H3&H4&H5) Hq] Hal st6.
  assert (Hnone : ∀ b bs, st_buffers st !! b = Some bs → bs_listener bs ≠ Some fr).
  { intros b bs Hb Ha.
    destruct (heap_inv_listener None st b bs fr) as [?|(f&?&Hf&_)]; try done.
    specialize (H2 fr f Hf). cbn in H2. unfold fr in H2. lia. }
  split; [|split; [done|]].
  - unfold heap_inv, st6. cbn. repeat split.
    + eapply keys_below_mono; [done|lia].
    + apply keys_below_insert; [|unfold fr; lia]. eapply keys_below_mono; [done|lia].
    + apply keys_below_insert; [|unfold P; lia]. eapply keys_below_mono; [done|lia].
    + intros b bs Hb. specialize (H4 b bs Hb). cbn in H4.
      unfold listener_ready in *. destruct (bs_listener bs) as [a|] eqn:Ha; [|done].
      cbn in H4. apply orb_true_iff. right. unfold frame_ready in *. cbn.
      rewrite lookup_insert_ne; [done|]. intros <-. by apply (Hnone b bs).
    + done.
  - intros Hown a f Ha. unfold st6 in Ha. cbn in Ha.
    apply lookup_insert_Some in Ha as [[<- _]|[_ Ha]]; [by left|].
    destruct (Hown a f Ha) as [?|?]; [done|by right].
Qed.

(** The iteration for a layer whose round-trip brings no reply: the
    listener never ran, and [frame->buffer] is read as [malloc] left it. *)
Lemma layer_step_no_reply img desc r env n0 st l layer wp dm ls' :
  heap_ok st → (n0 ≤ st_next st)%nat →
  wayland_params (st_priv st) = Some wp →
  dmabuf (st_priv st) = Some dm →
  layer_ok desc l = true →
  layers desc !! Z.to_nat l = Some layer →
  outcome (env l) = NoReply →
  releases_below n0 (events (env l)) = true →
  layers_loop img desc (Some r) 0 0 env (l :: ls') st = Fault Uninitialised.
Proof.
  intros Hheap Hn0 Hwp Hdm Hl Hlayer Hout Hrel.
  apply outcome_no_reply in Hout as [Hmalloc Hreply].
  destruct (layer_submit desc r env st l layer wp dm Hwp Hdm Hl Hlayer Hmalloc)
    as (d&_&Hsubmit).
  cbn [layers_loop]. rewrite Hsubmit. clear Hsubmit.
  set (P := st_next st). set (fr := S P).
  set (rq := {| br_planes := layer_entries desc layer;
                br_created := Some (create_args_of r layer); br_alive := true |}).
  match goal with |- bind _ _ ?s = _ => set (st6 := s) end.
  destruct (layer_submitted_inv st rq (st_log st6) Hheap eq_refl) as (Hinv6&Hnone6&_).
  change (heap_inv (Some fr) st6) in Hinv6.
  change (∀ b bs, st_buffers st6 !! b = Some bs → bs_listener bs ≠ Some fr) in Hnone6.
  set (st0 := set_log (st_log st6 ++ [Rq_display_sync (display wp)]) st6).
  destruct (dispatch_all_idle (Some fr) n0 (events (env l)) st0)
    as (st7&Hrun7&_&_&_&_&_&_&_&Hf7); [| | by right | by right |].
  { by apply (heap_inv_ext _ st6). }
  { intros ? [= <-]. unfold st0, st6; cbn. split; [by rewrite lookup_insert_eq|].
    intros b bs Hb Hls. by destruct (Hnone6 b bs Hb). }
  specialize (Hf7 fr eq_refl). unfold st0, st6 in Hf7. cbn in Hf7.
  rewrite lookup_insert_eq in Hf7.
  assert (Hrt : wl_display_roundtrip (display wp) (events (env l)) st6 = Ok tt st7).
  { unfold wl_display_roundtrip, bind, send, modify. exact Hrun7. }
  step Hrt.
  unfold bind, load_frame, bind, get. by rewrite Hf7.
Qed.

(** The hand-off up to layer [k], every layer before it attached. *)
Lemma overlay_frame_prefix (img : mp_image) (desc : AVDRMFrameDescriptor)
    (r : mp_rect) (dst : option mp_rect) (newframe : bool) (env : Z → layer_env)
    (st : state) (k : Z) :
  planes_0 img = Some desc →
  bridge_ready st = true → heap_ok st →
  0 ≤ k < nb_layers desc →
  (∀ l, 0 ≤ l < k →
        layer_ok desc l = true ∧ outcome (env l) = Attached ∧
        releases_earlier img desc (Some r) env st l = true) →
  ∃ wp s st1 steps d,
    wayland_params (st_priv st) = Some wp ∧
    video_surface (st_priv st) = Some s ∧
    overlay_frame (Some img) (Some r) dst newframe env st =
      layers_loop img desc (Some r) 0 0 env
        (k :: seqZ (k + 1) (nb_layers desc - k - 1)) st1 ∧
    loop_inv (st_next st) wp s st1 ∧
    after_layers img desc (Some r) env st k = Some st1 ∧
    length steps = Z.to_nat k ∧
    st_surfaces st1 = attached_last s steps (st_surfaces st) ∧
    st_subsurfaces st1 = st_subsurfaces st ∧
    (∀ Q, (Q < st_next st)%nat → st_requests st1 !! Q = st_requests st !! Q) ∧
    st_log st1 = st_log st ++ d ∧
    List.filter visible d = flat_map (layer_trace (display wp) s) steps.
Proof.
  intros Hdesc Hready Hheap Hk Hbefore.
  destruct (ready_loop_inv st Hready Hheap) as (wp&s&Hwp&Hs&Hinv).
  destruct (layers_loop_attached img desc r env (st_next st) wp s (seqZ 0 k) st Hinv)
    as (st1&steps&Hrun&Hinv1&_&Hssf&_&Hlen&Hsf&_&Hreq&_&d&Hd&Hv).
  { apply Forall_seqZ. intros l Hl. destruct (Hbefore l) as (?&?&_); [lia|done]. }
  { apply releases_earlier_in_order. intros l Hl. by apply Hbefore. }
  assert (Hafter : after_layers img desc (Some r) env st k = Some st1).
  { apply after_layers_run. by apply (layers_loop_attached_end img desc r env). }
  exists wp, s, st1, steps, d. do 2 (split; [done|]). split.
  { unfold overlay_frame. rewrite Hdesc.
    replace (nb_layers desc) with (k + (1 + (nb_layers desc - k - 1))) at 1 by lia.
    rewrite seqZ_app by lia. rewrite (seqZ_cons (0 + k)) by lia. rewrite Hrun.
    replace (Z.succ (0 + k)) with (k + 1) by lia.
    replace (Z.pred (1 + (nb_layers desc - k - 1))) with (nb_layers desc - k - 1) by lia.
    by replace (0 + k) with k by lia. }
  rewrite length_seqZ in Hlen. by repeat (split; [done|]).
Qed.

(** X18: when [malloc] fails for layer [k], the hand-off returns -1
    without a round-trip for that layer.  The layers before it stay
    attached (the last of them current), and the parameters object already
    filled for layer [k] is neither submitted nor destroyed. *)
Theorem overlay_frame_out_of_memory (img : mp_image) (desc : AVDRMFrameDescriptor)
    (r : mp_rect) (dst : option mp_rect) (newframe : bool) (env : Z → layer_env)
    (st : state) (k : Z) :
  planes_0 img = Some desc →
  bridge_ready st = true → heap_ok st →
  desc_ok desc = true →
  0 ≤ k < nb_layers desc →
  (∀ l, 0 ≤ l < k → outcome (env l) = Attached ∧
                    releases_earlier img desc (Some r) env st l = true) →
  outcome (env k) = OutOfMemory →
  ∃ st' wp s steps d Q layer,
    overlay_frame (Some img) (Some r) dst newframe env st = Ok (-1) st' ∧
    wayland_params (st_priv st) = Some wp ∧
    video_surface (st_priv st) = Some s ∧
    length steps = Z.to_nat k ∧
    st_surfaces st' = attached_last s steps (st_surfaces st) ∧
    st_log st' = st_log st ++ d ∧
    List.filter visible d = flat_map (layer_trace (display wp) s) steps ∧
    layers desc !! Z.to_nat k = Some layer ∧
    created_by st st' Q {| br_planes := layer_entries desc layer;
                           br_created := None; br_alive := true |} ∧
    heap_ok st'.
Proof.
  intros Hdesc Hready Hheap Hok Hk Hbefore Hoom.
  destruct (overlay_frame_prefix img desc r dst newframe env st k Hdesc Hready Hheap Hk)
    as (wp&s&st1&steps&d&Hwp&Hs&Hrun&Hinv1&_&Hlen&Hsf&_&Hreq&Hd&Hv).
  { intros l Hl. destruct (Hbefore l Hl). split; [apply desc_ok_layers; [done|lia]|done]. }
  destruct Hinv1 as (Hheap1&Hn1&Hwp1&[dm Hdm1]&Hs1&[ss Hss1]).
  assert (Hlk : layer_ok desc k = true) by (by apply desc_ok_layers).
  destruct (layer_ok_slots desc k Hlk) as (_&layer&Hlayer&_).
  destruct (layer_step_oom img desc r env (st_next st) st1 k layer wp dm s ss
              Hheap1 Hn1 Hwp1 Hdm1 Hs1 Hss1 Hlk Hlayer
              (seqZ (k + 1) (nb_layers desc - k - 1)) Hoom)
    as (st'&Hrun'&Hheap'&_&Hsf'&_&_&_&Hr'&d'&Hd'&Hv').
  exists st', wp, s, steps, (d ++ d'), (st_next st1), layer.
  split; [by rewrite Hrun|]. do 3 (split; [done|]).
  split; [by rewrite Hsf'|].
  split; [by rewrite Hd', Hd, app_assoc|].
  split; [by rewrite List.filter_app, Hv, Hv', app_nil_r|].
  split; [done|]. split; [|done].
  split.
  - destruct Hheap as [(_&_&H3&_) _]. apply (keys_below_fresh _ _ _ H3). lia.
  - rewrite Hr'. by rewrite lookup_insert_eq.
Qed.

Lemma overlay_frame_out_of_memory_witness :
  ∃ st' wp s steps d Q layer,
    overlay_frame (Some {| planes_0 := Some desc_2layers |}) (Some crop_1080p)
      (Some dst_window) true env_second_oom st_ready = Ok (-1) st' ∧
    wayland_params (st_priv st_ready) = Some wp ∧
    video_surface (st_priv st_ready) = Some s ∧
    length steps = Z.to_nat 1 ∧
    st_surfaces st' = attached_last s steps (st_surfaces st_ready) ∧
    st_log st' = st_log st_ready ++ d ∧
    List.filter visible d = flat_map (layer_trace (display wp) s) steps ∧
    layers desc_2layers !! Z.to_nat 1 = Some layer ∧
    created_by st_ready st' Q {| br_planes := layer_entries desc_2layers layer;
                                 br_created := None; br_alive := true |} ∧
    heap_ok st'.
Proof.
  apply (overlay_frame_out_of_memory {| planes_0 := Some desc_2layers |} desc_2layers
           crop_1080p (Some dst_window) true env_second_oom st_ready 1);
    [reflexivity | reflexivity | exact heap_ok_ready | reflexivity | done | | reflexivity].
  intros l Hl. by replace l with 0 by lia.
Defined.

(** X19: when the round-trip of layer [k] brings neither reply, the
    listener never wrote [frame->buffer], and the test that follows reads
    the field as [malloc] left it: the hand-off has no defined result. *)
Theorem overlay_frame_no_reply (img : mp_image) (desc : AVDRMFrameDescriptor)
    (r : mp_rect) (dst : option mp_rect) (newframe : bool) (env : Z → layer_env)
    (st : state) (k : Z) :
  planes_0 img = Some desc →
  bridge_ready st = true → heap_ok st →
  desc_ok desc = true →
  0 ≤ k < nb_layers desc →
  (∀ l, 0 ≤ l < k → outcome (env l) = Attached) →
  outcome (env k) = NoReply →
  (∀ l, 0 ≤ l ≤ k → releases_earlier img desc (Some r) env st l = true) →
  overlay_frame (Some img) (Some r) dst newframe env st = Fault Uninitialised.
Proof.
  intros Hdesc Hready Hheap Hok Hk Hbefore Hnr Hrel.
  destruct (overlay_frame_prefix img desc r dst newframe env st k Hdesc Hready Hheap Hk)
    as (wp&s&st1&steps&d&Hwp&Hs&Hrun&Hinv1&Hafter&_).
  { intros l Hl. split; [apply desc_ok_layers; [done|lia]|].
    split; [by apply Hbefore | apply Hrel; lia]. }
  destruct Hinv1 as (Hheap1&Hn1&Hwp1&[dm Hdm1]&Hs1&[ss Hss1]).
  assert (Hlk : layer_ok desc k = true) by (by apply desc_ok_layers).
  destruct (layer_ok_slots desc k Hlk) as (_&layer&Hlayer&_).
  rewrite Hrun.
  apply (layer_step_no_reply img desc r env (st_next st1) st1 k layer wp dm); try done.
  specialize (Hrel k). unfold releases_earlier in Hrel. rewrite Hafter in Hrel.
  apply Hrel. lia.
Qed.

Lemma overlay_frame_no_reply_witness :
  overlay_frame (Some {| planes_0 := Some desc_2layers |}) (Some crop_1080p)
    (Some dst_window) true env_second_silent st_ready = Fault Uninitialised.
Proof.
  apply (overlay_frame_no_reply {| planes_0 := Some desc_2layers |} desc_2layers
           crop_1080p (Some dst_window) true env_second_silent st_ready 1);
    [reflexivity | reflexivity | exact heap_ok_ready | reflexivity | done | | reflexivity |].
  - intros l Hl. by replace l with 0 by lia.
  - intros l Hl. assert (l = 0 ∨ l = 1) as [-> | ->] by lia; reflexivity.
Defined.

(** ** The bounds of the descriptor's arrays *)

(** X21: [nb_layers] is not checked against the size of [layers].
    With more than AV_DRM_MAX_PLANES layers declared, the loop attaches the
    four layers of the array and then reads past its end. *)
Theorem overlay_frame_too_many_layers (img : mp_image) (desc : AVDRMFrameDescriptor)
    (r : mp_rect) (dst : option mp_rect) (newframe : bool) (env : Z → layer_env)
    (st : state) :
  planes_0 img = Some desc →
  bridge_ready st = true → heap_ok st →
  AV_DRM_MAX_PLANES < nb_layers desc →
  (∀ l, 0 ≤ l < AV_DRM_MAX_PLANES →
        layer_ok desc l = true ∧ outcome (env l) = Attached ∧
        releases_earlier img desc (Some r) env st l = true) →
  overlay_frame (Some img) (Some r) dst newframe env st = Fault OutOfBounds.
Proof.
  intros Hdesc Hready Hheap Hn Hlayers.
  destruct (overlay_frame_prefix img desc r dst newframe env st AV_DRM_MAX_PLANES
              Hdesc Hready Hheap) as (wp&s&st1&steps&d&_&_&Hrun&_);
    [unfold AV_DRM_MAX_PLANES in *; lia | done |].
  rewrite Hrun. reflexivity.
Qed.

Lemma overlay_frame_too_many_layers_witness :
  overlay_frame (Some {| planes_0 := Some desc_5layers |}) (Some crop_1080p)
    (Some dst_window) true (fun _ => reply_created) st_ready = Fault OutOfBounds.
Proof.
  apply (overlay_frame_too_many_layers {| planes_0 := Some desc_5layers |} desc_5layers
           crop_1080p (Some dst_window) true (fun _ => reply_created) st_ready);
    [reflexivity | reflexivity | exact heap_ok_ready | reflexivity |].
  intros l Hl.
  assert (l = 0 ∨ l = 1 ∨ l = 2 ∨ l = 3) as [-> | [-> | [-> | ->]]]
    by (unfold AV_DRM_MAX_PLANES in Hl; lia);
    repeat split; reflexivity.
Defined.

(** The plane loop over a range of slots that is split in two. *)
Lemma planes_loop_app desc layer P modifier slots1 slots2 st :
  planes_loop desc layer P modifier (slots1 ++ slots2) st =
  bind (planes_loop desc layer P modifier slots1)
       (fun _ => planes_loop desc layer P modifier slots2) st.
Proof.
  revert st. induction slots1 as [|plane slots1 IH]; intros st; [done|].
  cbn [planes_loop app]. unfold bind.
  destruct (plane_body desc layer P modifier plane st) as [[] st1|]; [|done]. apply IH.
Qed.

(** X22: the object index of every plane slot is used before the skip
    rule is applied.  An index outside [objects] makes the hand-off read out
    of bounds, whatever the slot's pitch is and whether or not the slot lies
    within the layer's declared plane count. *)
Theorem overlay_frame_bad_object_index (img : mp_image) (desc : AVDRMFrameDescriptor)
    (src dst : option mp_rect) (newframe : bool) (env : Z → layer_env)
    (st : state) (dm : handle) (layer : AVDRMLayerDescriptor) (plane : Z)
    (pl : AVDRMPlaneDescriptor) :
  planes_0 img = Some desc →
  dmabuf (st_priv st) = Some dm →
  0 < nb_layers desc → layers desc !! 0%nat = Some layer →
  0 ≤ plane < AV_DRM_MAX_PLANES →
  planes layer !! Z.to_nat plane = Some pl →
  ¬ (0 ≤ object_index pl < AV_DRM_MAX_PLANES) →
  (∀ p, 0 ≤ p < plane → slot_ok desc layer p = true) →
  overlay_frame (Some img) src dst newframe env st = Fault OutOfBounds.
Proof.
  intros Hdesc Hdm Hn Hlayer Hplane Hpl Hidx Hbefore.
  unfold overlay_frame. rewrite Hdesc. rewrite seqZ_cons by lia. cbn [layers_loop].
  step (array_at_ok (layers desc) 0 layer st
          ltac:(unfold AV_DRM_MAX_PLANES; lia) Hlayer).
  step_refl. rewrite Hdm.
  set (st2 := set_log (st_log st ++ [Rq_dmabuf_create_params dm (st_next st)])
         (set_requests
            (<[st_next st := {| br_planes := []; br_created := None; br_alive := true |}]>
               (st_requests st))
            (set_next (S (st_next st)) st))).
  assert (Hcp : zwp_linux_dmabuf_v1_create_params (Some dm) st = Ok (st_next st) st2)
    by reflexivity.
  step Hcp.
  replace AV_DRM_MAX_PLANES with (plane + (1 + (AV_DRM_MAX_PLANES - plane - 1))) at 1
    by lia.
  rewrite seqZ_app by lia. rewrite (seqZ_cons (0 + plane)) by lia.
  destruct (planes_loop_spec desc layer (st_next st) (seqZ 0 plane) st2
              {| br_planes := []; br_created := None; br_alive := true |})
    as (d&Hrun&_).
  { apply Forall_seqZ. intros p Hp. split; [lia|]. apply Hbefore. lia. }
  { unfold st2. cbn. by rewrite lookup_insert_eq. }
  { done. }
  unfold bind at 1. rewrite planes_loop_app. rewrite (bind_Ok _ _ _ _ _ Hrun).
  cbn [planes_loop]. unfold bind at 1. unfold plane_body at 1.
  replace (0 + plane) with plane by lia.
  rewrite (bind_Ok _ _ _ _ _ (array_at_ok (planes layer) plane pl _ Hplane Hpl)).
  unfold bind at 1. unfold array_at at 1.
  by rewrite (bool_decide_eq_false_2 _ Hidx).
Qed.

Lemma overlay_frame_bad_object_index_witness :
  overlay_frame (Some {| planes_0 := Some desc_stray |}) (Some crop_1080p)
    (Some dst_window) true (fun _ => reply_created) st_ready = Fault OutOfBounds.
Proof.
  apply (overlay_frame_bad_object_index {| planes_0 := Some desc_stray |} desc_stray
           (Some crop_1080p) (Some dst_window) true (fun _ => reply_created) st_ready
           12%nat layer_stray 1 {| object_index := 7; offset := 0; pitch := 0 |});
    [reflexivity | reflexivity | reflexivity | reflexivity
    | unfold AV_DRM_MAX_PLANES; lia | reflexivity
    | unfold AV_DRM_MAX_PLANES; cbn; lia |].
  intros p Hp. by replace p with 0 by lia.
Defined.

(** ** The buffer requests, once more *)

(** The plane indices of the selected slots, in the order of the slots. *)
Lemma omap_idx_sublist desc layer slots :
  (pe_plane_idx <$> omap (selected_plane desc layer) slots) `sublist_of` slots.
Proof.
  induction slots as [|plane slots IH]; [done|]. cbn.
  destruct (selected_plane desc layer plane) as [e|] eqn:Hsel.
  - cbn. destruct (selected_plane_idx _ _ _ _ Hsel) as (->&_). by constructor.
  - by constructor.
Qed.

(** X17: the plane entries of a request follow the slot order and no
    slot is added twice: their plane indices are a sublist of 0, 1, 2, 3. *)
Theorem overlay_frame_plane_order (img : mp_image) (desc : AVDRMFrameDescriptor)
    (r : mp_rect) (dst : option mp_rect) (newframe : bool) (env : Z → layer_env)
    (st : state) :
  planes_0 img = Some desc →
  bridge_ready st = true → heap_ok st →
  desc_ok desc = true →
  (∀ l, 0 ≤ l < nb_layers desc →
        outcome (env l) ≠ NoReply ∧
        releases_earlier img desc (Some r) env st l = true) →
  ∃ ret st',
    overlay_frame (Some img) (Some r) dst newframe env st = Ok ret st' ∧
    ∀ Q rq, created_by st st' Q rq →
      (pe_plane_idx <$> br_planes rq) `sublist_of` seqZ 0 AV_DRM_MAX_PLANES.
Proof.
  intros Hdesc Hready Hheap Hok Henv.
  destruct (overlay_frame_requests img desc r dst newframe env st
              Hdesc Hready Hheap Hok Henv) as (ret&st'&Hrun&Hreq).
  exists ret, st'. split; [done|]. intros Q rq [HQ Hrq].
  destruct (Hreq Q rq HQ Hrq) as (l&layer&_&_&_&->). cbn.
  apply omap_idx_sublist.
Qed.

Lemma overlay_frame_plane_order_witness :
  ∃ ret st',
    overlay_frame (Some {| planes_0 := Some desc_2layers |}) (Some crop_1080p)
      (Some dst_window) true env_second_fails st_ready = Ok ret st' ∧
    ∀ Q rq, created_by st_ready st' Q rq →
      (pe_plane_idx <$> br_planes rq) `sublist_of` seqZ 0 AV_DRM_MAX_PLANES.
Proof.
  apply (overlay_frame_plane_order {| planes_0 := Some desc_2layers |} desc_2layers
           crop_1080p (Some dst_window) true env_second_fails st_ready);
    [reflexivity | reflexivity | exact heap_ok_ready | reflexivity |].
  intros l Hl. assert (l = 0 ∨ l = 1) as [-> | ->] by (cbn in Hl; lia);
    split; done.
Defined.

(** X16: every parameters object whose create request was sent has
    been destroyed by its reply listener when the hand-off returns.  The only
    object a hand-off can leave alive is the one of a layer for which
    [malloc] failed, and that one was never submitted. *)
Theorem overlay_frame_params_destroyed (img : mp_image)
    (desc : AVDRMFrameDescriptor) (r : mp_rect) (dst : option mp_rect)
    (newframe : bool) (env : Z → layer_env) (st : state) :
  planes_0 img = Some desc →
  bridge_ready st = true → heap_ok st →
  desc_ok desc = true →
  (∀ l, 0 ≤ l < nb_layers desc →
        outcome (env l) ≠ NoReply ∧
        releases_earlier img desc (Some r) env st l = true) →
  ∃ ret st',
    overlay_frame (Some img) (Some r) dst newframe env st = Ok ret st' ∧
    ∀ Q rq, created_by st st' Q rq →
      (is_Some (br_created rq) → br_alive rq = false) ∧
      (br_alive rq = true →
       br_created rq = None ∧
       ∃ l, 0 ≤ l < nb_layers desc ∧ malloc_ok (env l) = false).
Proof.
  intros Hdesc Hready Hheap Hok Henv.
  destruct (overlay_frame_requests img desc r dst newframe env st
              Hdesc Hready Hheap Hok Henv) as (ret&st'&Hrun&Hreq).
  exists ret, st'. split; [done|]. intros Q rq [HQ Hrq].
  destruct (Hreq Q rq HQ Hrq) as (l&layer&Hl&_&_&->). cbn.
  destruct (outcome (env l)) eqn:Hout; cbn; try by (split; [done | intros [=]]).
  split; [by intros [? [=]]|]. intros _. split; [done|].
  exists l. split; [done|]. by apply outcome_oom.
Qed.

Lemma overlay_frame_params_destroyed_witness :
  ∃ ret st',
    overlay_frame (Some {| planes_0 := Some desc_2layers |}) (Some crop_1080p)
      (Some dst_window) true env_second_oom st_ready = Ok ret st' ∧
    ∀ Q rq, created_by st_ready st' Q rq →
      (is_Some (br_created rq) → br_alive rq = false) ∧
      (br_alive rq = true →
       br_created rq = None ∧
       ∃ l, 0 ≤ l < nb_layers desc_2layers ∧ malloc_ok (env_second_oom l) = false).
Proof.
  apply (overlay_frame_params_destroyed {| planes_0 := Some desc_2layers |} desc_2layers
           crop_1080p (Some dst_window) true env_second_oom st_ready);
    [reflexivity | reflexivity | exact heap_ok_ready | reflexivity |].
  intros l Hl. assert (l = 0 ∨ l = 1) as [-> | ->] by (cbn in Hl; lia);
    split; done.
Defined.

(** ** The return value and the state a hand-off leaves *)

(** The value a run of the layer loop returns: 0 after attaching every
    layer, -1 as soon as one is refused or runs out of memory. *)
Lemma layers_loop_ret img desc r env n0 wp s ls st :
  loop_inv n0 wp s st →
  Forall (fun l => layer_ok desc l = true ∧ outcome (env l) ≠ NoReply) ls →
  releases_in_order img desc (Some r) env ls st →
  ∃ ret st',
    layers_loop img desc (Some r) 0 0 env ls st = Ok ret st' ∧
    ((ret = 0 ∧ Forall (fun l => outcome (env l) = Attached) ls) ∨
     (ret = -1 ∧ ∃ l, l ∈ ls ∧ outcome (env l) ≠ Attached)).
Proof.
  intros Hinv Hls Hrio.
  destruct (split_attached env ls) as [Hall|(pre&l&post&->&Hpre&Hl)].
  { eapply Forall_impl; [exact Hls|]. by intros l (_&?). }
  - destruct (layers_loop_attached img desc r env n0 wp s ls st Hinv)
      as (st'&steps&Hrun&_); [|done|].
    { rewrite Forall_forall in Hls, Hall. apply Forall_forall. intros l Hl.
      destruct (Hls l Hl) as (?&_). split; [done|]. by apply Hall. }
    exists 0, st'. split; [|by left].
    by apply (layers_loop_attached_end img desc r env).
  - pose proof Hls as Hls'. apply Forall_app in Hls' as [Hls1 Hls2].
    apply Forall_cons in Hls2 as [(Hlok&_) _].
    destruct (layers_loop_attached img desc r env n0 wp s pre st Hinv)
      as (st1&steps&Hrun&Hinv1&_).
    { rewrite Forall_forall in Hls1, Hpre. apply Forall_forall. intros l' Hl'.
      destruct (Hls1 l' Hl') as (?&_). split; [done|]. by apply Hpre. }
    { by apply (releases_in_order_prefix _ _ _ _ pre (l :: post)). }
    assert (Hrel : releases_below (st_next st1) (events (env l)) = true).
    { apply (Hrio pre l post st1 eq_refl).
      by apply (layers_loop_attached_end img desc r env). }
    pose proof Hinv1 as (Hheap1&Hn1&Hwp1&[dm Hdm1]&Hs1&[ss Hss1]).
    destruct (layer_ok_slots desc l Hlok) as (_&layer&Hlayer&_).
    assert (Hfinal : ∃ st',
      layers_loop img desc (Some r) 0 0 env (l :: post) st1 = Ok (-1) st').
    { destruct Hl as [Hl|Hl].
      - destruct (layer_step_failed img desc r env (st_next st1) st1 l layer wp dm s ss
                    Hheap1 (le_n _) Hwp1 Hdm1 Hs1 Hss1 Hlok Hlayer post Hl Hrel)
          as (st'&?&_). by exists st'.
      - destruct (layer_step_oom img desc r env (st_next st1) st1 l layer wp dm s ss
                    Hheap1 (le_n _) Hwp1 Hdm1 Hs1 Hss1 Hlok Hlayer post Hl)
          as (st'&?&_). by exists st'. }
    destruct Hfinal as (st'&Hrun').
    exists (-1), st'. split; [by rewrite Hrun|]. right. split; [done|].
    exists l. split; [apply elem_of_app; right; left|].
    destruct Hl as [-> | ->]; done.
Qed.

(** X12: [overlay_frame] returns 0 exactly when the buffer of every
    layer was created and attached, and -1 otherwise: 0 never stands for a
    frame that is only partly on the surface. *)
Theorem overlay_frame_return_value (img : mp_image) (desc : AVDRMFrameDescriptor)
    (r : mp_rect) (dst : option mp_rect) (newframe : bool) (env : Z → layer_env)
    (st : state) :
  planes_0 img = Some desc →
  bridge_ready st = true → heap_ok st →
  desc_ok desc = true →
  (∀ l, 0 ≤ l < nb_layers desc →
        outcome (env l) ≠ NoReply ∧
        releases_earlier img desc (Some r) env st l = true) →
  ∃ ret st',
    overlay_frame (Some img) (Some r) dst newframe env st = Ok ret st' ∧
    (ret = 0 ∨ ret = -1) ∧
    (ret = 0 ↔ ∀ l, 0 ≤ l < nb_layers desc → outcome (env l) = Attached).
Proof.
  intros Hdesc Hready Hheap Hok Henv.
  destruct (ready_loop_inv st Hready Hheap) as (wp&s&Hwp&Hs&Hinv).
  destruct (layers_loop_ret img desc r env (st_next st) wp s
              (seqZ 0 (nb_layers desc)) st Hinv)
    as (ret&st'&Hrun&Hret).
  { apply Forall_seqZ. intros l Hl. destruct (Henv l) as [? ?]; [lia|].
    split; [apply desc_ok_layers; [done|lia]|done]. }
  { apply releases_earlier_in_order. intros l Hl. by apply Henv. }
  exists ret, st'. split; [unfold overlay_frame; by rewrite Hdesc|].
  destruct Hret as [[-> Hall]|[-> (l&Hl&Hne)]].
  - split; [by left|]. split; [|done]. intros _ l Hl.
    rewrite Forall_forall in Hall. apply Hall. apply elem_of_seqZ. lia.
  - split; [by right|]. split; [done|]. intros Hall. exfalso. apply Hne.
    apply elem_of_seqZ in Hl. apply Hall. lia.
Qed.

Lemma overlay_frame_return_value_witness :
  ∃ ret st',
    overlay_frame (Some {| planes_0 := Some desc_2layers |}) (Some crop_1080p)
      (Some dst_window) true env_second_fails st_ready = Ok ret st' ∧
    (ret = 0 ∨ ret = -1) ∧
    (ret = 0 ↔ ∀ l, 0 ≤ l < nb_layers desc_2layers →
                    outcome (env_second_fails l) = Attached).
Proof.
  apply (overlay_frame_return_value {| planes_0 := Some desc_2layers |} desc_2layers
           crop_1080p (Some dst_window) true env_second_fails st_ready);
    [reflexivity | reflexivity | exact heap_ok_ready | reflexivity |].
  intros l Hl. assert (l = 0 ∨ l = 1) as [-> | ->] by (cbn in Hl; lia);
    split; done.
Defined.

Lemma overlay_frame_keeps_ready_witness :
  ∃ ret st',
    overlay_frame (Some {| planes_0 := Some desc_2layers |}) (Some crop_1080p)
      (Some dst_window) true env_release_previous st_playing = Ok ret st' ∧
    (ret = 0 ∨ ret = -1) ∧
    bridge_ready st' = true ∧ heap_ok st'.
Proof.
  apply (overlay_frame_keeps_ready {| planes_0 := Some desc_2layers |} desc_2layers
           crop_1080p (Some dst_window) true env_release_previous st_playing);
    [reflexivity | reflexivity | exact heap_ok_playing | reflexivity |].
  intros l Hl. assert (l = 0 ∨ l = 1) as [-> | ->] by (cbn in Hl; lia);
    split; done.
Defined.

(** ** No frame record is leaked *)

(** Ownership only reads the buffers and the frame records. *)
Lemma frames_owned_ext ex st st' :
  st_buffers st' = st_buffers st → st_frames st' = st_frames st →
  frames_owned ex st → frames_owned ex st'.
Proof. unfold frames_owned. by intros -> ->. Qed.

(** An event that does not concern the hand-off in progress keeps the
    frame records owned: a release frees the record together with its
    buffer. *)
Lemma dispatch_idle_owned ex n0 ev st st' :
  heap_inv ex st → inflight_ok ex n0 st → event_idle ex n0 st ev →
  frames_owned ex st →
  dispatch ev st = Ok tt st' → frames_owned ex st'.
Proof.
  intros Hinv Hfl Hidle Hown Hrun.
  destruct ev as [name interface ver|name|fmt| | |b]; cbn in Hidle.
  - unfold dispatch, bind, get in Hrun.
    destruct (registry (st_priv st)) as [reg|]; [|by injection Hrun as <-].
    destruct (registry_handle_add_spec reg name interface ver st)
      as (st1&Hrun1&_&_&_&Hb&Hf).
    rewrite Hrun1 in Hrun. injection Hrun as <-. by apply (frames_owned_ext ex st).
  - unfold dispatch, bind, get in Hrun.
    destruct (registry (st_priv st)); by injection Hrun as <-.
  - by injection Hrun as <-.
  - rewrite (quiescent_drops_reply st true Hidle) in Hrun. by injection Hrun as <-.
  - rewrite (quiescent_drops_reply st false Hidle) in Hrun. by injection Hrun as <-.
  - unfold dispatch, bind, get in Hrun.
    destruct (st_buffers st !! b) as [bs|] eqn:Hb; [|by injection Hrun as <-].
    destruct (bs_listener bs) as [a|] eqn:Ha; [|by injection Hrun as <-].
    assert (Hne : ex ≠ Some a).
    { intros ->. destruct (Hfl a eq_refl) as [_ Hge].
      specialize (Hge b bs Hb Ha). destruct Hidle; [done | lia]. }
    destruct (heap_inv_listener _ _ _ _ _ Hinv Hb Ha) as [?|(f&img&Hf&Himg)]; [done|].
    unfold buffer_release, bind, load_frame, bind, get, ret in Hrun.
    rewrite Hf, Himg in Hrun. cbn in Hrun.
    unfold wl_buffer_destroy, bind, get in Hrun. rewrite Hb in Hrun. cbn in Hrun.
    unfold free, bind, get in Hrun. cbn in Hrun. rewrite Hf in Hrun. cbn in Hrun.
    injection Hrun as <-.
    intros a' f' Hf'. cbn in Hf'. apply lookup_delete_Some in Hf' as [Hna Hf'].
    destruct (Hown a' f' Hf') as [?|(b'&bs'&Hb'&Ha')]; [by left|]. right.
    exists b', bs'. split; [|done]. cbn. apply lookup_delete_Some. split; [|done].
    intros <-. rewrite Hb in Hb'. injection Hb' as <-. congruence.
Qed.

(** The same for a run of such events. *)
Lemma dispatch_all_idle_owned ex n0 evs : ∀ st st',
  heap_inv ex st → inflight_ok ex n0 st →
  quiescent st = true ∨ first_reply evs = None →
  ex = None ∨ releases_below n0 evs = true →
  frames_owned ex st →
  dispatch_all evs st = Ok tt st' → frames_owned ex st'.
Proof.
  induction evs as [|ev evs IH]; intros st st' Hinv Hfl Hq Hrel Hown Hrun.
  { by injection Hrun as <-. }
  assert (Hidle : event_idle ex n0 st ev).
  { destruct ev; cbn; try done.
    - destruct Hq as [Hq|Hq]; [done | discriminate Hq].
    - destruct Hq as [Hq|Hq]; [done | discriminate Hq].
    - destruct Hrel as [?|Hrel]; [by left | right].
      cbn in Hrel. apply andb_true_iff in Hrel as [Hrel _].
      by apply bool_decide_eq_true in Hrel. }
  destruct (dispatch_idle ex n0 ev st Hinv Hfl Hidle)
    as (st1&Hrun1&Hinv1&Hfl1&_&Hr1&Hp1&_).
  cbn [dispatch_all] in Hrun. rewrite (bind_Ok _ _ _ _ _ Hrun1) in Hrun.
  apply (IH st1 st'); try done.
  - destruct Hq as [Hq|Hq]; [left | right].
    + unfold quiescent in *. by rewrite Hr1, Hp1.
    + by destruct ev.
  - destruct Hrel as [?|Hrel]; [by left | right].
    cbn in Hrel. by apply andb_true_iff in Hrel as [_ Hrel].
  - by apply (dispatch_idle_owned ex n0 ev st st1).
Qed.

(** The reply to the pending request: the frame of the hand-off in progress
    becomes the listener data of the new buffer, or stays with the
    hand-off. *)
Lemma dispatch_reply_owned (r : bool) P fr rq f0 st st' :
  heap_inv (Some fr) st →
  st_pending st = Some (P, fr) →
  st_requests st !! P = Some rq → br_alive rq = true →
  st_frames st !! fr = Some f0 →
  (∀ b bs, st_buffers st !! b = Some bs → bs_listener bs ≠ Some fr) →
  frames_owned (Some fr) st →
  dispatch (if r then Ev_params_created else Ev_params_failed) st = Ok tt st' →
  frames_owned (Some fr) st'.
Proof.
  intros Hinv Hp HP Hal Hf Hnone Hown Hrun.
  destruct (dispatch_reply r P fr rq f0 st Hinv Hp HP Hal Hf Hnone)
    as (st1&Hrun1&_&_&_&_&_&Hres).
  rewrite Hrun1 in Hrun. injection Hrun as <-.
  destruct Hinv as (H1&_).
  destruct r; destruct Hres as (Hb&Hfr&_); intros a f Ha; rewrite Hfr in Ha;
    (apply lookup_insert_Some in Ha as [[<- _]|[Hne Ha]]; [by left|]);
    (destruct (Hown a f Ha) as [?|(b'&bs'&Hb'&Ha')]; [by left|]); right;
    exists b', bs'; (split; [|done]); rewrite Hb; [|done].
  rewrite lookup_insert_ne; [done|]. intros <-.
  specialize (H1 _ _ Hb'). cbn in H1. lia.
Qed.

(** The round-trip of a hand-off whose request is answered, as in
    [roundtrip_reply]. *)
Lemma roundtrip_reply_owned n0 (r : bool) P fr rq evs dpy st st' :
  heap_inv (Some fr) st → (n0 ≤ st_next st)%nat →
  st_pending st = Some (P, fr) →
  st_requests st !! P = Some rq → br_alive rq = true →
  st_frames st !! fr = Some {| buffer := Uninit; image := Uninit |} →
  (∀ b bs, st_buffers st !! b = Some bs → bs_listener bs ≠ Some fr) →
  first_reply evs = Some r → releases_below n0 evs = true →
  frames_owned (Some fr) st →
  wl_display_roundtrip dpy evs st = Ok tt st' →
  frames_owned (Some fr) st'.
Proof.
  intros Hinv Hn0 Hp HP Halive Hf Hnone Hreply Hrel Hown Hrun.
  destruct (first_reply_split evs r Hreply) as (pre&post&->&Hpre).
  rewrite releases_below_app in Hrel. apply andb_true_iff in Hrel as [Hrel1 Hrel2].
  change (releases_below n0 (?e :: post)) with
    (match e with Ev_buffer_release b => bool_decide (b < n0)%nat | _ => true end
     && releases_below n0 post) in Hrel2.
  assert (Hrel3 : releases_below n0 post = true) by (by destruct r). clear Hrel2.
  set (st0 := set_log (st_log st ++ [Rq_display_sync dpy]) st).
  assert (Hinv0 : heap_inv (Some fr) st0) by (by apply (heap_inv_ext _ st)).
  assert (Hown0 : frames_owned (Some fr) st0) by (by apply (frames_owned_ext _ st)).
  assert (Hfl0 : inflight_ok (Some fr) n0 st0).
  { intros ? [= <-]. unfold st0; cbn. split; [by rewrite Hf|].
    intros b bs Hb Hl. by destruct (Hnone b bs Hb). }
  destruct (dispatch_all_idle (Some fr) n0 pre st0 Hinv0 Hfl0)
    as (st1&Hrun1&Hinv1&Hfl1&Hbg1&Hr1&Hp1&Hb1&Hs1&Hf1); [by right | by right |].
  assert (Hown1 : frames_owned (Some fr) st1).
  { apply (dispatch_all_idle_owned (Some fr) n0 pre st0 st1); try done; by right. }
  specialize (Hf1 fr eq_refl). cbn in Hf1. rewrite Hf in Hf1.
  assert (Hnone1 : ∀ b bs, st_buffers st1 !! b = Some bs → bs_listener bs ≠ Some fr).
  { intros b bs Hb. apply Hs1 in Hb. by apply (Hnone b bs). }
  destruct (dispatch_reply r P fr rq {| buffer := Uninit; image := Uninit |} st1 Hinv1)
    as (st2&Hrun2&Hinv2&Hq2&Hbg2&Hp2&Hr2&Hres);
    [by rewrite Hp1 | by rewrite Hr1 | done | done | done |].
  assert (Hown2 : frames_owned (Some fr) st2).
  { apply (dispatch_reply_owned r P fr rq {| buffer := Uninit; image := Uninit |} st1 st2);
      try done; [by rewrite Hp1 | by rewrite Hr1]. }
  assert (Hle1 : (st_next st ≤ st_next st1)%nat) by apply Hbg1.
  assert (Hfl2 : inflight_ok (Some fr) n0 st2).
  { intros ? [= <-]. destruct r.
    - destruct Hres as (Hb2&Hf2&Hn2). rewrite Hb2, Hf2. split.
      + rewrite lookup_insert_eq. eauto.
      + intros b bs Hb Hl. apply lookup_insert_Some in Hb as [[<- _]|[_ Hb]]; [lia|].
        by destruct (Hnone1 b bs Hb).
    - destruct Hres as (Hb2&Hf2&Hn2). rewrite Hb2, Hf2. split.
      + rewrite lookup_insert_eq. eauto.
      + intros b bs Hb Hl. by destruct (Hnone1 b bs Hb). }
  unfold wl_display_roundtrip, bind, send, modify in Hrun. fold st0 in Hrun.
  rewrite dispatch_all_app in Hrun. rewrite (bind_Ok _ _ _ _ _ Hrun1) in Hrun.
  cbn [dispatch_all] in Hrun. rewrite (bind_Ok _ _ _ _ _ Hrun2) in Hrun.
  apply (dispatch_all_idle_owned (Some fr) n0 post st2 st'); try done;
    [by left | by right].
Qed.

(** Attaching and committing touch neither buffers nor frame records. *)
Lemma wl_surface_attach_heap surf buf x y st st' :
  wl_surface_attach surf buf x y st = Ok tt st' →
  st_buffers st' = st_buffers st ∧ st_frames st' = st_frames st.
Proof.
  unfold wl_surface_attach, bind, deref, get, ret, crash.
  destruct surf as [s|]; [|done]. destruct (st_surfaces st !! s); [|done].
  destruct (buffer_arg_ok st buf); [|done]. by intros [= <-].
Qed.

Lemma wl_surface_commit_heap surf st st' :
  wl_surface_commit surf st = Ok tt st' →
  st_buffers st' = st_buffers st ∧ st_frames st' = st_frames st.
Proof.
  unfold wl_surface_commit, bind, deref, get, ret, crash.
  destruct surf as [s|]; [|done]. destruct (st_surfaces st !! s); [|done].
  by intros [= <-].
Qed.

(** One iteration of the layer loop keeps every frame record owned:
    the record of an attached layer belongs to its buffer, the record of a
    refused layer is freed, and none is allocated when [malloc] fails. *)
Lemma layer_step_owned img desc r env n0 st l layer wp dm ls' ret st' :
  heap_ok st → (n0 ≤ st_next st)%nat →
  wayland_params (st_priv st) = Some wp →
  dmabuf (st_priv st) = Some dm →
  layer_ok desc l = true →
  layers desc !! Z.to_nat l = Some layer →
  frames_owned None st →
  outcome (env l) ≠ NoReply →
  releases_below n0 (events (env l)) = true →
  (outcome (env l) = Attached → ls' = []) →
  layers_loop img desc (Some r) 0 0 env (l :: ls') st = Ok ret st' →
  frames_owned None st'.
Proof.
  intros Hheap Hn0 Hwp Hdm Hl Hlayer Hown Hnr Hrel Hlast Hrun.
  cbn [layers_loop] in Hrun.
  assert (Hm : malloc_ok (env l) = true ∨ malloc_ok (env l) = false)
    by (destruct (malloc_ok (env l)); auto).
  destruct Hm as [Hmalloc|Hmalloc].
  2:{ destruct (layer_begin desc st l layer dm Hdm Hl Hlayer) as (d&_&Hbegin).
      rewrite Hbegin, Hmalloc in Hrun. injection Hrun as _ <-.
      by apply (frames_owned_ext None st). }
  destruct (layer_submit desc r env st l layer wp dm Hwp Hdm Hl Hlayer Hmalloc)
    as (d&_&Hsubmit).
  rewrite Hsubmit in Hrun. clear Hsubmit.
  set (P := st_next st) in *. set (fr := S (st_next st)) in *.
  set (rq := {| br_planes := layer_entries desc layer;
                br_created := Some (create_args_of r layer); br_alive := true |}) in *.
  match type of Hrun with bind _ _ ?s = _ => set (st6 := s) in * end.
  destruct (layer_submitted_inv st rq (st_log st6) Hheap eq_refl) as (Hinv6&Hnone6&Hown6).
  specialize (Hown6 Hown). change (heap_inv (Some fr) st6) in Hinv6.
  change (frames_owned (Some fr) st6) in Hown6.
  change (∀ b bs, st_buffers st6 !! b = Some bs → bs_listener bs ≠ Some fr) in Hnone6.
  assert (Hreply : ∃ rp, first_reply (events (env l)) = Some rp ∧
                         (rp = true ↔ outcome (env l) = Attached)).
  { unfold outcome in *. rewrite Hmalloc in *.
    destruct (first_reply (events (env l))) as [[]|]; [by exists true|by exists false|done]. }
  destruct Hreply as (rp&Hreply&Hrp).
  destruct (roundtrip_reply n0 rp P fr rq (events (env l)) (display wp) st6 Hinv6)
    as (st7&Hrt&_&_&_&_&_&_&_&_&_&Hres); try done.
  { unfold st6. cbn. lia. }
  { unfold st6. cbn. by rewrite lookup_insert_eq. }
  { unfold st6. cbn. by rewrite lookup_insert_eq. }
  assert (Hown7 : frames_owned (Some fr) st7).
  { apply (roundtrip_reply_owned n0 rp P fr rq (events (env l)) (display wp) st6 st7);
      try done.
    - unfold st6. cbn. lia.
    - unfold st6. cbn. by rewrite lookup_insert_eq.
    - unfold st6. cbn. by rewrite lookup_insert_eq. }
  rewrite (bind_Ok _ _ _ _ _ Hrt) in Hrun. cbv beta in Hrun.
  destruct rp.
  - (* the buffer was created *)
    destruct Hres as (b&_&Hfr&Hbb&_).
    rewrite (Hlast (proj1 Hrp eq_refl)) in Hrun.
    assert (Hload : load_frame fr st7 =
                    Ok {| buffer := Val (Some b); image := Uninit |} st7).
    { unfold load_frame, bind, get. by rewrite Hfr. }
    rewrite (bind_Ok _ _ _ _ _ Hload) in Hrun. cbv beta iota in Hrun.
    erewrite bind_Ok in Hrun by reflexivity. cbv beta iota in Hrun.
    rewrite (bind_Ok _ _ _ _ _ Hload) in Hrun. cbv beta iota in Hrun.
    set (st8 := set_frames (<[fr := {| buffer := Val (Some b);
                                        image := Val (mp_image_new_ref img) |}]>
                              (st_frames st7)) st7).
    assert (Hstore : store_frame fr {| buffer := Val (Some b);
                                       image := Val (mp_image_new_ref img) |} st7 =
                     Ok tt st8).
    { unfold store_frame, bind, get. by rewrite Hfr. }
    rewrite (bind_Ok _ _ _ _ _ Hstore) in Hrun. cbv beta iota in Hrun.
    erewrite bind_Ok in Hrun by reflexivity. cbv beta iota in Hrun.
    apply bind_inv in Hrun as ([]&st9&Hatt&Hrun).
    apply bind_inv in Hrun as ([]&st10&Hcom&Hrun).
    injection Hrun as _ <-.
    destruct (wl_surface_attach_heap _ _ _ _ _ _ Hatt) as [Hb9 Hf9].
    destruct (wl_surface_commit_heap _ _ _ Hcom) as [Hb10 Hf10].
    intros a f Ha. rewrite Hf10, Hf9 in Ha. cbn in Ha. right.
    apply lookup_insert_Some in Ha as [[<- _]|[Hne Ha]].
    + eexists b, _. split; [by rewrite Hb10, Hb9|done].
    + destruct (Hown7 a f Ha) as [[= ->]|(b'&bs'&Hb'&Ha')]; [done|].
      exists b', bs'. split; [by rewrite Hb10, Hb9|done].
  - (* the server refused *)
    destruct Hres as (Hfr&_).
    assert (Hload : load_frame fr st7 =
                    Ok {| buffer := Val None; image := Uninit |} st7).
    { unfold load_frame, bind, get. by rewrite Hfr. }
    rewrite (bind_Ok _ _ _ _ _ Hload) in Hrun. cbv beta iota in Hrun.
    erewrite bind_Ok in Hrun by reflexivity. cbv beta iota in Hrun.
    unfold overlay_fail, free, bind, get in Hrun. cbv beta iota in Hrun.
    change (S P) with fr in Hrun. rewrite Hfr in Hrun.
    injection Hrun as _ <-.
    intros a f Ha. cbn in Ha. apply lookup_delete_Some in Ha as [Hne Ha]. right.
    destruct (Hown7 a f Ha) as [[= ->]|?]; done.
Qed.

(** The whole layer loop keeps every frame record owned. *)
Lemma layers_loop_owned img desc r env n0 wp s ls : ∀ st ret st',
  loop_inv n0 wp s st → frames_owned None st →
  Forall (fun l => layer_ok desc l = true ∧ outcome (env l) ≠ NoReply) ls →
  releases_in_order img desc (Some r) env ls st →
  layers_loop img desc (Some r) 0 0 env ls st = Ok ret st' →
  frames_owned None st'.
Proof.
  induction ls as [|l ls IH]; intros st ret st' Hinv Hown Hls Hrio Hrun.
  { by injection Hrun as _ <-. }
  apply Forall_cons in Hls as [(Hl&Hnr) Hls].
  pose proof (releases_in_order_head _ _ _ _ _ _ _ Hrio) as Hrel.
  pose proof Hinv as (Hheap&Hn0&Hwp&[dm Hdm]&Hs&[ss Hss]).
  destruct (layer_ok_slots desc l Hl) as (_&layer&Hlayer&_).
  assert (Hcase : outcome (env l) = Attached ∨ outcome (env l) ≠ Attached)
    by (destruct (outcome (env l)); auto).
  destruct Hcase as [Hatt|Hnatt].
  - destruct (layer_step_attached img desc r env (st_next st) st l layer wp dm s ss
                Hheap (le_n _) Hwp Hdm Hs Hss Hl Hlayer Hatt Hrel)
      as (st1&b&Hrun1&Hheap1&Hpriv1&_&Hb&Hsf1&_).
    assert (Hown1 : frames_owned None st1).
    { by apply (layer_step_owned img desc r env (st_next st) st l layer wp dm [] 0 st1). }
    rewrite Hrun1 in Hrun. apply (IH st1 ret st'); try done.
    + apply (loop_inv_step n0 wp s st); [done | done | done | lia |].
      rewrite Hsf1, lookup_insert_eq. eauto.
    + by apply (releases_in_order_app _ _ _ _ [l] ls st).
  - by apply (layer_step_owned img desc r env (st_next st) st l layer wp dm ls ret st').
Qed.

(** X14: a hand-off leaks no frame record and leaves none dangling.
    When it returns, every allocated [dmabuf_frame] is the listener data of
    a live buffer (so that [buffer_release] will free it), whatever mix of
    created, refused and out-of-memory layers the call went through and
    whichever earlier buffers were released meanwhile. *)
Theorem overlay_frame_no_frame_leak (img : mp_image) (desc : AVDRMFrameDescriptor)
    (r : mp_rect) (dst : option mp_rect) (newframe : bool) (env : Z → layer_env)
    (st : state) :
  planes_0 img = Some desc →
  bridge_ready st = true → heap_ok st → frames_owned None st →
  desc_ok desc = true →
  (∀ l, 0 ≤ l < nb_layers desc →
        outcome (env l) ≠ NoReply ∧
        releases_earlier img desc (Some r) env st l = true) →
  ∃ ret st',
    overlay_frame (Some img) (Some r) dst newframe env st = Ok ret st' ∧
    heap_ok st' ∧ frames_owned None st'.
Proof.
  intros Hdesc Hready Hheap Hown Hok Henv.
  destruct (ready_loop_inv st Hready Hheap) as (wp&s&Hwp&Hs&Hinv).
  assert (Hls : Forall (fun l => layer_ok desc l = true ∧ outcome (env l) ≠ NoReply)
                  (seqZ 0 (nb_layers desc))).
  { apply Forall_seqZ. intros l Hl. destruct (Henv l) as [? ?]; [lia|].
    split; [apply desc_ok_layers; [done|lia]|done]. }
  assert (Hrio : releases_in_order img desc (Some r) env (seqZ 0 (nb_layers desc)) st).
  { apply releases_earlier_in_order. intros l Hl. by apply Henv. }
  destruct (layers_loop_requests img desc r env (st_next st) wp s
              (seqZ 0 (nb_layers desc)) st Hinv Hls Hrio)
    as (ret&st'&Hrun&_&Hinv'&_).
  exists ret, st'. split; [unfold overlay_frame; by rewrite Hdesc|].
  split; [apply Hinv'|].
  by apply (layers_loop_owned img desc r env (st_next st) wp s
              (seqZ 0 (nb_layers desc)) st ret st').
Qed.

Lemma frames_owned_playing : frames_owned None st_playing.
Proof. refine (bool_decide_unpack _ _). vm_compute. exact I. Qed.

Lemma overlay_frame_no_frame_leak_witness :
  ∃ ret st',
    overlay_frame (Some {| planes_0 := Some desc_2layers |}) (Some crop_1080p)
      (Some dst_window) true env_release_previous st_playing = Ok ret st' ∧
    heap_ok st' ∧ frames_owned None st'.
Proof.
  apply (overlay_frame_no_frame_leak {| planes_0 := Some desc_2layers |} desc_2layers
           crop_1080p (Some dst_window) true env_release_previous st_playing);
    [reflexivity | reflexivity | exact heap_ok_playing | exact frames_owned_playing
    | reflexivity |].
  intros l Hl. assert (l = 0 ∨ l = 1) as [-> | ->] by (cbn in Hl; lia);
    split; done.
Defined.

(** X15: detaching destroys nothing.  After a hand-off without a
    frame the buffer that was attached and its frame record are still
    allocated (they go when the compositor releases the buffer), and the
    state stays ready for the next hand-off. *)
Theorem overlay_frame_null_keeps_buffers (src dst : option mp_rect)
    (newframe : bool) (env : Z → layer_env) (st : state) :
  bridge_ready st = true → heap_ok st →
  ∃ st',
    overlay_frame None src dst newframe env st = Ok 0 st' ∧
    st_buffers st' = st_buffers st ∧
    st_frames st' = st_frames st ∧
    st_requests st' = st_requests st ∧
    bridge_ready st' = true ∧ heap_ok st' ∧
    (frames_owned None st → frames_owned None st').
Proof.
  intros Hready [Hinv Hq].
  destruct (ready_loop_inv st Hready (conj Hinv Hq)) as (wp&s&Hwp&Hs&_&_&_&Hdm&_&[ss Hss]).
  eexists. split.
  { unfold overlay_frame, bind, get_priv, wl_surface_attach, wl_surface_commit,
      bind, deref, get, modify, send, ret.
    rewrite Hs. cbn. rewrite Hss. cbn. rewrite lookup_insert_eq. cbn. reflexivity. }
  cbn. do 3 (split; [done|]). split.
  { unfold bridge_ready. cbn. rewrite Hwp, Hs, lookup_insert_eq.
    by rewrite !bool_decide_eq_true_2 by eauto. }
  split; [|by apply frames_owned_ext].
  split; [by apply (heap_inv_ext _ st)|done].
Qed.

Lemma overlay_frame_null_keeps_buffers_witness :
  ∃ st',
    overlay_frame None None None false (fun _ => reply_created) st_playing = Ok 0 st' ∧
    st_buffers st' = st_buffers st_playing ∧
    st_frames st' = st_frames st_playing ∧
    st_requests st' = st_requests st_playing ∧
    bridge_ready st' = true ∧ heap_ok st' ∧
    (frames_owned None st_playing → frames_owned None st').
Proof.
  apply (overlay_frame_null_keeps_buffers None None false (fun _ => reply_created)
           st_playing);
    [reflexivity | exact heap_ok_playing].
Defined.

(** ** Releases during a hand-off *)

(** A dispatched event leaves every buffer it does not release as it is;
    the handles it allocates are fresh. *)
Lemma dispatch_keeps_buffer ev st st' b :
  dispatch ev st = Ok tt st' → ev ≠ Ev_buffer_release b → (b < st_next st)%nat →
  st_buffers st' !! b = st_buffers st !! b ∧ (st_next st ≤ st_next st')%nat.
Proof.
  intros Hrun Hne Hb.
  destruct ev as [name interface ver|name|fmt| | |b0].
  - unfold dispatch, bind, get in Hrun.
    destruct (registry (st_priv st)) as [reg|]; [|by injection Hrun as <-].
    destruct (registry_handle_add_spec reg name interface ver st)
      as (st1&Hrun1&(_&_&_&Hn&_)&_&_&Hb1&_).
    rewrite Hrun1 in Hrun. injection Hrun as <-. by rewrite Hb1.
  - unfold dispatch, bind, get in Hrun.
    destruct (registry (st_priv st)); by injection Hrun as <-.
  - by injection Hrun as <-.
  - unfold dispatch, bind, get in Hrun.
    destruct (st_pending st) as [[P data]|]; [|by injection Hrun as <-].
    destruct (st_requests st !! P) as [rq|] eqn:HP; [|by injection Hrun as <-].
    destruct (br_alive rq) eqn:Hal; [|by injection Hrun as <-].
    unfold fresh, modify, param_create_succeeded, bind, load_frame, bind, get, ret in Hrun.
    cbn in Hrun. destruct (st_frames st !! data) as [f|] eqn:Hf; [|done]. cbn in Hrun.
    unfold store_frame, bind, get in Hrun. cbn in Hrun. rewrite Hf in Hrun. cbn in Hrun.
    unfold wl_buffer_add_listener, bind, get in Hrun. cbn in Hrun.
    rewrite lookup_insert_eq in Hrun. cbn in Hrun.
    unfold zwp_linux_buffer_params_v1_destroy, bind, live_request, bind, get in Hrun.
    cbn in Hrun. rewrite HP, Hal in Hrun. cbn in Hrun. injection Hrun as <-. cbn.
    split; [|lia]. rewrite insert_insert_eq, lookup_insert_ne; [done|lia].
  - unfold dispatch, bind, get in Hrun.
    destruct (st_pending st) as [[P data]|]; [|by injection Hrun as <-].
    destruct (st_requests st !! P) as [rq|] eqn:HP; [|by injection Hrun as <-].
    destruct (br_alive rq) eqn:Hal; [|by injection Hrun as <-].
    unfold param_create_failed, bind, load_frame, bind, get, ret in Hrun.
    destruct (st_frames st !! data) as [f|] eqn:Hf; [|done]. cbn in Hrun.
    unfold store_frame, bind, get in Hrun. cbn in Hrun. rewrite Hf in Hrun. cbn in Hrun.
    unfold zwp_linux_buffer_params_v1_destroy, bind, live_request, bind, get in Hrun.
    cbn in Hrun. rewrite HP, Hal in Hrun. cbn in Hrun. by injection Hrun as <-.
  - unfold dispatch, bind, get in Hrun.
    destruct (st_buffers st !! b0) as [bs|] eqn:Hb0; [|by injection Hrun as <-].
    destruct (bs_listener bs) as [a|]; [|by injection Hrun as <-].
    unfold buffer_release, bind, load_frame, bind, get, ret in Hrun.
    destruct (st_frames st !! a) as [f|] eqn:Hf; [|done].
    destruct (image f) as [|img]; [done|]. cbn in Hrun.
    unfold wl_buffer_destroy, bind, get in Hrun. rewrite Hb0 in Hrun. cbn in Hrun.
    unfold free, bind, get in Hrun. cbn in Hrun. rewrite Hf in Hrun. cbn in Hrun.
    injection Hrun as <-. cbn. split; [|done].
    rewrite lookup_delete_ne; [done|]. congruence.
Qed.

Lemma dispatch_all_keeps_buffer evs b : ∀ st st',
  dispatch_all evs st = Ok tt st' → Ev_buffer_release b ∉ evs → (b < st_next st)%nat →
  st_buffers st' !! b = st_buffers st !! b ∧ (st_next st ≤ st_next st')%nat.
Proof.
  induction evs as [|ev evs IH]; intros st st' Hrun Hnot Hb.
  { by injection Hrun as <-. }
  cbn [dispatch_all] in Hrun. apply bind_inv in Hrun as ([]&st1&Hrun1&Hrun).
  destruct (dispatch_keeps_buffer ev st st1 b Hrun1) as [Hb1 Hn1]; [|done|].
  { intros ->. apply Hnot. left. }
  destruct (IH st1 st' Hrun) as [Hb' Hn']; [|lia|].
  { intros Hin. apply Hnot. by right. }
  split; [congruence|lia].
Qed.

(** The same for a round-trip. *)
Lemma roundtrip_keeps_buffer dpy evs b st st' :
  wl_display_roundtrip dpy evs st = Ok tt st' →
  Ev_buffer_release b ∉ evs → (b < st_next st)%nat →
  st_buffers st' !! b = st_buffers st !! b.
Proof.
  unfold wl_display_roundtrip, bind, send, modify. intros Hrun Hnot Hb.
  by destruct (dispatch_all_keeps_buffer evs b _ st' Hrun Hnot Hb) as [-> _].
Qed.

(** One iteration of the layer loop leaves every earlier buffer that the
    events of its round-trip do not release as it is. *)
Lemma layer_step_keeps img desc r env n0 st l layer wp dm ls' ret st' b :
  heap_ok st → (n0 ≤ st_next st)%nat →
  wayland_params (st_priv st) = Some wp →
  dmabuf (st_priv st) = Some dm →
  layer_ok desc l = true →
  layers desc !! Z.to_nat l = Some layer →
  outcome (env l) ≠ NoReply →
  releases_below n0 (events (env l)) = true →
  (outcome (env l) = Attached → ls' = []) →
  layers_loop img desc (Some r) 0 0 env (l :: ls') st = Ok ret st' →
  (b < st_next st)%nat → Ev_buffer_release b ∉ events (env l) →
  st_buffers st' !! b = st_buffers st !! b.
Proof.
  intros Hheap Hn0 Hwp Hdm Hl Hlayer Hnr Hrel Hlast Hrun Hb Hnot.
  cbn [layers_loop] in Hrun.
  assert (Hm : malloc_ok (env l) = true ∨ malloc_ok (env l) = false)
    by (destruct (malloc_ok (env l)); auto).
  destruct Hm as [Hmalloc|Hmalloc].
  2:{ destruct (layer_begin desc st l layer dm Hdm Hl Hlayer) as (d&_&Hbegin).
      rewrite Hbegin, Hmalloc in Hrun. by injection Hrun as _ <-. }
  destruct (layer_submit desc r env st l layer wp dm Hwp Hdm Hl Hlayer Hmalloc)
    as (d&_&Hsubmit).
  rewrite Hsubmit in Hrun. clear Hsubmit.
  set (P := st_next st) in *. set (fr := S (st_next st)) in *.
  set (rq := {| br_planes := layer_entries desc layer;
                br_created := Some (create_args_of r layer); br_alive := true |}) in *.
  match type of Hrun with bind _ _ ?s = _ => set (st6 := s) in * end.
  destruct (layer_submitted_inv st rq (st_log st6) Hheap eq_refl) as (Hinv6&Hnone6&_).
  change (heap_inv (Some fr) st6) in Hinv6.
  change (∀ b bs, st_buffers st6 !! b = Some bs → bs_listener bs ≠ Some fr) in Hnone6.
  assert (Hreply : ∃ rp, first_reply (events (env l)) = Some rp ∧
                         (rp = true ↔ outcome (env l) = Attached)).
  { unfold outcome in *. rewrite Hmalloc in *.
    destruct (first_reply (events (env l))) as [[]|]; [by exists true|by exists false|done]. }
  destruct Hreply as (rp&Hreply&Hrp).
  destruct (roundtrip_reply n0 rp P fr rq (events (env l)) (display wp) st6 Hinv6)
    as (st7&Hrt&_&_&_&_&_&_&_&_&_&Hres); try done.
  { unfold st6. cbn. lia. }
  { unfold st6. cbn. by rewrite lookup_insert_eq. }
  { unfold st6. cbn. by rewrite lookup_insert_eq. }
  assert (Hb7 : st_buffers st7 !! b = st_buffers st !! b).
  { apply (roundtrip_keeps_buffer (display wp) (events (env l)) b st6 st7 Hrt Hnot).
    unfold st6. cbn. lia. }
  rewrite (bind_Ok _ _ _ _ _ Hrt) in Hrun. cbv beta in Hrun.
  destruct rp.
  - (* the buffer was created *)
    destruct Hres as (b1&_&Hfr&Hbb&_).
    rewrite (Hlast (proj1 Hrp eq_refl)) in Hrun.
    assert (Hload : load_frame fr st7 =
                    Ok {| buffer := Val (Some b1); image := Uninit |} st7).
    { unfold load_frame, bind, get. by rewrite Hfr. }
    rewrite (bind_Ok _ _ _ _ _ Hload) in Hrun. cbv beta iota in Hrun.
    erewrite bind_Ok in Hrun by reflexivity. cbv beta iota in Hrun.
    rewrite (bind_Ok _ _ _ _ _ Hload) in Hrun. cbv beta iota in Hrun.
    set (st8 := set_frames (<[fr := {| buffer := Val (Some b1);
                                        image := Val (mp_image_new_ref img) |}]>
                              (st_frames st7)) st7).
    assert (Hstore : store_frame fr {| buffer := Val (Some b1);
                                       image := Val (mp_image_new_ref img) |} st7 =
                     Ok tt st8).
    { unfold store_frame, bind, get. by rewrite Hfr. }
    rewrite (bind_Ok _ _ _ _ _ Hstore) in Hrun. cbv beta iota in Hrun.
    erewrite bind_Ok in Hrun by reflexivity. cbv beta iota in Hrun.
    apply bind_inv in Hrun as ([]&st9&Hatt&Hrun).
    apply bind_inv in Hrun as ([]&st10&Hcom&Hrun).
    injection Hrun as _ <-.
    destruct (wl_surface_attach_heap _ _ _ _ _ _ Hatt) as [Hb9 _].
    destruct (wl_surface_commit_heap _ _ _ Hcom) as [Hb10 _].
    by rewrite Hb10, Hb9.
  - (* the server refused *)
    destruct Hres as (Hfr&_).
    assert (Hload : load_frame fr st7 =
                    Ok {| buffer := Val None; image := Uninit |} st7).
    { unfold load_frame, bind, get. by rewrite Hfr. }
    rewrite (bind_Ok _ _ _ _ _ Hload) in Hrun. cbv beta iota in Hrun.
    erewrite bind_Ok in Hrun by reflexivity. cbv beta iota in Hrun.
    unfold overlay_fail, free, bind, get in Hrun. cbv beta iota in Hrun.
    change (S P) with fr in Hrun. rewrite Hfr in Hrun.
    by injection Hrun as _ <-.
Qed.

Lemma seqZ_snoc (k : nat) :
  seqZ 0 (Z.of_nat (S k)) = seqZ 0 (Z.of_nat k) ++ [Z.of_nat k].
Proof.
  replace (Z.of_nat (S k)) with (Z.of_nat k + 1) by lia.
  rewrite seqZ_app by lia. f_equal.
Qed.

Lemma seqZ_of_to_nat n : seqZ 0 (Z.of_nat (Z.to_nat n)) = seqZ 0 n.
Proof. unfold seqZ. by rewrite Nat2Z.id. Qed.

Lemma attached_last_snoc s steps step m :
  <[s := {| ss_pending := None; ss_current := Some step.2 |}]>
    (attached_last s steps m) =
  attached_last s (steps ++ [step]) m.
Proof.
  unfold attached_last. rewrite last_snoc.
  destruct (last steps); [|done]. by rewrite insert_insert_eq.
Qed.

(** The loop over two runs of layers: the second run starts where the
    first ends, unless the first left the loop through [fail:]. *)
Lemma layers_loop_app img desc src modifier flags env ls1 ls2 st :
  layers_loop img desc src modifier flags env (ls1 ++ ls2) st =
  match layers_loop img desc src modifier flags env ls1 st with
  | Ok 0 st1 => layers_loop img desc src modifier flags env ls2 st1
  | other => other
  end.
Proof.
  revert st. induction ls1 as [|l ls1 IH]; intros st; [done|].
  cbn [layers_loop app]. unfold bind.
  destruct (array_at (layers desc) l st) as [layer st1|]; [|done].
  destruct (get_priv st1) as [p st2|]; [|done].
  destruct (zwp_linux_dmabuf_v1_create_params (dmabuf p) st2) as [params st3|]; [|done].
  destruct (planes_loop _ _ _ _ _ st3) as [[] st4|]; [|done].
  destruct (malloc _ st4) as [[fr|] st5|]; [|done|done].
  destruct (zwp_linux_buffer_params_v1_add_listener params fr st5) as [[] st6|]; [|done].
  destruct (deref src st6) as [r st6'|]; [|done].
  destruct (zwp_linux_buffer_params_v1_create _ _ _ _ _ st6') as [[] st7|]; [|done].
  destruct (get_priv st7) as [p7 st8|]; [|done].
  destruct (deref (wayland_params p7) st8) as [wp st9|]; [|done].
  destruct (wl_display_roundtrip _ _ st9) as [[] st10|]; [|done].
  destruct (load_frame fr st10) as [f st11|]; [|done].
  destruct (read_cell (buffer f) st11) as [[b|] st12|]; [| |done].
  - destruct (load_frame fr st12) as [f' st13|]; [|done].
    destruct (store_frame fr _ st13) as [[] st14|]; [|done].
    destruct (get_priv st14) as [p14 st15|]; [|done].
    destruct (wl_surface_attach _ _ _ _ st15) as [[] st16|]; [|done].
    destruct (wl_surface_commit _ st16) as [[] st17|]; [|done].
    apply IH.
  - unfold overlay_fail, bind. by destruct (free fr st12) as [[] st13|].
Qed.

(** The state in which the iteration for a layer starts satisfies the loop
    invariant, when the releases are bounded at the start of the call. *)
Lemma after_layers_inv img desc r env st wp s (k : nat) :
  loop_inv (st_next st) wp s st →
  (∀ l, 0 ≤ l < Z.of_nat k → layer_ok desc l = true ∧
        releases_below (st_next st) (events (env l)) = true) →
  ∀ st_k, after_layers img desc (Some r) env st (Z.of_nat k) = Some st_k →
    loop_inv (st_next st) wp s st_k.
Proof.
  intros Hinv. induction k as [|k IH]; intros Hls st_k Hafter.
  { unfold after_layers in Hafter. cbn in Hafter. by injection Hafter as <-. }
  unfold after_layers in Hafter. rewrite seqZ_snoc, layers_loop_app in Hafter.
  destruct (layers_loop img desc (Some r) 0 0 env (seqZ 0 (Z.of_nat k)) st)
    as [ret st1|] eqn:Hpre; [|done].
  destruct ret; try done.
  assert (Hinv1 : loop_inv (st_next st) wp s st1).
  { apply IH; [intros l Hl; apply Hls; lia|]. by apply after_layers_run. }
  destruct (Hls (Z.of_nat k)) as [Hl Hrel]; [lia|].
  pose proof Hinv1 as (Hheap1&Hn1&Hwp1&[dm Hdm1]&Hs1&[ss Hss1]).
  destruct (layer_ok_slots desc (Z.of_nat k) Hl) as (_&layer&Hlayer&_).
  destruct (outcome (env (Z.of_nat k))) eqn:Hout.
  - destruct (layer_step_attached img desc r env (st_next st) st1 (Z.of_nat k) layer
                wp dm s ss Hheap1 Hn1 Hwp1 Hdm1 Hs1 Hss1 Hl Hlayer Hout Hrel)
      as (st2&b&Hrun2&Hheap2&Hpriv2&_&Hb&Hsf2&_).
    rewrite Hrun2 in Hafter. injection Hafter as <-.
    apply (loop_inv_step _ _ _ st1); [done | done | done | lia |].
    rewrite Hsf2, lookup_insert_eq. eauto.
  - destruct (layer_step_failed img desc r env (st_next st) st1 (Z.of_nat k) layer
                wp dm s ss Hheap1 Hn1 Hwp1 Hdm1 Hs1 Hss1 Hl Hlayer [] Hout Hrel)
      as (st2&Hrun2&_).
    by rewrite Hrun2 in Hafter.
  - destruct (layer_step_oom img desc r env (st_next st) st1 (Z.of_nat k) layer
                wp dm s ss Hheap1 Hn1 Hwp1 Hdm1 Hs1 Hss1 Hl Hlayer [] Hout)
      as (st2&Hrun2&_).
    by rewrite Hrun2 in Hafter.
  - by rewrite (layer_step_no_reply img desc r env (st_next st) st1 (Z.of_nat k) layer
                  wp dm [] Hheap1 Hn1 Hwp1 Hdm1 Hl Hlayer Hout Hrel) in Hafter.
Qed.

(** A release bound taken at the start of the call is a bound for every
    layer: the handle counter never goes back. *)
Lemma releases_below_earlier img desc r env st n :
  bridge_ready st = true → heap_ok st →
  (∀ l, 0 ≤ l < n → layer_ok desc l = true ∧
        releases_below (st_next st) (events (env l)) = true) →
  ∀ l, 0 ≤ l < n → releases_earlier img desc (Some r) env st l = true.
Proof.
  intros Hready Hheap Hls l Hl.
  destruct (ready_loop_inv st Hready Hheap) as (wp&s&_&_&Hinv).
  unfold releases_earlier.
  destruct (after_layers img desc (Some r) env st l) as [st_l|] eqn:Hafter; [|done].
  rewrite <- (Z2Nat.id l) in Hafter by lia.
  apply (after_layers_inv img desc r env st wp s (Z.to_nat l) Hinv) in Hafter
    as (_&Hle&_).
  - apply (releases_below_mono (st_next st)); [|done]. by apply Hls.
  - intros l' Hl'. apply Hls. lia.
Qed.

Section Prefix.
Context (img : mp_image) (desc : AVDRMFrameDescriptor) (r : mp_rect)
        (env : Z → layer_env) (st : state)
        (wp : mpv_opengl_cb_wayland_params) (s : handle).

(** The first [k] layers, whose buffers are all created, when the events
    of each round-trip release only buffers that existed when the layer's
    iteration started. *)
Lemma layers_loop_upto (k : nat) :
  loop_inv (st_next st) wp s st →
  (∀ l, 0 ≤ l < Z.of_nat k →
     layer_ok desc l = true ∧ outcome (env l) = Attached ∧
     releases_earlier img desc (Some r) env st l = true) →
  ∃ st_k steps d,
    (∀ ls2, layers_loop img desc (Some r) 0 0 env (seqZ 0 (Z.of_nat k) ++ ls2) st =
            layers_loop img desc (Some r) 0 0 env ls2 st_k) ∧
    after_layers img desc (Some r) env st (Z.of_nat k) = Some st_k ∧
    loop_inv (st_next st) wp s st_k ∧
    length steps = k ∧
    st_surfaces st_k = attached_last s steps (st_surfaces st) ∧
    st_log st_k = st_log st ++ d ∧
    List.filter visible d = flat_map (layer_trace (display wp) s) steps ∧
    ∀ i P b, steps !! i = Some (P, b) →
      (st_next st ≤ P < st_next st_k)%nat ∧ (st_next st ≤ b < st_next st_k)%nat ∧
      (∃ layer, layers desc !! i = Some layer ∧
         st_requests st_k !! P = Some (layer_request desc r layer Attached)) ∧
      (∃ st_i, after_layers img desc (Some r) env st (Z.of_nat i + 1) = Some st_i ∧
         bs_origin <$> st_buffers st_i !! b = Some P ∧
         st_surfaces st_i !! s =
           Some {| ss_pending := None; ss_current := Some b |}) ∧
      ((∀ j, Z.of_nat i < j < Z.of_nat k → Ev_buffer_release b ∉ events (env j)) →
       bs_origin <$> st_buffers st_k !! b = Some P).
Proof.
  intros Hinv. induction k as [|k IH]; intros Hls.
  { exists st, [], []. split; [done|]. split; [done|]. split; [done|].
    split; [done|]. split; [done|]. split; [by rewrite app_nil_r|].
    split; [done|]. by intros i P b Hi. }
  destruct IH as (st_k&steps&d&Hrun&Hafter&Hinv_k&Hlen&Hsf&Hd&Hv&Hsteps).
  { intros l Hl. apply Hls. lia. }
  destruct (Hls (Z.of_nat k)) as (Hl&Hout&Hrel); [lia|].
  unfold releases_earlier in Hrel. rewrite Hafter in Hrel.
  pose proof Hinv_k as (Hheap&Hn0&Hwp&[dm Hdm]&Hs&[ss Hss]).
  destruct (layer_ok_slots desc (Z.of_nat k) Hl) as (_&layer&Hlayer&_).
  destruct (layer_step_attached img desc r env (st_next st_k) st_k (Z.of_nat k) layer
              wp dm s ss Hheap (le_n _) Hwp Hdm Hs Hss Hl Hlayer Hout Hrel)
    as (st1&b&Hrun1&Hheap1&Hpriv1&Hssf1&Hb&Hsf1&Hr1&Hbb1&_&d1&Hd1&Hv1).
  assert (Halone : layers_loop img desc (Some r) 0 0 env [Z.of_nat k] st_k = Ok 0 st1)
    by (by rewrite Hrun1).
  assert (Hrun' : ∀ ls2,
    layers_loop img desc (Some r) 0 0 env (seqZ 0 (Z.of_nat (S k)) ++ ls2) st =
    layers_loop img desc (Some r) 0 0 env ls2 st1).
  { intros ls2. rewrite seqZ_snoc, <- app_assoc. cbn [app]. by rewrite Hrun, Hrun1. }
  assert (Hafter' : after_layers img desc (Some r) env st (Z.of_nat (S k)) = Some st1).
  { apply after_layers_run. specialize (Hrun' []). by rewrite app_nil_r in Hrun'. }
  exists st1, (steps ++ [(st_next st_k, b)]), (d ++ d1).
  split; [done|]. split; [done|].
  split.
  { apply (loop_inv_step _ _ _ st_k); [done | done | done | lia |].
    rewrite Hsf1, lookup_insert_eq. eauto. }
  split. { rewrite length_app. cbn. lia. }
  split. { rewrite Hsf1, Hsf. apply (attached_last_snoc s steps (st_next st_k, b)). }
  split. { by rewrite Hd1, Hd, app_assoc. }
  split. { rewrite List.filter_app, Hv, Hv1, flat_map_app. reflexivity. }
  rewrite Nat2Z.id in Hlayer.
  intros i P b' Hi. apply lookup_app_Some in Hi as [Hi|[Hge Hi]].
  - destruct (Hsteps i P b' Hi) as (HP&Hb'&(layer'&Hlayer'&Hrq)&Hmid&Hend).
    split; [lia|]. split; [lia|]. split.
    { exists layer'. split; [done|]. rewrite Hr1, lookup_insert_ne by lia. done. }
    split; [done|]. intros Hnot.
    assert (Hkeep : st_buffers st1 !! b' = st_buffers st_k !! b').
    { apply (layer_step_keeps img desc r env (st_next st_k) st_k (Z.of_nat k) layer
               wp dm [] 0 st1 b'); try done.
      - by rewrite Nat2Z.id.
      - by rewrite Hout.
      - lia.
      - apply Hnot. apply lookup_lt_Some in Hi. lia. }
    rewrite Hkeep. apply Hend. intros j Hj. apply Hnot. lia.
  - destruct (i - length steps)%nat as [|?] eqn:Hidx; [|done].
    injection Hi as <- <-. assert (i = k) as -> by lia.
    split; [lia|]. split; [lia|]. split.
    { exists layer. split; [done|]. by rewrite Hr1, lookup_insert_eq. }
    split.
    { exists st1. replace (Z.of_nat k + 1) with (Z.of_nat (S k)) by lia.
      split; [done|]. split; [by rewrite Hbb1|by rewrite Hsf1, lookup_insert_eq]. }
    intros _. by rewrite Hbb1.
Qed.
End Prefix.

(** C7: when every layer's buffer is created, [overlay_frame] returns 0
    after one round-trip per layer; the requests a layer shows on the
    connection are its round-trip, the attach of its buffer and the commit,
    in layer order; each buffer comes from the request built for its layer
    and is current on the surface when its iteration ends; and the surface
    ends with the last layer's buffer current.  The events of a round-trip
    may release any buffer that existed when the layer's iteration started,
    the buffers of earlier layers of the same call among them: a buffer
    that no later round-trip releases is still live when the call
    returns. *)
Theorem overlay_frame_all_layers (img : mp_image) (desc : AVDRMFrameDescriptor)
    (r : mp_rect) (dst : option mp_rect) (newframe : bool) (env : Z → layer_env)
    (st : state) (wp : mpv_opengl_cb_wayland_params) (s : handle) :
  planes_0 img = Some desc →
  bridge_ready st = true → heap_ok st →
  wayland_params (st_priv st) = Some wp →
  video_surface (st_priv st) = Some s →
  desc_ok desc = true →
  (∀ l, 0 ≤ l < nb_layers desc →
        outcome (env l) = Attached ∧
        releases_earlier img desc (Some r) env st l = true) →
  ∃ st' steps d,
    overlay_frame (Some img) (Some r) dst newframe env st = Ok 0 st' ∧
    length steps = Z.to_nat (nb_layers desc) ∧
    st_log st' = st_log st ++ d ∧
    length (List.filter is_sync d) = Z.to_nat (nb_layers desc) ∧
    List.filter visible d = flat_map (layer_trace (display wp) s) steps ∧
    (∀ i P b, steps !! i = Some (P, b) →
       ∃ layer, layers desc !! i = Some layer ∧
         st_requests st !! P = None ∧
         st_requests st' !! P = Some (layer_request desc r layer Attached) ∧
         st_buffers st !! b = None ∧
         (∃ st_i,
            after_layers img desc (Some r) env st (Z.of_nat i + 1) = Some st_i ∧
            bs_origin <$> st_buffers st_i !! b = Some P ∧
            st_surfaces st_i !! s =
              Some {| ss_pending := None; ss_current := Some b |}) ∧
         ((∀ j, Z.of_nat i < j < nb_layers desc →
                Ev_buffer_release b ∉ events (env j)) →
          bs_origin <$> st_buffers st' !! b = Some P)) ∧
    st_surfaces st' = attached_last s steps (st_surfaces st).
Proof.
  intros Hdesc Hready Hheap Hwp Hs Hok Henv.
  destruct (ready_loop_inv st Hready Hheap) as (wp'&s'&Hwp'&Hs'&Hinv).
  rewrite Hwp in Hwp'. injection Hwp' as <-. rewrite Hs in Hs'. injection Hs' as <-.
  destruct (layers_loop_upto img desc r env st wp s (Z.to_nat (nb_layers desc)) Hinv)
    as (st'&steps&d&Hrun&_&_&Hlen&Hsf&Hd&Hvis&Hsteps).
  { intros l Hl. destruct (Henv l) as [? ?]; [lia|].
    split; [apply desc_ok_layers; [done|lia]|done]. }
  exists st', steps, d. split.
  { unfold overlay_frame. rewrite Hdesc. specialize (Hrun []).
    by rewrite app_nil_r, seqZ_of_to_nat in Hrun. }
  split; [done|]. split; [done|].
  split. { by rewrite filter_sync_visible, Hvis, filter_sync_trace. }
  split; [done|]. split; [|done].
  intros i P b Hi.
  destruct (Hsteps i P b Hi) as (HP&Hb&(layer&Hlayer&Hrq)&Hmid&Hend).
  exists layer. split; [done|].
  destruct Hheap as [(H1&_&H3&_) _].
  split; [apply (keys_below_fresh _ _ _ H3); lia|]. split; [done|].
  split; [apply (keys_below_fresh _ _ _ H1); lia|]. split; [done|].
  intros Hnot. apply Hend. intros j Hj. apply Hnot. lia.
Qed.

Lemma overlay_frame_all_layers_witness :
  ∃ st' steps d,
    overlay_frame (Some {| planes_0 := Some desc_3layers |}) (Some crop_1080p)
      (Some dst_window) true env_release_first st_ready = Ok 0 st' ∧
    length steps = Z.to_nat (nb_layers desc_3layers) ∧
    st_log st' = st_log st_ready ++ d ∧
    length (List.filter is_sync d) = Z.to_nat (nb_layers desc_3layers) ∧
    List.filter visible d = flat_map (layer_trace (display host_params) 13%nat) steps ∧
    (∀ i P b, steps !! i = Some (P, b) →
       ∃ layer, layers desc_3layers !! i = Some layer ∧
         st_requests st_ready !! P = None ∧
         st_requests st' !! P =
           Some (layer_request desc_3layers crop_1080p layer Attached) ∧
         st_buffers st_ready !! b = None ∧
         (∃ st_i,
            after_layers {| planes_0 := Some desc_3layers |} desc_3layers
              (Some crop_1080p) env_release_first st_ready (Z.of_nat i + 1) =
              Some st_i ∧
            bs_origin <$> st_buffers st_i !! b = Some P ∧
            st_surfaces st_i !! 13%nat =
              Some {| ss_pending := None; ss_current := Some b |}) ∧
         ((∀ j, Z.of_nat i < j < nb_layers desc_3layers →
                Ev_buffer_release b ∉ events (env_release_first j)) →
          bs_origin <$> st_buffers st' !! b = Some P)) ∧
    st_surfaces st' = attached_last 13%nat steps (st_surfaces st_ready).
Proof.
  apply (overlay_frame_all_layers {| planes_0 := Some desc_3layers |} desc_3layers
           crop_1080p (Some dst_window) true env_release_first st_ready
           host_params 13%nat);
    try reflexivity.
  - exact heap_ok_ready.
  - intros l Hl. assert (l = 0 ∨ l = 1 ∨ l = 2) as [-> | [-> | ->]] by (cbn in Hl; lia);
      split; reflexivity.
Defined.

(** Three layers from the ready state.  While it answers the third layer
    the compositor releases buffer 17 of the first, which the second had
    replaced: the call returns 0, buffer 17 is destroyed and buffer 23 of
    the third layer is current. *)
Example overlay_frame_three_layers :
  ∃ st',
    overlay_frame (Some {| planes_0 := Some desc_3layers |}) (Some crop_1080p)
      (Some dst_window) true env_release_first st_ready = Ok 0 st' ∧
    releases_below (st_next st_ready) (events (env_release_first 2)) = false ∧
    st_surfaces st' !! 13%nat = Some {| ss_pending := None; ss_current := Some 23%nat |} ∧
    st_buffers st' !! 17%nat = None ∧
    (bs_origin <$> st_buffers st' !! 20%nat) = Some 18%nat ∧
    (bs_origin <$> st_buffers st' !! 23%nat) = Some 21%nat.
Proof. eexists. split; [vm_compute; reflexivity|]. repeat split. Qed.

(** The bound on the releases is needed: when the round-trip releases the
    buffer it has just created, [buffer_release] reads the [image] field of
    a frame record that [overlay_frame] has not written yet. *)
Example overlay_frame_release_too_early :
  overlay_frame (Some {| planes_0 := Some desc_1layer |}) (Some crop_1080p)
    (Some dst_window) true
    (fun _ => {| malloc_ok := true;
                 events := [Ev_params_created; Ev_buffer_release 17] |}) st_ready =
  Fault Uninitialised.
Proof. reflexivity. Qed.

(** C1, amended: when the server rejects layer [k] after creating the
    buffers of the layers before it, [overlay_frame] returns -1; the
    surfaces are as before the call when [k] is the first layer, and
    otherwise the video surface has the buffer of layer [k - 1] current,
    the last of the buffers that were attached and committed.  The events
    of a round-trip may release any buffer that existed when the layer's
    iteration started. *)
Theorem overlay_frame_create_failure (img : mp_image) (desc : AVDRMFrameDescriptor)
    (r : mp_rect) (dst : option mp_rect) (newframe : bool) (env : Z → layer_env)
    (st : state) (s : handle) (k : Z) :
  planes_0 img = Some desc →
  bridge_ready st = true → heap_ok st →
  video_surface (st_priv st) = Some s →
  desc_ok desc = true →
  0 ≤ k < nb_layers desc →
  (∀ l, 0 ≤ l < k → outcome (env l) = Attached) →
  outcome (env k) = CreateFailed →
  (∀ l, 0 ≤ l ≤ k → releases_earlier img desc (Some r) env st l = true) →
  ∃ st' steps,
    overlay_frame (Some img) (Some r) dst newframe env st = Ok (-1) st' ∧
    length steps = Z.to_nat k ∧
    st_surfaces st' = attached_last s steps (st_surfaces st) ∧
    (k = 0 → st_surfaces st' = st_surfaces st) ∧
    (∀ i P b, steps !! i = Some (P, b) →
       ∃ layer, layers desc !! i = Some layer ∧
         st_requests st' !! P = Some (layer_request desc r layer Attached) ∧
         st_buffers st !! b = None ∧
         (∃ st_i,
            after_layers img desc (Some r) env st (Z.of_nat i + 1) = Some st_i ∧
            bs_origin <$> st_buffers st_i !! b = Some P ∧
            st_surfaces st_i !! s =
              Some {| ss_pending := None; ss_current := Some b |}) ∧
         ((∀ j, Z.of_nat i < j ≤ k → Ev_buffer_release b ∉ events (env j)) →
          bs_origin <$> st_buffers st' !! b = Some P)).
Proof.
  intros Hdesc Hready Hheap Hs Hok Hk Hbefore Hfail Hrel.
  destruct (ready_loop_inv st Hready Hheap) as (wp&s'&Hwp&Hs'&Hinv).
  rewrite Hs in Hs'. injection Hs' as <-.
  destruct (layers_loop_upto img desc r env st wp s (Z.to_nat k) Hinv)
    as (st1&steps&d&Hrun&Hafter&Hinv1&Hlen&Hsf&_&_&Hsteps).
  { intros l Hl. split; [apply desc_ok_layers; [done|lia]|].
    split; [apply Hbefore; lia|apply Hrel; lia]. }
  rewrite Z2Nat.id in Hafter by lia.
  pose proof Hinv1 as (Hheap1&Hn1&Hwp1&[dm Hdm1]&Hs1&[ss Hss1]).
  assert (Hlk : layer_ok desc k = true) by (by apply desc_ok_layers).
  destruct (layer_ok_slots desc k Hlk) as (_&layer&Hlayer&_).
  assert (Hrelk : releases_below (st_next st1) (events (env k)) = true).
  { specialize (Hrel k). unfold releases_earlier in Hrel. rewrite Hafter in Hrel.
    apply Hrel. lia. }
  destruct (layer_step_failed img desc r env (st_next st1) st1 k layer wp dm s ss
              Hheap1 (le_n _) Hwp1 Hdm1 Hs1 Hss1 Hlk Hlayer
              (seqZ (0 + k + 1) (nb_layers desc - k - 1)) Hfail Hrelk)
    as (st'&Hrun'&_&_&_&Hlt&Hsf'&Hr'&_).
  exists st', steps. split.
  { unfold overlay_frame. rewrite Hdesc.
    replace (nb_layers desc) with (k + (1 + (nb_layers desc - k - 1))) at 1 by lia.
    rewrite seqZ_app by lia. rewrite (seqZ_cons (0 + k)) by lia.
    rewrite <- (seqZ_of_to_nat k), Hrun.
    replace (Z.succ (0 + k)) with (0 + k + 1) by lia.
    replace (Z.pred (1 + (nb_layers desc - k - 1))) with (nb_layers desc - k - 1) by lia.
    exact Hrun'. }
  split; [done|].
  split; [by rewrite Hsf', Hsf|].
  split.
  { intros ->. rewrite Hsf', Hsf. by destruct steps. }
  intros i P b Hi.
  destruct (Hsteps i P b Hi) as (HP&Hb&(layer'&Hlayer'&Hrq)&Hmid&Hend).
  exists layer'. split; [done|].
  split. { rewrite Hr', lookup_insert_ne by lia. done. }
  split. { destruct Hheap as [(H1&_&_) _]. apply (keys_below_fresh _ _ _ H1). lia. }
  split; [done|]. intros Hnot.
  assert (Hkeep : st_buffers st' !! b = st_buffers st1 !! b).
  { apply (layer_step_keeps img desc r env (st_next st1) st1 k layer wp dm
             (seqZ (0 + k + 1) (nb_layers desc - k - 1)) (-1) st' b); try done.
    - by rewrite Hfail.
    - by rewrite Hfail.
    - lia.
    - apply Hnot. apply lookup_lt_Some in Hi. lia. }
  rewrite Hkeep. apply Hend. intros j Hj. apply Hnot. lia.
Qed.

Lemma overlay_frame_create_failure_witness :
  ∃ st' steps,
    overlay_frame (Some {| planes_0 := Some desc_3layers |}) (Some crop_1080p)
      None true env_third_fails st_ready = Ok (-1) st' ∧
    length steps = Z.to_nat 2 ∧
    st_surfaces st' = attached_last 13%nat steps (st_surfaces st_ready) ∧
    (2 = 0 → st_surfaces st' = st_surfaces st_ready) ∧
    (∀ i P b, steps !! i = Some (P, b) →
       ∃ layer, layers desc_3layers !! i = Some layer ∧
         st_requests st' !! P =
           Some (layer_request desc_3layers crop_1080p layer Attached) ∧
         st_buffers st_ready !! b = None ∧
         (∃ st_i,
            after_layers {| planes_0 := Some desc_3layers |} desc_3layers
              (Some crop_1080p) env_third_fails st_ready (Z.of_nat i + 1) =
              Some st_i ∧
            bs_origin <$> st_buffers st_i !! b = Some P ∧
            st_surfaces st_i !! 13%nat =
              Some {| ss_pending := None; ss_current := Some b |}) ∧
         ((∀ j, Z.of_nat i < j ≤ 2 →
                Ev_buffer_release b ∉ events (env_third_fails j)) →
          bs_origin <$> st_buffers st' !! b = Some P)).
Proof.
  apply (overlay_frame_create_failure {| planes_0 := Some desc_3layers |}
           desc_3layers crop_1080p None true env_third_fails st_ready 13%nat 2);
    try reflexivity.
  - exact heap_ok_ready.
  - done.
  - intros l Hl. assert (l = 0 ∨ l = 1) as [-> | ->] by lia; reflexivity.
  - intros l Hl. assert (l = 0 ∨ l = 1 ∨ l = 2) as [-> | [-> | ->]] by lia;
      reflexivity.
Defined.
